(** * El Pais opinion scraper: a shallow embedding of [elpais_scraper.py]

    The development follows the source file top-down:

    - [Text]      the [str] methods and the regular expression the script uses;
    - [Analysis]  step 5 of [scrape_and_process_articles] (word frequencies);
    - [Effects]   outcomes of calls, the store and the monad of the script;
    - [Scraper]   [scrape_and_process_articles] and [run_browserstack_test];
    - [Examples]  concrete pages, sessions and collaborators;
    - [Reasoning] the predicates on runs that the statements use;
    - [Session]   the options for BrowserStack and
                  [initialize_translation_client];
    - [Properties], [Cases]  further predicates and concrete cases.

    The statements come last, in the order of the pipeline: the analysis,
    the title, the image, the translation, the loop, the BrowserStack run.

    Printing is modelled as an append to the console that cannot fail.
    Text is modelled over 8-bit characters with the classification Python
    gives to the ASCII code points: whitespace, letters and word characters
    outside ASCII are not covered by this model. *)

From Stdlib Require Import List String Ascii Bool Arith Lia DecimalString.
From Stdlib Require Import DecimalNat Permutation Sorting.Sorted.
Import ListNotations.
Local Open Scope string_scope.
Local Open Scope nat_scope.
Local Open Scope list_scope.

(* ===================================================================== *)
(** * Text: the [str] operations of the script *)
(* ===================================================================== *)

Module Text.

Definition code (c : ascii) : nat := nat_of_ascii c.

Definition between (lo hi : nat) (c : ascii) : bool :=
  (lo <=? code c) && (code c <=? hi).

(** [str.isspace] on ASCII: TAB..CR, FS..US and the space. *)
Definition is_space (c : ascii) : bool :=
  between 9 13 c || between 28 32 c.

Definition is_upper (c : ascii) : bool := between 65 90 c.
Definition is_lower (c : ascii) : bool := between 97 122 c.
Definition is_digit (c : ascii) : bool := between 48 57 c.

(** The character class [[a-zA-Z]]. *)
Definition is_alpha (c : ascii) : bool := is_lower c || is_upper c.

(** The class [\w], against which [\b] is defined. *)
Definition is_word (c : ascii) : bool :=
  is_alpha c || is_digit c || Ascii.eqb c "_"%char.

Definition lower_char (c : ascii) : ascii :=
  if is_upper c then ascii_of_nat (code c + 32) else c.

(** [s.lower()] *)
Fixpoint lower (s : string) : string :=
  match s with
  | EmptyString => EmptyString
  | String c r => String (lower_char c) (lower r)
  end.

Fixpoint lstrip (s : string) : string :=
  match s with
  | String c r => if is_space c then lstrip r else s
  | EmptyString => EmptyString
  end.

Fixpoint rstrip (s : string) : string :=
  match s with
  | EmptyString => EmptyString
  | String c r =>
      match rstrip r with
      | EmptyString => if is_space c then EmptyString else String c EmptyString
      | r' => String c r'
      end
  end.

(** [s.strip()] *)
Definition strip (s : string) : string := rstrip (lstrip s).

(** [s.startswith(p)] *)
Definition startswith (p s : string) : bool := String.prefix p s.

(** [p in s] *)
Fixpoint contains (p s : string) : bool :=
  String.prefix p s ||
  match s with
  | EmptyString => false
  | String _ r => contains p r
  end.

(** [s.split(sep)] for a one-character separator: every occurrence cuts,
    so the result always has at least one piece. *)
Fixpoint split (sep : ascii) (s : string) : list string :=
  match s with
  | EmptyString => [EmptyString]
  | String c r =>
      if Ascii.eqb c sep then EmptyString :: split sep r
      else match split sep r with
           | piece :: pieces => String c piece :: pieces
           | [] => [String c EmptyString]
           end
  end.

(** [s.replace(old, new)] for a one-character [old]. *)
Fixpoint replace (old : ascii) (new : string) (s : string) : string :=
  match s with
  | EmptyString => EmptyString
  | String c r =>
      String.append (if Ascii.eqb c old then new else String c EmptyString)
                    (replace old new r)
  end.

(** [str(n)] for a non-negative integer. *)
Definition str_of_nat (n : nat) : string :=
  NilEmpty.string_of_uint (Nat.to_uint n).

(** ** [re.findall(r'\b[a-zA-Z]+\b', s)]

    The scanner reads [s] once.  A match can only start at a word boundary
    on a letter; it extends greedily over letters and needs a boundary at
    its end.  When the run of letters is followed by another word character
    (a digit or [_]) no shorter match has a boundary at its end either, and
    no position inside the same run of word characters is a boundary, so
    the whole run is skipped. *)
Inductive scan_state : Type :=
| Outside                      (* the previous character is not a word character *)
| Letters (acc : string)       (* inside a candidate match, letters so far (reversed) *)
| Skipping.                    (* inside a run of word characters that cannot match *)

Fixpoint rev_string (acc s : string) : string :=
  match s with
  | EmptyString => acc
  | String c r => rev_string (String c acc) r
  end.

Fixpoint findall_from (st : scan_state) (s : string) : list string :=
  match s with
  | EmptyString =>
      match st with
      | Letters acc => [rev_string EmptyString acc]
      | _ => []
      end
  | String c r =>
      match st with
      | Outside =>
          if is_alpha c then findall_from (Letters (String c EmptyString)) r
          else if is_word c then findall_from Skipping r
          else findall_from Outside r
      | Letters acc =>
          if is_alpha c then findall_from (Letters (String c acc)) r
          else if is_word c then findall_from Skipping r
          else rev_string EmptyString acc :: findall_from Outside r
      | Skipping =>
          if is_word c then findall_from Skipping r
          else findall_from Outside r
      end
  end.

Definition findall_words (s : string) : list string := findall_from Outside s.

End Text.

(* ===================================================================== *)
(** * Analysis: step 5, repeated words of the translated headers *)
(* ===================================================================== *)

Module Analysis.
Import Text.

(** A [Counter] (and the [dict] built from it) keeps its keys in the order
    of first insertion, which is the order the script prints them in. *)
Definition table := list (string * nat).

Fixpoint lookup (w : string) (t : table) : option nat :=
  match t with
  | [] => None
  | (k, n) :: rest => if String.eqb k w then Some n else lookup w rest
  end.

(** One more occurrence of [w]. *)
Fixpoint count_one (w : string) (t : table) : table :=
  match t with
  | [] => [(w, 1)]
  | (k, n) :: rest =>
      if String.eqb k w then (k, S n) :: rest else (k, n) :: count_one w rest
  end.

(** [Counter(all_words)] *)
Definition Counter (all_words : list string) : table :=
  fold_left (fun t w => count_one w t) all_words [].

(** The loop of lines 307-310. *)
Fixpoint collect_words (headers : list string) : list string :=
  match headers with
  | [] => []
  | header :: rest => findall_words (lower header) ++ collect_words rest
  end.

(** Line 314: words repeated more than twice. *)
Definition repeated_words (headers : list string) : table :=
  filter (fun '(_, count) => 2 <? count) (Counter (collect_words headers)).

(** Two tables are the same mapping. *)
Definition same_mapping (t1 t2 : table) : Prop :=
  forall w, lookup w t1 = lookup w t2.

End Analysis.

(* ===================================================================== *)
(** * Effects: outcomes of calls, the collaborators, the store, the monad *)
(* ===================================================================== *)

Module Effects.

(** An exception, as far as the script looks at it: [str(e)].  Only
    instances of [Exception] are modelled; every handler of the script
    ([except Exception] and the bare [except]) catches all of them. *)
Inductive exn : Type := Exception (message : string).

Definition str (e : exn) : string := let 'Exception m := e in m.

(** What a call does: it returns a value or raises. *)
Inductive result (A : Type) : Type :=
| Returns (a : A)
| Raises (e : exn).
Arguments Returns {A} a.
Arguments Raises {A} e.

(** ** Selenium *)

Inductive By : Type := TAG_NAME | CSS_SELECTOR.

(** A rendered element, given by what each query on it answers. *)
#[local] Unset Elimination Schemes.
Inductive WebElement : Type :=
  Element (text : result string)
          (get_attribute : string -> result (option string))
          (find_element : By -> string -> result WebElement)
          (find_elements : By -> string -> result (list WebElement)).

#[local] Set Elimination Schemes.

Definition text (el : WebElement) : result string :=
  let 'Element t _ _ _ := el in t.
Definition get_attribute (el : WebElement) : string -> result (option string) :=
  let 'Element _ a _ _ := el in a.
Definition find_element (el : WebElement) : By -> string -> result WebElement :=
  let 'Element _ _ f _ := el in f.
Definition find_elements (el : WebElement) : By -> string -> result (list WebElement) :=
  let 'Element _ _ _ f := el in f.

(** The argument of [driver.execute_script] in this script is always a
    [browserstack_executor] command that sets the session status. *)
Inductive script : Type := setSessionStatus (status reason : string).

(** A browsing session, given by what each call on it answers. *)
Record WebDriver : Type := {
  driver_get : string -> result unit;
  current_url : result string;
  (* WebDriverWait(driver, timeout).until(presence_of_element_located((by, value))) *)
  wait_until_present : nat -> By -> string -> result unit;
  driver_find_elements : By -> string -> result (list WebElement);
  execute_script : script -> result unit;
  quit : result unit
}.

(** The calls made on the session, in order. *)
Inductive DriverCall : Type :=
| CallGet (url : string)
| CallWait
| CallFindElements
| CallExecuteScript (s : script)
| CallQuit.

(** ** requests *)

(** A response to a streamed GET: the status is known when [requests.get]
    returns, the body is read when [response.content] is evaluated, which
    can raise in its turn. *)
Record Response : Type := { status_code : nat; content : result string }.

(** ** Dictionaries with string keys and values *)

Definition dict := list (string * string).

Fixpoint dict_get (d : dict) (key : string) : option string :=
  match d with
  | [] => None
  | (k, v) :: rest => if String.eqb k key then Some v else dict_get rest key
  end.

(** [d[key]] *)
Definition getitem (d : dict) (key : string) : result string :=
  match dict_get d key with
  | Some v => Returns v
  | None => Raises (Exception key)      (* KeyError *)
  end.

(** [d.get(key, default)] *)
Definition get_default (d : dict) (key default : string) : string :=
  match dict_get d key with
  | Some v => v
  | None => default
  end.

(** ** What the script prints, one constructor per [print] *)

Inductive Event : Type :=
| Navigating (url : string)                                   (* 157 *)
| ArticlesLoaded                                              (* 164 *)
| TimeoutWaiting (e : exn)                                    (* 166 *)
| FoundArticles (n : nat)                                     (* 170 *)
| ProcessingArticle (n : nat)                                 (* 176 *)
| TitleSpanish (title : string)                               (* 186 *)
| CouldNotFindTitle (n : nat) (e : exn)                       (* 188 *)
| ContentSpanish (content : string)                           (* 203 *)
| AttemptingDownload (url : string)                           (* 257 *)
| ImageSaved (path : string)                                  (* 268 *)
| FailedToDownload (url : string) (status : nat)              (* 270 *)
| NoValidImageUrl                                             (* 272 *)
| ImageHandlingError (n : nat) (e : exn)                      (* 274 *)
| TranslatedTitle (title : string)                            (* 284 *)
| ErrorTranslating (title : string) (e : exn)                 (* 287 *)
| TranslationSkipped                                          (* 290 *)
| UnexpectedError (n : nat) (e : exn)                         (* 300 *)
| AnalyzingHeaders                                            (* 305 *)
| RepeatedWords (t : Analysis.table)                          (* 317-319 *)
| NoRepeatedWords                                             (* 321 *)
| NoTranslatedHeaders                                         (* 323 *)
| InitializingBrowserStack (browser os os_version : string)   (* 76 *)
| CredentialsNotSet                                           (* 79 *)
| BrowserStackInitialized (browser : string)                  (* 146 *)
| TestPassed (session : string)                               (* 333 *)
| TestFailed (session : string) (e : exn)                     (* 339 *)
| DriverClosed (session : string).                            (* 343 *)

(** ** The store: everything the script mutates *)

Record Store : Type := {
  stdout : list Event;                     (* the console *)
  files : list (string * string);          (* files opened for writing: path, bytes held *)
  all_translated_headers : list string;    (* the list of line 173 *)
  driver_calls : list DriverCall           (* calls made on the session *)
}.

Definition empty_store : Store :=
  {| stdout := []; files := []; all_translated_headers := []; driver_calls := [] |}.

(** ** The monad: a statement runs in a store, returns or raises, and
    leaves a store behind in both cases. *)

Definition M (A : Type) : Type := Store -> result A * Store.

Definition ret {A} (a : A) : M A := fun s => (Returns a, s).

Definition raise {A} (e : exn) : M A := fun s => (Raises e, s).

Definition bind {A B} (m : M A) (k : A -> M B) : M B :=
  fun s =>
    match m s with
    | (Returns a, s') => k a s'
    | (Raises e, s') => (Raises e, s')
    end.

(** The outcome of a call on a collaborator. *)
Definition call {A} (r : result A) : M A := fun s => (r, s).

(** [try: m except Exception as e: handler e] *)
Definition try_except {A} (m : M A) (handler : exn -> M A) : M A :=
  fun s =>
    match m s with
    | (Returns a, s') => (Returns a, s')
    | (Raises e, s') => handler e s'
    end.

(** [try: m finally: cleanup]; an exception of [cleanup] replaces the
    outcome of [m]. *)
Definition try_finally {A} (m : M A) (cleanup : M unit) : M A :=
  fun s =>
    match m s with
    | (r, s') =>
        match cleanup s' with
        | (Returns _, s'') => (r, s'')
        | (Raises e, s'') => (Raises e, s'')
        end
    end.

(** [print]: the line goes to the console; printing is taken never to
    raise. *)
Definition print (ev : Event) : M unit :=
  fun s =>
    (Returns tt,
     {| stdout := stdout s ++ [ev]; files := files s;
        all_translated_headers := all_translated_headers s;
        driver_calls := driver_calls s |}).

(** A call on the session: it is recorded, then it returns or raises. *)
Definition on_driver {A} (c : DriverCall) (r : result A) : M A :=
  fun s =>
    (r,
     {| stdout := stdout s; files := files s;
        all_translated_headers := all_translated_headers s;
        driver_calls := driver_calls s ++ [c] |}).

Definition append_header (h : string) : M unit :=
  fun s =>
    (Returns tt,
     {| stdout := stdout s; files := files s;
        all_translated_headers := all_translated_headers s ++ [h];
        driver_calls := driver_calls s |}).

Definition set_headers (l : list string) : M unit :=
  fun s =>
    (Returns tt,
     {| stdout := stdout s; files := files s;
        all_translated_headers := l;
        driver_calls := driver_calls s |}).

Definition get_headers : M (list string) :=
  fun s => (Returns (all_translated_headers s), s).

Definition store_file (path bytes : string) : M unit :=
  fun s =>
    (Returns tt,
     {| stdout := stdout s; files := files s ++ [(path, bytes)];
        all_translated_headers := all_translated_headers s;
        driver_calls := driver_calls s |}).

Declare Scope monad_scope.
Delimit Scope monad_scope with monad.
Notation "x <- m ;; k" := (bind m (fun x => k))
  (at level 61, m at next level, right associativity) : monad_scope.
Notation "m ;; k" := (bind m (fun _ => k))
  (at level 61, right associativity) : monad_scope.

End Effects.

(* ===================================================================== *)
(** * Scraper: [scrape_and_process_articles] and [run_browserstack_test] *)
(* ===================================================================== *)

Module Scraper.
Import Text Analysis Effects.
Local Open Scope monad_scope.

Definition OPINION_SECTION_URL : string := "https://elpais.com/opinion/".
Definition IMAGES_DIR : string := "article_images".

Definition TITLE_NOT_FOUND : string := "Title not found".
Definition CONTENT_NOT_SCRAPED : string :=
  "Content summary not easily scraped from this section.".
Definition TRANSLATION_FAILED : string := "Translation failed".

(** One entry of [scraped_articles_data]. *)
Record Article : Type := {
  title_spanish : string;
  content_spanish : string;
  image_url : option string;
  title_english : string
}.

(** Truth value of a [str] and of an optional [str]. *)
Definition nonempty (s : string) : bool := negb (String.eqb s "").

Definition truthy (o : option string) : bool :=
  match o with
  | Some s => nonempty s
  | None => false
  end.

(** [l[0]] *)
Definition item0 (l : list string) : result string :=
  match l with
  | x :: _ => Returns x
  | [] => Raises (Exception "list index out of range")
  end.

(** [s.split(',')[0].strip().split(' ')[0]] (lines 227 and 253) *)
Definition first_candidate (s : string) : result string :=
  match item0 (split "," s) with
  | Returns entry => item0 (split " " (strip entry))
  | Raises e => Raises e
  end.

(** The two local variables of step 3. *)
Record Locals : Type := {
  img_element : option WebElement;
  article_image_url : option string
}.

(** Lines 223-228: the first [source] whose [srcset] mentions http. *)
Fixpoint scan_sources (source_elements : list WebElement) : result (option string) :=
  match source_elements with
  | [] => Returns None
  | source :: rest =>
      match get_attribute source "srcset" with
      | Raises e => Raises e
      | Returns srcset =>
          match srcset with
          | Some s =>
              if nonempty s && contains "http" s then
                match first_candidate s with
                | Returns u => Returns (Some u)
                | Raises e => Raises e
                end
              else scan_sources rest
          | None => scan_sources rest
          end
      end
  end.

(** Lines 212-215. *)
Definition attempt_1 (article_element : WebElement) : Locals :=
  match find_element article_element CSS_SELECTOR
          "div.c_m img, figure img, img.c_m_e, img.c_d_m" with
  | Returns img => {| img_element := Some img; article_image_url := None |}
  | Raises _ => {| img_element := None; article_image_url := None |}
  end.

(** Lines 218-232.  An exception leaves the locals as they are at that
    point: the URL is assigned right before the [break], so it is lost
    only when the exception comes before. *)
Definition attempt_2 (article_element : WebElement) (l : Locals) : Locals :=
  match img_element l with
  | Some _ => l
  | None =>
      match find_element article_element TAG_NAME "picture" with
      | Raises _ => l
      | Returns picture_element =>
          match find_elements picture_element TAG_NAME "source" with
          | Raises _ => l
          | Returns source_elements =>
              match scan_sources source_elements with
              | Raises _ => l
              | Returns found =>
                  let url := match found with
                             | Some u => Some u
                             | None => article_image_url l
                             end in
                  if truthy url then {| img_element := None; article_image_url := url |}
                  else
                    match find_element picture_element TAG_NAME "img" with
                    | Returns img => {| img_element := Some img; article_image_url := url |}
                    | Raises _ => {| img_element := None; article_image_url := url |}
                    end
              end
          end
      end
  end.

(** Lines 235-239. *)
Definition attempt_3 (article_element : WebElement) (l : Locals) : Locals :=
  match img_element l with
  | Some _ => l
  | None =>
      if truthy (article_image_url l) then l
      else
        match find_element article_element TAG_NAME "img" with
        | Returns img => {| img_element := Some img; article_image_url := article_image_url l |}
        | Raises _ => l
        end
  end.

Definition possible_src_attrs : list string := ["data-srcset"; "data-src"; "src"].

(** Lines 244-248: the first attribute whose value mentions http. *)
Fixpoint first_http_attr (img : WebElement) (attrs : list string) : result (option string) :=
  match attrs with
  | [] => Returns None
  | attr :: rest =>
      match get_attribute img attr with
      | Raises e => Raises e
      | Returns temp_url =>
          match temp_url with
          | Some u =>
              if nonempty u && contains "http" u then Returns (Some u)
              else first_http_attr img rest
          | None => first_http_attr img rest
          end
      end
  end.

(** Lines 241-248: the URL after the attributes of the image element, if
    there is one, have been read. *)
Definition read_attributes (l : Locals) : result (option string) :=
  match img_element l with
  | None => Returns (article_image_url l)
  | Some img =>
      match first_http_attr img possible_src_attrs with
      | Raises e => Raises e
      | Returns (Some u) => Returns (Some u)
      | Returns None => Returns (article_image_url l)
      end
  end.

(** Lines 252-253. *)
Definition clean_url (u : string) : result string :=
  if contains "," u then first_candidate u else Returns u.

(** What a finished call of [scrape_and_process_articles] leaves in its
    local variables.  The Python function returns [None] in every case;
    the model returns the locals so that they can be spoken about. *)
Inductive Outcome : Type :=
| NotReady                                    (* the [return] of line 167 *)
| Finished (scraped_articles_data : list Article)
           (translated_headers : list string)
           (repeated : table).

Section Collaborators.

(** [requests.get(url, stream=True, timeout=10, headers=...)] *)
Variable requests_get : string -> result Response.

(** [open(path, 'wb')] *)
Variable open_wb : string -> result unit.

(** The module-level [translate_client]: [None], or a client whose
    [translate(text, target_language='en')] returns a dictionary. *)
Variable translate_client : option (string -> result dict).

(** Lines 183-189. *)
Definition scrape_title (i : nat) (article_element : WebElement) : M string :=
  try_except
    (title_element <- call (find_element article_element TAG_NAME "h2") ;;
     raw <- call (text title_element) ;;
     let article_title := strip raw in
     print (TitleSpanish article_title) ;;
     ret article_title)
    (fun e =>
       print (CouldNotFindTitle (i + 1) e) ;;
       ret TITLE_NOT_FOUND).

(** Lines 192-203. *)
Definition scrape_content (article_element : WebElement) : M string :=
  article_content <-
    try_except
      (content_element <- call (find_element article_element CSS_SELECTOR "p.c_d") ;;
       raw <- call (text content_element) ;;
       ret (strip raw))
      (fun _ =>
         try_except
           (content_element <-
              call (find_element article_element CSS_SELECTOR "div.c_d_p") ;;
            raw <- call (text content_element) ;;
            ret (strip raw))
           (fun _ => ret CONTENT_NOT_SCRAPED)) ;;
  print (ContentSpanish article_content) ;;
  ret article_content.

(** Lines 255-270.  The file is opened (created or truncated) at line 266,
    before [response.content] is evaluated at line 267: a body that cannot
    be read leaves the file empty, and the exception goes on. *)
Definition download (i : nat) (url : string) : M unit :=
  let img_name := String.append "article_"
                    (String.append (str_of_nat (i + 1)) "_cover.jpg") in
  let img_path := String.append IMAGES_DIR (String.append "/" img_name) in
  print (AttemptingDownload url) ;;
  response <- call (requests_get url) ;;
  if status_code response =? 200 then
    call (open_wb img_path) ;;
    match content response with
    | Returns body =>
        store_file img_path body ;;
        print (ImageSaved img_path)
    | Raises e =>
        store_file img_path "" ;;
        raise e
    end
  else
    print (FailedToDownload url (status_code response)).

(** Lines 206-274: step 3.  The value returned is [article_image_url]
    as the step leaves it; the step itself never raises. *)
Definition handle_image (i : nat) (article_element : WebElement) : M (option string) :=
  let located :=
    attempt_3 article_element (attempt_2 article_element (attempt_1 article_element)) in
  match read_attributes located with
  | Raises img_e =>
      print (ImageHandlingError (i + 1) img_e) ;;
      ret (article_image_url located)
  | Returns None =>
      print NoValidImageUrl ;;
      ret None
  | Returns (Some u) =>
      if nonempty u && startswith "http" u then
        match clean_url u with
        | Raises img_e =>
            print (ImageHandlingError (i + 1) img_e) ;;
            ret (Some u)
        | Returns u' =>
            try_except (download i u')
              (fun img_e => print (ImageHandlingError (i + 1) img_e)) ;;
            ret (Some u')
        end
      else
        print NoValidImageUrl ;;
        ret (Some u)
  end.

(** Lines 278-290: step 4. *)
Definition translate_title (article_title : string) : M string :=
  match translate_client with
  | Some translate =>
      if negb (String.eqb article_title TITLE_NOT_FOUND) then
        try_except
          (translation <- call (translate article_title) ;;
           translated_title <- call (getitem translation "translatedText") ;;
           print (TranslatedTitle translated_title) ;;
           append_header translated_title ;;
           ret translated_title)
          (fun e =>
             print (ErrorTranslating article_title e) ;;
             ret TRANSLATION_FAILED)
      else
        print TranslationSkipped ;;
        ret ""
  | None =>
      print TranslationSkipped ;;
      ret ""
  end.

(** Lines 182-297 up to the [append]: the fields of the record. *)
Definition article_fields (i : nat) (article_element : WebElement) : M Article :=
  article_title <- scrape_title i article_element ;;
  article_content <- scrape_content article_element ;;
  url <- handle_image i article_element ;;
  translated_title <- translate_title article_title ;;
  ret {| title_spanish := article_title;
         content_spanish := article_content;
         image_url := url;
         title_english := translated_title |}.

End Collaborators.

(** The loop of lines 175-301 over a body [fields] for the statements of
    its [try] block before the final [append]: a record is appended when
    the body returns, and [continue] follows when it raises. *)
Fixpoint for_articles (fields : nat -> WebElement -> M Article)
    (i : nat) (elements : list WebElement) (scraped_articles_data : list Article)
    : M (list Article) :=
  match elements with
  | [] => ret scraped_articles_data
  | article_element :: rest =>
      print (ProcessingArticle (i + 1)) ;;
      data <-
        try_except
          (record <- fields i article_element ;;
           ret (scraped_articles_data ++ [record]))
          (fun e =>
             print (UnexpectedError (i + 1) e) ;;
             ret scraped_articles_data) ;;
      for_articles fields (S i) rest data
  end.

(** Line 175: [enumerate(articles_elements[:5])]. *)
Definition process_articles (fields : nat -> WebElement -> M Article)
    (articles_elements : list WebElement) : M (list Article) :=
  for_articles fields 0 (firstn 5 articles_elements) [].

(** Lines 304-323: step 5. *)
Definition analyze_headers (headers : list string) : M table :=
  match headers with
  | [] =>
      print NoTranslatedHeaders ;;
      ret []
  | _ :: _ =>
      print AnalyzingHeaders ;;
      let repeated := repeated_words headers in
      match repeated with
      | [] => print NoRepeatedWords
      | _ :: _ => print (RepeatedWords repeated)
      end ;;
      ret repeated
  end.

Section Pipeline.

Variable requests_get : string -> result Response.
Variable open_wb : string -> result unit.
Variable translate_client : option (string -> result dict).

(** Lines 151-323. *)
Definition scrape_and_process_articles (driver : WebDriver) : M Outcome :=
  on_driver (CallGet OPINION_SECTION_URL) (driver_get driver OPINION_SECTION_URL) ;;
  url <- call (current_url driver) ;;
  print (Navigating url) ;;
  loaded <-
    try_except
      (on_driver CallWait (wait_until_present driver 15 TAG_NAME "article") ;;
       print ArticlesLoaded ;;
       ret true)
      (fun e =>
         print (TimeoutWaiting e) ;;
         ret false) ;;
  if negb loaded then ret NotReady
  else
    articles_elements <-
      on_driver CallFindElements (driver_find_elements driver TAG_NAME "article") ;;
    print (FoundArticles (List.length articles_elements)) ;;
    set_headers [] ;;
    scraped_articles_data <-
      process_articles (article_fields requests_get open_wb translate_client)
        articles_elements ;;
    headers <- get_headers ;;
    repeated <- analyze_headers headers ;;
    ret (Finished scraped_articles_data headers repeated).

(** *** BrowserStack *)

Variable BROWSERSTACK_USERNAME : string.
Variable BROWSERSTACK_ACCESS_KEY : string.

(** [webdriver.Remote(command_executor=..., options=...)] for the
    options built from a configuration. *)
Variable webdriver_Remote : dict -> result WebDriver.

(** Lines 74-147, without the construction of the options object. *)
Definition get_webdriver_browserstack (browser_config : dict) : M WebDriver :=
  browser <- call (getitem browser_config "browserName") ;;
  print (InitializingBrowserStack browser
           (get_default browser_config "os" "N/A")
           (get_default browser_config "os_version" "N/A")) ;;
  if negb (nonempty BROWSERSTACK_USERNAME) || negb (nonempty BROWSERSTACK_ACCESS_KEY) then
    print CredentialsNotSet ;;
    raise (Exception "BrowserStack credentials missing.")
  else
    driver <- call (webdriver_Remote browser_config) ;;
    print (BrowserStackInitialized browser) ;;
    ret driver.

(** [f"{config['browserName']} ({config.get('device', config.get('os_version', 'Desktop'))})"] *)
Definition session_name (config : dict) : result string :=
  match getitem config "browserName" with
  | Raises e => Raises e
  | Returns browser =>
      Returns
        (String.append browser
           (String.append " ("
              (String.append
                 (get_default config "device" (get_default config "os_version" "Desktop"))
                 ")")))
  end.

Definition passed_script : script :=
  setSessionStatus "passed" "Test completed successfully".

(** Lines 336-338: the reason carries [str(e)] with its quotes escaped. *)
Definition failed_script (e : exn) : script :=
  let error_message :=
    replace "034"%char (String "092"%char (String "034"%char EmptyString)) (str e) in
  setSessionStatus "failed" (String.append "Test failed: " error_message).

(** Lines 326-343.  [driver] is [None] until line 329 has returned. *)
Definition run_browserstack_test (config : dict) : M unit :=
  fun s =>
    match get_webdriver_browserstack config s with
    | (Raises e, s') =>
        (* except: no driver to report to; finally: no driver to quit *)
        (name <- call (session_name config) ;;
         print (TestFailed name e)) s'
    | (Returns driver, s') =>
        try_finally
          (try_except
             (scrape_and_process_articles driver ;;
              on_driver (CallExecuteScript passed_script)
                (execute_script driver passed_script) ;;
              name <- call (session_name config) ;;
              print (TestPassed name))
             (fun e =>
                on_driver (CallExecuteScript (failed_script e))
                  (execute_script driver (failed_script e)) ;;
                name <- call (session_name config) ;;
                print (TestFailed name e)))
          (on_driver CallQuit (quit driver) ;;
           name <- call (session_name config) ;;
           print (DriverClosed name)) s'
    end.

End Pipeline.

End Scraper.

(* ===================================================================== *)
(** * Concrete pages and collaborators *)
(* ===================================================================== *)

Module Examples.
Import Text Analysis Effects Scraper.

Definition no_such_element : exn := Exception "no such element".

Definition by_eqb (a b : By) : bool :=
  match a, b with
  | TAG_NAME, TAG_NAME | CSS_SELECTOR, CSS_SELECTOR => true
  | _, _ => false
  end.

Fixpoint child (children : list (By * string * WebElement)) (by_ : By) (value : string)
    : result WebElement :=
  match children with
  | [] => Raises no_such_element
  | (b, v, el) :: rest =>
      if by_eqb b by_ && String.eqb v value then Returns el else child rest by_ value
  end.

(** An element with a text and attributes and no descendants. *)
Definition leaf (txt : string) (attrs : dict) : WebElement :=
  Element (Returns txt) (fun name => Returns (dict_get attrs name))
          (fun _ _ => Raises no_such_element) (fun _ _ => Returns []).

(** An element that answers [find_element] from a list of descendants. *)
Definition node (children : list (By * string * WebElement)) : WebElement :=
  Element (Returns "") (fun _ => Returns None) (child children) (fun _ _ => Returns []).

(** [<article><h2>t</h2><img src=u></article>] *)
Definition article_with_img (t : string) (attrs : dict) : WebElement :=
  node [(TAG_NAME, "h2", leaf t []); (TAG_NAME, "img", leaf "" attrs)].

(** [<article><img src=u></article>]: no heading. *)
Definition article_without_h2 : WebElement :=
  node [(TAG_NAME, "img", leaf "" [("src", "https://img.example/a.jpg")])].

Definition srcset_article : WebElement :=
  article_with_img "Tormenta"
    [("data-srcset", "http://a.jpg 1x, http://b.jpg 2x")].

Definition relative_article : WebElement :=
  article_with_img "Tribuna"
    [("src", "/resizer/photo.jpg?src=https://cdn.example/photo.jpg")].

Definition plain_article (t : string) : WebElement :=
  article_with_img t [("src", "http://a.jpg")].

(** A session on a page that shows the given article elements. *)
Definition page (articles : list WebElement) : WebDriver :=
  {| driver_get := fun _ => Returns tt;
     current_url := Returns OPINION_SECTION_URL;
     wait_until_present := fun _ _ _ => Returns tt;
     driver_find_elements := fun _ _ => Returns articles;
     execute_script := fun _ => Returns tt;
     quit := Returns tt |}.

(** A session on a page where no article ever shows up. *)
Definition stalled_page : WebDriver :=
  {| driver_get := fun _ => Returns tt;
     current_url := Returns OPINION_SECTION_URL;
     wait_until_present := fun _ _ _ => Raises (Exception "TimeoutException");
     driver_find_elements := fun _ _ => Returns [];
     execute_script := fun _ => Returns tt;
     quit := Returns tt |}.

Definition ok_response : Response :=
  {| status_code := 200; content := Returns "JPEG" |}.
Definition not_found_response : Response :=
  {| status_code := 404; content := Returns "" |}.

Definition get_ok (url : string) : result Response := Returns ok_response.
Definition get_404 (url : string) : result Response := Returns not_found_response.
Definition get_timeout (url : string) : result Response :=
  Raises (Exception "ReadTimeout").

(** A response whose status is 200 and whose body cannot be read. *)
Definition cut_off_response : Response :=
  {| status_code := 200; content := Raises (Exception "ReadTimeout") |}.
Definition get_cut_off (url : string) : result Response := Returns cut_off_response.

Definition open_ok (path : string) : result unit := Returns tt.

(** A translation client that raises on one title and answers every other
    title with the title itself. *)
Definition failing_on (bad : string) (t : string) : result dict :=
  if String.eqb t bad then Raises (Exception "ServiceUnavailable")
  else Returns [("translatedText", t)].

Definition chrome_config : dict :=
  [("browserName", "chrome"); ("browserVersion", "latest");
   ("os", "Windows"); ("os_version", "10")].

Definition storm_headlines : list string :=
  ["Storm hits city"; "City storm warning issued"; "Storm storm everywhere city"].

End Examples.

(* ===================================================================== *)
(** * Reasoning about runs: what a statement leaves alone, whether it can
      raise, and what it does not depend on *)
(* ===================================================================== *)

Module Reasoning.
Import Text Analysis Effects Scraper.

(** Every run of [m] relates the store before to the store after. *)
Definition frames {A} (R : Store -> Store -> Prop) (m : M A) : Prop :=
  forall s, R s (snd (m s)).

(** [m] returns in every store: no exception escapes it. *)
Definition never_raises {A} (m : M A) : Prop :=
  forall s, exists a, fst (m s) = Returns a.

(** Two statements have the same outcome and add the same translated
    headers, whatever the stores they run in. *)
Definition alike {A} (m1 m2 : M A) : Prop :=
  forall s1 s2,
    fst (m1 s1) = fst (m2 s2) /\
    exists added,
      all_translated_headers (snd (m1 s1)) = all_translated_headers s1 ++ added /\
      all_translated_headers (snd (m2 s2)) = all_translated_headers s2 ++ added.

Definition same_files (s s' : Store) : Prop := files s' = files s.

Definition same_headers (s s' : Store) : Prop :=
  all_translated_headers s' = all_translated_headers s.

Definition is_quit (c : DriverCall) : bool :=
  match c with
  | CallQuit => true
  | _ => false
  end.

(** How many times [driver.quit()] has been called. *)
Definition quits (s : Store) : nat :=
  List.length (filter is_quit (driver_calls s)).

Definition same_quits (s s' : Store) : Prop := quits s' = quits s.

(** The statuses sent to BrowserStack, in order. *)
Definition reported_statuses (s : Store) : list string :=
  flat_map (fun c => match c with
                     | CallExecuteScript (setSessionStatus status _) => [status]
                     | _ => []
                     end) (driver_calls s).

(** A GET that does not succeed: [requests.get] raises (a timeout among
    others) or answers with a status other than 200. *)
Definition download_fails (r : result Response) : Prop :=
  match r with
  | Raises _ => True
  | Returns response => status_code response <> 200
  end.

Section Alone.
Variable requests_get : string -> result Response.
Variable open_wb : string -> result unit.
Variable translate_client : option (string -> result dict).

(** One article processed on its own, from the empty store. *)
Definition alone (article_element : WebElement) : result Article * Store :=
  article_fields requests_get open_wb translate_client 0 article_element empty_store.

(** The records and the translated headers that the elements of a list
    give when each is processed on its own. *)
Definition records_alone (l : list WebElement) : list Article :=
  flat_map (fun el => match fst (alone el) with
                      | Returns record => [record]
                      | Raises _ => []
                      end) l.

Definition headers_alone (l : list WebElement) : list string :=
  flat_map (fun el => all_translated_headers (snd (alone el))) l.
End Alone.

End Reasoning.

(* ===================================================================== *)
(** * Session: the options sent to BrowserStack and the translation client *)
(* ===================================================================== *)

Module Session.
Import Text Analysis Effects Scraper.

(** [d[key] = value]: a key that is there keeps its place. *)
Fixpoint dict_set (d : dict) (key value : string) : dict :=
  match d with
  | [] => [(key, value)]
  | (k, v) :: rest =>
      if String.eqb k key then (k, value) :: rest else (k, v) :: dict_set rest key value
  end.

(** [if src in browser_config: d[dst] = browser_config[src]] (lines 128-135) *)
Definition copy_key (browser_config : dict) (src dst : string) (d : dict) : dict :=
  match dict_get browser_config src with
  | Some v => dict_set d dst v
  | None => d
  end.

(** Lines 104-135: the dictionary set as the capability [bstack:options]. *)
Definition bstack_options (username access_key : string) (browser_config : dict)
    : result dict :=
  match getitem browser_config "browserName" with
  | Raises e => Raises e
  | Returns browser =>
      let session :=
        String.append "El Pais Opinion - "
          (String.append browser
             (String.append " ("
                (String.append
                   (get_default browser_config "device"
                      (get_default browser_config "os_version" "Desktop"))
                   ")"))) in
      Returns
        (copy_key browser_config "realMobile" "realMobile"
           (copy_key browser_config "device" "deviceName"
              (copy_key browser_config "os_version" "osVersion"
                 (copy_key browser_config "os" "os"
                    [("userName", username);
                     ("accessKey", access_key);
                     ("projectName", "El Pais Scraper");
                     ("buildName", "Selenium Python Demo2");
                     ("sessionName", session);
                     ("seleniumVersion", "4.0.0")]))))
  end.

(** Lines 83-95: the options class of a browser name. *)
Inductive OptionsClass : Type :=
| ChromeOptions | FirefoxOptions | EdgeOptions | SafariOptions | IeOptions.

Definition options_class (browser_name : string) : OptionsClass :=
  if String.eqb browser_name "chrome" then ChromeOptions
  else if String.eqb browser_name "firefox" then FirefoxOptions
  else if String.eqb browser_name "edge" then EdgeOptions
  else if String.eqb browser_name "safari" then SafariOptions
  else if String.eqb browser_name "ie" then IeOptions
  else ChromeOptions.

(** The options object handed to [webdriver.Remote]. *)
Record Options : Type := {
  options_kind : OptionsClass;
  browser_name : string;
  browser_version : option string;
  bstack : dict
}.

(** Lines 83-138. *)
Definition build_options (username access_key : string) (browser_config : dict)
    : result Options :=
  let name := lower (get_default browser_config "browserName" "chrome") in
  match bstack_options username access_key browser_config with
  | Raises e => Raises e
  | Returns d =>
      Returns {| options_kind := options_class name;
                 browser_name := name;
                 browser_version := dict_get browser_config "browserVersion";
                 bstack := d |}
  end.

(** What [initialize_translation_client] prints, one constructor per
    [print]. *)
Inductive InitLine : Type :=
| InitializedFromFile                       (* 45 *)
| KeyFileNotFound (path : string)           (* 47 *)
| TranslationWillBeSkipped                  (* 48, 56 *)
| LibraryNotFound                           (* 51 *)
| ErrorInitializing                         (* 54 *)
| ErrorDetails (e : exn).                   (* 55 *)

Section TranslationClient.

(** [from google.cloud import translate_v2 as translate] *)
Variable import_translate : result unit.

(** Whether an exception is an [ImportError]. *)
Variable is_ImportError : exn -> bool.

(** [os.path.exists] *)
Variable path_exists : string -> bool.

Variable Credentials : Type.

(** [service_account.Credentials.from_service_account_file] *)
Variable from_service_account_file : string -> result Credentials.

(** [translate.Client(credentials=...)]: the client, given by what its
    [translate] answers. *)
Variable Client : Credentials -> result (string -> result dict).

(** Lines 37-57: the lines printed and the value the global
    [translate_client] is left with. *)
Definition initialize_translation_client (json_key_path : string)
    : list InitLine * option (string -> result dict) :=
  let body : result (list InitLine * option (string -> result dict)) :=
    match import_translate with
    | Raises e => Raises e
    | Returns _ =>
        if path_exists json_key_path then
          match from_service_account_file json_key_path with
          | Raises e => Raises e
          | Returns credentials =>
              match Client credentials with
              | Raises e => Raises e
              | Returns client => Returns ([InitializedFromFile], Some client)
              end
          end
        else
          Returns ([KeyFileNotFound json_key_path; TranslationWillBeSkipped], None)
    end in
  match body with
  | Returns r => r
  | Raises e =>
      if is_ImportError e then ([LibraryNotFound], None)
      else ([ErrorInitializing; ErrorDetails e; TranslationWillBeSkipped], None)
  end.

End TranslationClient.

End Session.

(* ===================================================================== *)
(** * Properties: further predicates on text, tables and runs *)
(* ===================================================================== *)

Module Properties.
Import Text Analysis Effects Scraper Reasoning Session.

(** A character occurs in a string. *)
Fixpoint has_char (c : ascii) (s : string) : bool :=
  match s with
  | EmptyString => false
  | String c' r => Ascii.eqb c' c || has_char c r
  end.

(** Every character of a string passes a test. *)
Fixpoint every_char (f : ascii -> bool) (s : string) : bool :=
  match s with
  | EmptyString => true
  | String c r => f c && every_char f r
  end.

(** A word as the analysis counts it: letters [a-z] only, at least one. *)
Definition lowercase_word (w : string) : Prop :=
  w <> "" /\ every_char is_lower w = true.

(** How often a word occurs in a list. *)
Definition occurrences (w : string) (l : list string) : nat :=
  count_occ string_dec l w.


(** Lines 255-256: the path of the cover of the article at position [i]
    (counted from 0). *)
Definition image_path (i : nat) : string :=
  String.append IMAGES_DIR
    (String.append "/"
       (String.append "article_" (String.append (str_of_nat (i + 1)) "_cover.jpg"))).

(** The selector of line 213. *)
Definition MEDIA_SELECTOR : string := "div.c_m img, figure img, img.c_m_e, img.c_d_m".

(** Between two stores at most the cover of position [i] was written. *)
Definition at_most_cover (i : nat) (s s' : Store) : Prop :=
  files s' = files s \/ exists bytes, files s' = files s ++ [(image_path i, bytes)].

(** Files that are covers of distinct positions from [lo] up to [hi],
    written in the order of the positions. *)
Definition covers_between (lo hi : nat) (added : list (string * string)) : Prop :=
  exists positions,
    map fst added = map image_path positions /\
    StronglySorted lt positions /\
    Forall (fun j => lo <= j /\ j < hi) positions.

(** The count of a word in a table, 0 when it has no entry. *)
Definition count_of (w : string) (t : table) : nat :=
  match lookup w t with
  | Some n => n
  | None => 0
  end.

(** No status was sent to BrowserStack between two stores. *)
Definition same_statuses (s s' : Store) : Prop :=
  reported_statuses s' = reported_statuses s.

(** The keys that the script ever puts into [bstack:options]. *)
Definition BSTACK_KEYS : list string :=
  ["userName"; "accessKey"; "projectName"; "buildName"; "sessionName";
   "seleniumVersion"; "os"; "osVersion"; "deviceName"; "realMobile"].

(** How the download of the cover at position [i] can fail: the GET
    raises (a timeout among others), it answers a status other than 200, or
    the body of a 200 answer cannot be read once the file is open.  Each way
    comes with the line that is printed for it and the file it leaves. *)
Inductive failed_download (open_wb : string -> result unit) (i : nat) (url : string)
  : result Response -> Event -> list (string * string) -> Prop :=
| get_raised e :
    failed_download open_wb i url (Raises e) (ImageHandlingError (i + 1) e) []
| status_not_200 response :
    status_code response <> 200 ->
    failed_download open_wb i url (Returns response)
      (FailedToDownload url (status_code response)) []
| body_not_read response e :
    status_code response = 200 ->
    open_wb (image_path i) = Returns tt ->
    content response = Raises e ->
    failed_download open_wb i url (Returns response)
      (ImageHandlingError (i + 1) e) [(image_path i, "")].

(** The lines printed before are still there. *)
Definition keeps_lines (s s' : Store) : Prop :=
  forall ev, In ev (stdout s) -> In ev (stdout s').

(** What the page says the title of an article is (lines 183-189): the
    stripped text of its [h2], or the sentinel when the [h2] is missing or
    cannot be read. *)
Inductive title_of (el : WebElement) : string -> Prop :=
| title_read h raw :
    find_element el TAG_NAME "h2" = Returns h ->
    text h = Returns raw ->
    title_of el (strip raw)
| title_missing e :
    find_element el TAG_NAME "h2" = Raises e ->
    title_of el "Title not found"
| title_unreadable h e :
    find_element el TAG_NAME "h2" = Returns h ->
    text h = Raises e ->
    title_of el "Title not found".

(** What the collaborators say the translation of a title is (lines
    278-290): the English title and the headers it adds for the analysis. *)
Inductive translation_of (translate_client : option (string -> result dict)) (t : string)
  : string -> list string -> Prop :=
| translated translate translation v :
    translate_client = Some translate ->
    t <> "Title not found" ->
    translate t = Returns translation ->
    getitem translation "translatedText" = Returns v ->
    translation_of translate_client t v [v]
| translation_raised translate e :
    translate_client = Some translate ->
    t <> "Title not found" ->
    translate t = Raises e ->
    translation_of translate_client t "Translation failed" []
| translation_without_text translate translation e :
    translate_client = Some translate ->
    t <> "Title not found" ->
    translate t = Returns translation ->
    getitem translation "translatedText" = Raises e ->
    translation_of translate_client t "Translation failed" []
| translation_skipped :
    translate_client = None \/ t = "Title not found" ->
    translation_of translate_client t "" [].

(** The titles of one article and the headers it adds. *)
Record Titles : Type := {
  spanish : string;
  english : string;
  counted : list string
}.

Definition describes (translate_client : option (string -> result dict))
    (el : WebElement) (o : Titles) : Prop :=
  title_of el (spanish o) /\
  translation_of translate_client (spanish o) (english o) (counted o).

End Properties.

(* ===================================================================== *)
(** * More concrete pages and sessions *)
(* ===================================================================== *)

Module Cases.
Import Text Analysis Effects Scraper Examples Reasoning Session Properties.

(** [<article><h2>t</h2></article>]: no image of any kind. *)
Definition bare_article (t : string) : WebElement :=
  node [(TAG_NAME, "h2", leaf t [])].

(** An image whose lazy-loading attribute cannot be read, while its [src]
    holds a good URL. *)
Definition flaky_img : WebElement :=
  Element (Returns "")
          (fun name =>
             if String.eqb name "data-srcset" then Raises (Exception "stale element reference")
             else if String.eqb name "src" then Returns (Some "http://a.jpg")
             else Returns None)
          (fun _ _ => Raises no_such_element) (fun _ _ => Returns []).

Definition flaky_article : WebElement :=
  node [(TAG_NAME, "h2", leaf "Tribuna" []);
        (CSS_SELECTOR, MEDIA_SELECTOR, flaky_img)].

(** A paragraph that is found but whose text cannot be read. *)
Definition stale_paragraph : WebElement :=
  Element (Raises (Exception "stale element reference")) (fun _ => Returns None)
          (fun _ _ => Raises no_such_element) (fun _ _ => Returns []).

(** [p.c_d] is stale, [div.c_d_p] holds the summary. *)
Definition fallback_article : WebElement :=
  node [(CSS_SELECTOR, "p.c_d", stale_paragraph);
        (CSS_SELECTOR, "div.c_d_p", leaf "  Resumen del articulo " [])].

(** A session whose navigation fails. *)
Definition unreachable_page : WebDriver :=
  {| driver_get := fun _ => Raises (Exception "net::ERR_NAME_NOT_RESOLVED");
     current_url := Returns OPINION_SECTION_URL;
     wait_until_present := fun _ _ _ => Returns tt;
     driver_find_elements := fun _ _ => Returns [];
     execute_script := fun _ => Returns tt;
     quit := Returns tt |}.

(** A session that cannot take the status passed. *)
Definition deaf_page : WebDriver :=
  {| driver_get := fun _ => Returns tt;
     current_url := Returns OPINION_SECTION_URL;
     wait_until_present := fun _ _ _ => Returns tt;
     driver_find_elements := fun _ _ => Returns [];
     execute_script := fun sc =>
       match sc with
       | setSessionStatus status _ =>
           if String.eqb status "passed" then Raises (Exception "session not found")
           else Returns tt
       end;
     quit := Returns tt |}.

(** A session that cannot be closed. *)
Definition sticky_page : WebDriver :=
  {| driver_get := fun _ => Returns tt;
     current_url := Returns OPINION_SECTION_URL;
     wait_until_present := fun _ _ _ => Returns tt;
     driver_find_elements := fun _ _ => Returns [];
     execute_script := fun _ => Returns tt;
     quit := Raises (Exception "connection refused") |}.

(** A configuration without [browserName], and one with more keys than
    BrowserStack takes. *)
Definition nameless_config : dict := [("os", "Windows"); ("os_version", "10")].

Definition galaxy_config : dict :=
  [("browserName", "Chrome"); ("device", "Samsung Galaxy S22"); ("os", "android");
   ("realMobile", "true"); ("browserstack.language", "es")].

(** Collaborators of the initialisation: the library is installed, key
    files are read as their own path, and the client answers every title
    with the title itself. *)
Definition never_ImportError (e : exn) : bool := false.
Definition no_file (path : string) : bool := false.
Definition read_key (path : string) : result string := Returns path.
Definition echo_client (credentials : string) : result (string -> result dict) :=
  Returns (fun t => Returns [("translatedText", t)]).

(** A translation client whose answer lacks the key [translatedText]. *)
Definition keyless_client (t : string) : result dict :=
  Returns [("detectedSourceLanguage", "es"); ("input", t)].

(** A heading that is found but whose text cannot be read. *)
Definition stale_heading_article : WebElement :=
  node [(TAG_NAME, "h2", stale_paragraph)].


End Cases.

Import Text Analysis Effects Scraper Examples Reasoning.
Local Open Scope monad_scope.
Import Session Properties Cases.

(* ===================================================================== *)
(** * The combinators of the monad *)
(* ===================================================================== *)

Section FrameRules.
Variable R : Store -> Store -> Prop.
Hypothesis R_refl : forall s, R s s.
Hypothesis R_trans : forall s1 s2 s3, R s1 s2 -> R s2 s3 -> R s1 s3.

Lemma frames_ret A (a : A) : frames R (ret a).
Proof. intros s. apply R_refl. Qed.

Lemma frames_raise A (e : exn) : frames R (@raise A e).
Proof. intros s. apply R_refl. Qed.

Lemma frames_call A (r : result A) : frames R (call r).
Proof. intros s. apply R_refl. Qed.

Lemma frames_get_headers : frames R get_headers.
Proof. intros s. apply R_refl. Qed.

Lemma frames_bind A B (m : M A) (k : A -> M B) :
  frames R m -> (forall a, frames R (k a)) -> frames R (bind m k).
Proof.
  intros Hm Hk s. unfold bind.
  pose proof (Hm s) as H1.
  destruct (m s) as [[a | e] s1]; simpl in *.
  - eapply R_trans; [exact H1 | apply Hk].
  - exact H1.
Qed.

Lemma frames_try_except A (m : M A) (h : exn -> M A) :
  frames R m -> (forall e, frames R (h e)) -> frames R (try_except m h).
Proof.
  intros Hm Hh s. unfold try_except.
  pose proof (Hm s) as H1.
  destruct (m s) as [[a | e] s1]; simpl in *.
  - exact H1.
  - eapply R_trans; [exact H1 | apply Hh].
Qed.

Lemma frames_try_finally A (m : M A) (c : M unit) :
  frames R m -> frames R c -> frames R (try_finally m c).
Proof.
  intros Hm Hc s. unfold try_finally.
  pose proof (Hm s) as H1.
  destruct (m s) as [r s1]; simpl in *.
  pose proof (Hc s1) as H2.
  destruct (c s1) as [[u | e] s2]; simpl in *; eapply R_trans; eauto.
Qed.
End FrameRules.

Section TotalityRules.
Lemma never_raises_ret A (a : A) : never_raises (ret a).
Proof. intros s. exists a. reflexivity. Qed.

Lemma never_raises_bind A B (m : M A) (k : A -> M B) :
  never_raises m -> (forall a, never_raises (k a)) -> never_raises (bind m k).
Proof.
  intros Hm Hk s. unfold bind.
  destruct (Hm s) as [a Ha].
  destruct (m s) as [r s1]; simpl in Ha; subst r.
  apply Hk.
Qed.

Lemma never_raises_try_except A (m : M A) (h : exn -> M A) :
  (forall e, never_raises (h e)) -> never_raises (try_except m h).
Proof.
  intros Hh s. unfold try_except.
  destruct (m s) as [[a | e] s1].
  - exists a. reflexivity.
  - apply Hh.
Qed.

Lemma never_raises_print ev : never_raises (print ev).
Proof. intros s. exists tt. reflexivity. Qed.

Lemma never_raises_append_header h : never_raises (append_header h).
Proof. intros s. exists tt. reflexivity. Qed.

Lemma never_raises_set_headers l : never_raises (set_headers l).
Proof. intros s. exists tt. reflexivity. Qed.

Lemma never_raises_get_headers : never_raises get_headers.
Proof. intros s. eexists. reflexivity. Qed.
End TotalityRules.

Section AlikeRules.
Lemma alike_ret A (a : A) : alike (ret a) (ret a).
Proof.
  intros s1 s2. split; [reflexivity |].
  exists []. simpl. now rewrite !app_nil_r.
Qed.

Lemma alike_call A (r : result A) : alike (call r) (call r).
Proof.
  intros s1 s2. split; [reflexivity |].
  exists []. simpl. now rewrite !app_nil_r.
Qed.

Lemma alike_print ev1 ev2 : alike (print ev1) (print ev2).
Proof.
  intros s1 s2. split; [reflexivity |].
  exists []. simpl. now rewrite !app_nil_r.
Qed.

Lemma alike_append_header h : alike (append_header h) (append_header h).
Proof.
  intros s1 s2. split; [reflexivity |].
  exists [h]. simpl. split; reflexivity.
Qed.

Lemma alike_bind A B (m1 m2 : M A) (k1 k2 : A -> M B) :
  alike m1 m2 -> (forall a, alike (k1 a) (k2 a)) -> alike (bind m1 k1) (bind m2 k2).
Proof.
  intros Hm Hk s1 s2. unfold bind.
  destruct (Hm s1 s2) as [Hfst [d [H1 H2]]].
  destruct (m1 s1) as [r1 t1], (m2 s2) as [r2 t2]; simpl in *. subst r2.
  destruct r1 as [a | e]; simpl.
  - destruct (Hk a t1 t2) as [Hfst' [d' [H1' H2']]].
    split; [exact Hfst' |].
    exists (d ++ d'). rewrite H1', H2', H1, H2, !app_assoc. split; reflexivity.
  - split; [reflexivity |]. exists d. split; assumption.
Qed.

Lemma alike_try_except A (m1 m2 : M A) (h1 h2 : exn -> M A) :
  alike m1 m2 -> (forall e, alike (h1 e) (h2 e)) ->
  alike (try_except m1 h1) (try_except m2 h2).
Proof.
  intros Hm Hh s1 s2. unfold try_except.
  destruct (Hm s1 s2) as [Hfst [d [H1 H2]]].
  destruct (m1 s1) as [r1 t1], (m2 s2) as [r2 t2]; simpl in *. subst r2.
  destruct r1 as [a | e]; simpl.
  - split; [reflexivity |]. exists d. split; assumption.
  - destruct (Hh e t1 t2) as [Hfst' [d' [H1' H2']]].
    split; [exact Hfst' |].
    exists (d ++ d'). rewrite H1', H2', H1, H2, !app_assoc. split; reflexivity.
Qed.

(** Two statements that cannot raise, return nothing and leave the
    headers alone are alike, whatever else they do. *)
Lemma alike_silent (m1 m2 : M unit) :
  never_raises m1 -> never_raises m2 ->
  frames same_headers m1 -> frames same_headers m2 ->
  alike m1 m2.
Proof.
  intros T1 T2 F1 F2 s1 s2.
  destruct (T1 s1) as [[] E1], (T2 s2) as [[] E2].
  split; [congruence |].
  exists []. rewrite !app_nil_r. split; [apply F1 | apply F2].
Qed.
End AlikeRules.

(* ===================================================================== *)
(** * The three framing relations *)
(* ===================================================================== *)

Lemma same_files_refl s : same_files s s.
Proof. reflexivity. Qed.

Lemma same_files_trans s1 s2 s3 : same_files s1 s2 -> same_files s2 s3 -> same_files s1 s3.
Proof. unfold same_files. congruence. Qed.

Lemma same_headers_refl s : same_headers s s.
Proof. reflexivity. Qed.

Lemma same_headers_trans s1 s2 s3 :
  same_headers s1 s2 -> same_headers s2 s3 -> same_headers s1 s3.
Proof. unfold same_headers. congruence. Qed.

Lemma same_quits_refl s : same_quits s s.
Proof. reflexivity. Qed.

Lemma same_quits_trans s1 s2 s3 : same_quits s1 s2 -> same_quits s2 s3 -> same_quits s1 s3.
Proof. unfold same_quits. congruence. Qed.

Lemma quits_on_driver A (c : DriverCall) (r : result A) s :
  quits (snd (on_driver c r s)) = quits s + (if is_quit c then 1 else 0).
Proof.
  unfold quits, on_driver. simpl.
  rewrite filter_app, length_app. simpl.
  destruct (is_quit c); reflexivity.
Qed.

Lemma on_driver_same_quits A (c : DriverCall) (r : result A) :
  is_quit c = false -> frames same_quits (on_driver c r).
Proof.
  intros H s. unfold same_quits. rewrite quits_on_driver, H. lia.
Qed.

(** One step of a proof that a statement frames a relation, cannot raise,
    or is alike another: follow the shape of the statement. *)
Ltac primitive_frames :=
  let s := fresh "s" in
  intros s; unfold same_files, same_headers, same_quits, quits; reflexivity.

Ltac rel_law :=
  first [ exact same_files_refl | exact same_files_trans
        | exact same_headers_refl | exact same_headers_trans
        | exact same_quits_refl | exact same_quits_trans ].

Ltac frames_step :=
  match goal with
  | |- frames _ (bind _ _) => apply frames_bind; [rel_law | | intro]
  | |- frames _ (try_except _ _) => apply frames_try_except; [rel_law | | intro]
  | |- frames _ (try_finally _ _) => apply frames_try_finally; [rel_law | | ]
  | |- frames _ (ret _) => apply frames_ret; rel_law
  | |- frames _ (raise _) => apply frames_raise; rel_law
  | |- frames _ (call _) => apply frames_call; rel_law
  | |- frames _ get_headers => apply frames_get_headers; rel_law
  | |- frames same_quits (on_driver _ _) => apply on_driver_same_quits; reflexivity
  | |- frames _ (print _) => primitive_frames
  | |- frames _ (append_header _) => primitive_frames
  | |- frames _ (set_headers _) => primitive_frames
  | |- frames _ (store_file _ _) => primitive_frames
  | |- frames _ (on_driver _ _) => primitive_frames
  | |- frames _ (match ?x with _ => _ end) => destruct x
  end.

Ltac never_raises_step :=
  match goal with
  | |- never_raises (bind _ _) => apply never_raises_bind; [ | intro]
  | |- never_raises (try_except _ _) => apply never_raises_try_except; intro
  | |- never_raises (ret _) => apply never_raises_ret
  | |- never_raises (print _) => apply never_raises_print
  | |- never_raises (append_header _) => apply never_raises_append_header
  | |- never_raises (set_headers _) => apply never_raises_set_headers
  | |- never_raises get_headers => apply never_raises_get_headers
  | |- never_raises (match ?x with _ => _ end) => destruct x
  end.

Ltac alike_step :=
  match goal with
  | |- alike (bind _ _) (bind _ _) => apply alike_bind; [ | intro]
  | |- alike (try_except _ _) (try_except _ _) => apply alike_try_except; [ | intro]
  | |- alike (ret _) (ret _) => apply alike_ret
  | |- alike (call _) (call _) => apply alike_call
  | |- alike (print _) (print _) => apply alike_print
  | |- alike (append_header _) (append_header _) => apply alike_append_header
  | |- alike (match ?x with _ => _ end) _ => destruct x
  end.

(* ===================================================================== *)
(** * The steps of one article *)
(* ===================================================================== *)

Section Steps.
Variable requests_get : string -> result Response.
Variable open_wb : string -> result unit.
Variable translate_client : option (string -> result dict).

(** ** Step 1: the title *)

Lemma scrape_title_never_raises i el : never_raises (scrape_title i el).
Proof. unfold scrape_title. cbv zeta. repeat never_raises_step. Qed.

Lemma scrape_title_headers i el : frames same_headers (scrape_title i el).
Proof. unfold scrape_title. cbv zeta. repeat frames_step. Qed.

Lemma scrape_title_files i el : frames same_files (scrape_title i el).
Proof. unfold scrape_title. cbv zeta. repeat frames_step. Qed.

Lemma scrape_title_alike i j el : alike (scrape_title i el) (scrape_title j el).
Proof. unfold scrape_title. cbv zeta. repeat alike_step. Qed.

(** ** Step 2: the summary *)

Lemma scrape_content_never_raises el : never_raises (scrape_content el).
Proof. unfold scrape_content. cbv zeta. repeat never_raises_step. Qed.

Lemma scrape_content_headers el : frames same_headers (scrape_content el).
Proof. unfold scrape_content. cbv zeta. repeat frames_step. Qed.

Lemma scrape_content_files el : frames same_files (scrape_content el).
Proof. unfold scrape_content. cbv zeta. repeat frames_step. Qed.

Lemma scrape_content_alike el : alike (scrape_content el) (scrape_content el).
Proof. unfold scrape_content. cbv zeta. repeat alike_step. Qed.

(** ** Step 3: the image *)

Lemma download_headers i u : frames same_headers (download requests_get open_wb i u).
Proof. unfold download. cbv zeta. repeat frames_step. Qed.

Lemma handle_image_never_raises i el :
  never_raises (handle_image requests_get open_wb i el).
Proof. unfold handle_image. cbv zeta. repeat never_raises_step. Qed.

Lemma handle_image_headers i el :
  frames same_headers (handle_image requests_get open_wb i el).
Proof. unfold handle_image, download. cbv zeta. repeat frames_step. Qed.

Lemma handle_image_alike rg ow i j el :
  alike (handle_image requests_get open_wb i el) (handle_image rg ow j el).
Proof.
  unfold handle_image. cbv zeta.
  repeat match goal with
         | |- alike (bind (try_except (download _ _ _ _) _) _) _ =>
             apply alike_bind;
             [ apply alike_silent;
               [ repeat never_raises_step | repeat never_raises_step
               | unfold download; cbv zeta; repeat frames_step
               | unfold download; cbv zeta; repeat frames_step ]
             | intro ]
         | _ => alike_step
         end.
Qed.

(** A failed download writes no file. *)
Lemma download_fails_files i u :
  download_fails (requests_get u) ->
  frames same_files (download requests_get open_wb i u).
Proof.
  intros H s. unfold download, bind, call, print, same_files. simpl.
  destruct (requests_get u) as [response | e]; simpl in *.
  - destruct (Nat.eqb_spec (status_code response) 200); [contradiction | reflexivity].
  - reflexivity.
Qed.

Lemma handle_image_fails_files i el :
  (forall u, download_fails (requests_get u)) ->
  frames same_files (handle_image requests_get open_wb i el).
Proof.
  intros H. unfold handle_image. cbv zeta.
  repeat match goal with
         | |- frames _ (download _ _ _ _) => apply download_fails_files, H
         | _ => frames_step
         end.
Qed.

(** ** Step 4: the translation *)

Lemma translate_title_never_raises t : never_raises (translate_title translate_client t).
Proof. unfold translate_title. cbv zeta. repeat never_raises_step. Qed.

Lemma translate_title_files t : frames same_files (translate_title translate_client t).
Proof. unfold translate_title. cbv zeta. repeat frames_step. Qed.

Lemma translate_title_alike t :
  alike (translate_title translate_client t) (translate_title translate_client t).
Proof. unfold translate_title. cbv zeta. repeat alike_step. Qed.

End Steps.

(* ===================================================================== *)
(** * One article, the loop and the analysis *)
(* ===================================================================== *)

Section Articles.
Variable requests_get : string -> result Response.
Variable open_wb : string -> result unit.
Variable translate_client : option (string -> result dict).

Let fields := article_fields requests_get open_wb translate_client.

Lemma article_fields_never_raises i el : never_raises (fields i el).
Proof.
  unfold fields, article_fields.
  apply never_raises_bind; [apply scrape_title_never_raises | intro].
  apply never_raises_bind; [apply scrape_content_never_raises | intro].
  apply never_raises_bind; [apply handle_image_never_raises | intro].
  apply never_raises_bind; [apply translate_title_never_raises | intro].
  apply never_raises_ret.
Qed.

(** The record and the headers an article adds depend neither on its
    position nor on the store, nor on how the download goes. *)
Lemma article_fields_alike rg ow i j el :
  alike (fields i el) (article_fields rg ow translate_client j el).
Proof.
  unfold fields, article_fields.
  apply alike_bind; [apply scrape_title_alike | intro].
  apply alike_bind; [apply scrape_content_alike | intro].
  apply alike_bind; [apply handle_image_alike | intro].
  apply alike_bind; [apply translate_title_alike | intro].
  apply alike_ret.
Qed.

(** The record of an article is the one it gives on its own. *)
Lemma article_fields_alone i el s :
  exists record s',
    fields i el s = (Returns record, s') /\
    fst (alone requests_get open_wb translate_client el) = Returns record /\
    all_translated_headers s' =
      all_translated_headers s ++
      all_translated_headers (snd (alone requests_get open_wb translate_client el)).
Proof.
  destruct (article_fields_never_raises i el s) as [record Hr].
  destruct (article_fields_alike requests_get open_wb i 0 el s empty_store)
    as [Hfst [added [H1 H2]]].
  unfold alone, fields in *.
  destruct (article_fields requests_get open_wb translate_client i el s)
    as [r s'] eqn:E. simpl in *. subst r.
  exists record, s'. repeat split.
  - symmetry. exact Hfst.
  - rewrite H1, H2. reflexivity.
Qed.

(** The loop over the real body: every element gives its record, in
    order, and adds its headers. *)
Lemma for_articles_alone l :
  forall i data s,
    exists s',
      for_articles fields i l data s =
        (Returns (data ++ records_alone requests_get open_wb translate_client l), s') /\
      all_translated_headers s' =
        all_translated_headers s ++
        headers_alone requests_get open_wb translate_client l.
Proof.
  induction l as [| el l IH]; intros i data s.
  - exists s. simpl. unfold ret. rewrite !app_nil_r. split; reflexivity.
  - cbn [for_articles]. unfold bind at 1. unfold print at 1.
    match goal with
    | |- context [bind _ _ ?st] => set (s0 := st)
    end.
    destruct (article_fields_alone i el s0) as [record [s1 [E [Ha Hh]]]].
    unfold bind at 1. unfold try_except at 1. unfold bind at 1.
    rewrite E. unfold ret at 1.
    destruct (IH (S i) (data ++ [record]) s1) as [s' [E' Hh']].
    exists s'. rewrite E'. split.
    + unfold records_alone. cbn [flat_map].
      fold (records_alone requests_get open_wb translate_client l).
      rewrite Ha. rewrite <- app_assoc. reflexivity.
    + rewrite Hh', Hh. unfold headers_alone. cbn [flat_map].
      rewrite <- app_assoc. reflexivity.
Qed.

(** One article, step by step. *)
Lemma article_fields_steps i el s :
  exists t s1 c s2 u s3 tt s4,
    scrape_title i el s = (Returns t, s1) /\
    scrape_content el s1 = (Returns c, s2) /\
    handle_image requests_get open_wb i el s2 = (Returns u, s3) /\
    translate_title translate_client t s3 = (Returns tt, s4) /\
    fields i el s =
      (Returns {| title_spanish := t; content_spanish := c;
                  image_url := u; title_english := tt |}, s4).
Proof.
  destruct (scrape_title_never_raises i el s) as [t Ht].
  destruct (scrape_title i el s) as [r1 s1] eqn:E1. simpl in Ht. subst r1.
  destruct (scrape_content_never_raises el s1) as [c Hc].
  destruct (scrape_content el s1) as [r2 s2] eqn:E2. simpl in Hc. subst r2.
  destruct (handle_image_never_raises requests_get open_wb i el s2) as [u Hu].
  destruct (handle_image requests_get open_wb i el s2) as [r3 s3] eqn:E3.
  simpl in Hu. subst r3.
  destruct (translate_title_never_raises translate_client t s3) as [tt Htt].
  destruct (translate_title translate_client t s3) as [r4 s4] eqn:E4.
  simpl in Htt. subst r4.
  exists t, s1, c, s2, u, s3, tt, s4.
  repeat split; try assumption.
  unfold fields, article_fields, bind. rewrite E1, E2, E3, E4. reflexivity.
Qed.

Lemma analyze_headers_returns headers s :
  exists s', analyze_headers headers s = (Returns (repeated_words headers), s').
Proof.
  unfold analyze_headers.
  destruct headers as [| h rest].
  - eexists. reflexivity.
  - unfold bind, print. cbn -[repeated_words].
    destruct (repeated_words (h :: rest)); eexists; reflexivity.
Qed.

(** A page that loads: the locals the function ends with. *)
Lemma scrape_finished driver url nodes s :
  driver_get driver OPINION_SECTION_URL = Returns tt ->
  current_url driver = Returns url ->
  wait_until_present driver 15 TAG_NAME "article" = Returns tt ->
  driver_find_elements driver TAG_NAME "article" = Returns nodes ->
  let shown := firstn 5 nodes in
  let headers := headers_alone requests_get open_wb translate_client shown in
  exists s',
    scrape_and_process_articles requests_get open_wb translate_client driver s =
      (Returns (Finished (records_alone requests_get open_wb translate_client shown)
                         headers (repeated_words headers)), s').
Proof.
  intros Hget Hurl Hwait Hfind shown headers.
  unfold scrape_and_process_articles.
  unfold bind at 1. unfold on_driver at 1. rewrite Hget.
  unfold bind at 1. unfold call at 1. rewrite Hurl.
  unfold bind at 1. unfold print at 1.
  unfold bind at 1. unfold try_except at 1. unfold bind at 1.
  unfold on_driver at 1. rewrite Hwait.
  unfold bind at 1. unfold print at 1. unfold ret at 1. cbn [negb].
  unfold bind at 1. unfold on_driver at 1. rewrite Hfind.
  unfold bind at 1. unfold print at 1.
  unfold bind at 1. unfold set_headers at 1.
  cbn [stdout files all_translated_headers driver_calls].
  unfold process_articles.
  match goal with
  | |- context [@bind _ _ (for_articles _ _ _ _) _ ?st] => set (s0 := st)
  end.
  destruct (for_articles_alone (firstn 5 nodes) 0 [] s0) as [s1 [E Hh]].
  unfold fields in E. unfold bind at 1. rewrite E.
  unfold bind at 1. unfold get_headers at 1.
  rewrite Hh. subst s0. cbn [all_translated_headers app].
  fold shown. fold headers.
  destruct (analyze_headers_returns headers s1) as [s2 E2].
  unfold bind at 1. rewrite E2. unfold ret.
  exists s2. reflexivity.
Qed.

End Articles.

(* ===================================================================== *)
(** * Step 5 on the storm headlines *)
(* ===================================================================== *)

(** C1, as stated, fails: on the three storm headlines the analysis does not
    yield the mapping storm -> 3, city -> 3, because storm occurs four times
    (once in each of the first two headlines and twice in the third). *)
Lemma C1_storm_is_not_counted_3 :
  ~ same_mapping
      (repeated_words
         ["Storm hits city"; "City storm warning issued"; "Storm storm everywhere city"])
      [("storm", 3); ("city", 3)].
Proof.
  intros H. specialize (H "storm"). vm_compute in H. discriminate H.
Qed.

(** C1, amended: on the three storm headlines the analysis (lower-casing,
    whole words of letters, counts over all headlines, only counts above 2)
    yields exactly storm -> 4, city -> 3; warning and issued, each counted
    once, are left out. *)
Theorem C1_storm_headlines :
  let headlines :=
    ["Storm hits city"; "City storm warning issued"; "Storm storm everywhere city"] in
  repeated_words headlines = [("storm", 4); ("city", 3)] /\
  lookup "warning" (Counter (collect_words headlines)) = Some 1 /\
  lookup "issued" (Counter (collect_words headlines)) = Some 1 /\
  lookup "warning" (repeated_words headlines) = None /\
  lookup "issued" (repeated_words headlines) = None.
Proof.
  vm_compute. repeat split.
Qed.

(* ===================================================================== *)
(** * Step 1: the title *)
(* ===================================================================== *)

(** C8: when the query for the [h2] of an article raises, the title step
    returns the string "Title not found" (it does not raise), and all it
    does besides is to print one line. *)
Theorem C8_missing_heading_gives_sentinel i el e s :
  find_element el TAG_NAME "h2" = Raises e ->
  scrape_title i el s =
    (Returns "Title not found", snd (print (CouldNotFindTitle (i + 1) e) s)).
Proof.
  intros H. unfold scrape_title, try_except, bind, call. rewrite H. reflexivity.
Qed.

Lemma C8_missing_heading_witness :
  find_element article_without_h2 TAG_NAME "h2" = Raises no_such_element /\
  scrape_title 2 article_without_h2 empty_store =
    (Returns "Title not found",
     snd (print (CouldNotFindTitle (2 + 1) no_such_element) empty_store)).
Proof.
  split; [reflexivity |].
  apply (C8_missing_heading_gives_sentinel 2 article_without_h2 no_such_element empty_store).
  reflexivity.
Defined.

(* ===================================================================== *)
(** * Step 3: the image URL *)
(* ===================================================================== *)

(** C4: when the image element found for an article answers the first of
    its URL attributes that mentions http with the candidate list
    "http://a.jpg 1x, http://b.jpg 2x", the image step leaves exactly
    "http://a.jpg" as the URL of the article. *)
Theorem C4_first_candidate_of_srcset requests_get open_wb i el img s :
  img_element (attempt_3 el (attempt_2 el (attempt_1 el))) = Some img ->
  first_http_attr img possible_src_attrs =
    Returns (Some "http://a.jpg 1x, http://b.jpg 2x") ->
  fst (handle_image requests_get open_wb i el s) = Returns (Some "http://a.jpg").
Proof.
  intros Himg Hattr.
  unfold handle_image, read_attributes. cbv zeta. rewrite Himg, Hattr.
  change (nonempty "http://a.jpg 1x, http://b.jpg 2x" &&
          startswith "http" "http://a.jpg 1x, http://b.jpg 2x") with true.
  change (clean_url "http://a.jpg 1x, http://b.jpg 2x") with (Returns "http://a.jpg").
  cbv iota. unfold bind, try_except.
  destruct (download requests_get open_wb i "http://a.jpg" s) as [[[] | e] s1];
    reflexivity.
Qed.

Lemma C4_first_candidate_witness :
  img_element (attempt_3 srcset_article (attempt_2 srcset_article (attempt_1 srcset_article)))
    = Some (leaf "" [("data-srcset", "http://a.jpg 1x, http://b.jpg 2x")]) /\
  first_http_attr (leaf "" [("data-srcset", "http://a.jpg 1x, http://b.jpg 2x")])
    possible_src_attrs = Returns (Some "http://a.jpg 1x, http://b.jpg 2x") /\
  fst (handle_image get_ok open_ok 0 srcset_article empty_store)
    = Returns (Some "http://a.jpg").
Proof.
  split; [reflexivity |]. split; [reflexivity |].
  apply (C4_first_candidate_of_srcset get_ok open_ok 0 srcset_article
           (leaf "" [("data-srcset", "http://a.jpg 1x, http://b.jpg 2x")])
           empty_store);
    reflexivity.
Defined.

(** C3 does not hold of the code: an article whose only image has
    [src="/resizer/photo.jpg?src=https://cdn.example/photo.jpg"] passes the
    test ["http" in temp_url] of line 246, fails the test
    [startswith("http")] of line 250, and its record still stores the
    relative URL. *)
Theorem C3_relative_url_is_stored :
  let url := "/resizer/photo.jpg?src=https://cdn.example/photo.jpg" in
  startswith "http" url = false /\
  exists s',
    scrape_and_process_articles get_ok open_ok None (page [relative_article]) empty_store =
      (Returns
         (Finished
            [{| title_spanish := "Tribuna";
                content_spanish := CONTENT_NOT_SCRAPED;
                image_url := Some url;
                title_english := "" |}]
            [] []),
       s') /\
    files s' = [].
Proof.
  split; [reflexivity |].
  eexists. split; vm_compute; reflexivity.
Qed.

Lemma startswith_http_nonempty u : startswith "http" u = true -> nonempty u = true.
Proof. destruct u; [discriminate | reflexivity]. Qed.

(** The image step on an article whose image URL is read and then cannot
    be downloaded. *)
Lemma handle_image_failed_download requests_get open_wb i el s u0 u line left_behind :
  read_attributes (attempt_3 el (attempt_2 el (attempt_1 el))) = Returns (Some u0) ->
  startswith "http" u0 = true ->
  clean_url u0 = Returns u ->
  failed_download open_wb i u (requests_get u) line left_behind ->
  handle_image requests_get open_wb i el s =
    (Returns (Some u),
     {| stdout := stdout s ++ [AttemptingDownload u; line];
        files := files s ++ left_behind;
        all_translated_headers := all_translated_headers s;
        driver_calls := driver_calls s |}).
Proof.
  intros Hread Hhttp Hclean Hfail.
  unfold handle_image. cbv zeta.
  rewrite Hread, (startswith_http_nonempty u0 Hhttp), Hhttp, Hclean.
  cbn [andb].
  unfold bind at 1. unfold try_except, download. cbv zeta. fold (image_path i).
  unfold bind, call, print, store_file, raise, ret.
  inversion Hfail as [e He | response Hstatus He | response e Hstatus Hopen Hbody He];
    subst line left_behind.
  - cbn [stdout files all_translated_headers driver_calls].
    rewrite <- app_assoc, app_nil_r. reflexivity.
  - apply Nat.eqb_neq in Hstatus. rewrite Hstatus.
    cbn [stdout files all_translated_headers driver_calls].
    rewrite <- app_assoc, app_nil_r. reflexivity.
  - rewrite Hstatus, Hopen, Hbody. cbn [Nat.eqb].
    change (200 =? 200) with true. cbv iota.
    cbn [stdout files all_translated_headers driver_calls].
    rewrite <- app_assoc. reflexivity.
Qed.

Lemma translate_title_keeps_lines translate_client t :
  frames keeps_lines (translate_title translate_client t).
Proof.
  intros s ev H.
  unfold translate_title, try_except, bind, call, print, ret, append_header.
  destruct translate_client as [translate |];
    [destruct (negb (String.eqb t TITLE_NOT_FOUND));
     [destruct (translate t) as [translation | e];
      [destruct (getitem translation "translatedText") as [v | e] |] |] |];
    cbn [snd stdout]; apply in_or_app; left; exact H.
Qed.

(** C5, as stated, fails: when the download answers 404 the record of the
    article still carries the URL in its image field; the field is not
    absent. *)
Lemma C5_image_url_survives_failed_download :
  download_fails (get_404 "http://a.jpg") /\
  exists record s',
    article_fields get_404 open_ok None 0 (plain_article "Editorial") empty_store =
      (Returns record, s') /\
    In (FailedToDownload "http://a.jpg" 404) (stdout s') /\
    image_url record = Some "http://a.jpg" /\
    image_url record <> None.
Proof.
  split; [vm_compute; discriminate |].
  eexists. eexists. split; [vm_compute; reflexivity |].
  split; [simpl; tauto |].
  split; [reflexivity | discriminate].
Qed.

(** C5, amended: when the GET for the image of an article raises (as on a
    timeout), answers a status other than 200, or answers 200 with a body
    that cannot be read, the image step returns without raising, having
    printed the attempt and then one line for the failure (the status line,
    or the line of the step's handler with the exception); it writes no
    file in the first two cases and leaves the opened cover empty in the
    third.  The whole article returns its record as well: the failure line
    is on the console, the files are those the image step left, and the
    record is the one the article gets whatever the download does, so its
    image field keeps the URL that was found. *)
Theorem C5_failed_download_is_soft
    requests_get open_wb translate_client i el s u0 u line left_behind :
  read_attributes (attempt_3 el (attempt_2 el (attempt_1 el))) = Returns (Some u0) ->
  startswith "http" u0 = true ->
  clean_url u0 = Returns u ->
  failed_download open_wb i u (requests_get u) line left_behind ->
  handle_image requests_get open_wb i el s =
    (Returns (Some u),
     {| stdout := stdout s ++ [AttemptingDownload u; line];
        files := files s ++ left_behind;
        all_translated_headers := all_translated_headers s;
        driver_calls := driver_calls s |}) /\
  exists record s',
    article_fields requests_get open_wb translate_client i el s = (Returns record, s') /\
    image_url record = Some u /\
    In line (stdout s') /\
    files s' = files s ++ left_behind /\
    forall rg ow j s2,
      fst (article_fields rg ow translate_client j el s2) = Returns record.
Proof.
  intros Hread Hhttp Hclean Hfail.
  split; [apply (handle_image_failed_download requests_get open_wb i el s u0 u line
                   left_behind Hread Hhttp Hclean Hfail) |].
  destruct (article_fields_steps requests_get open_wb translate_client i el s)
    as (t & s1 & c & s2 & url & s3 & tt & s4 & E1 & E2 & E3 & E4 & E).
  rewrite (handle_image_failed_download requests_get open_wb i el s2 u0 u line
             left_behind Hread Hhttp Hclean Hfail) in E3.
  injection E3 as Hurl Hs3. subst url.
  eexists. exists s4. split; [exact E |].
  cbn [image_url]. split; [reflexivity |].
  pose proof (scrape_title_files i el s) as F1. rewrite E1 in F1.
  pose proof (scrape_content_files el s1) as F2. rewrite E2 in F2.
  pose proof (translate_title_files translate_client t s3) as F4. rewrite E4 in F4.
  pose proof (translate_title_keeps_lines translate_client t s3) as K4. rewrite E4 in K4.
  unfold same_files in *. cbn [snd] in *.
  split; [| split].
  - apply K4. rewrite <- Hs3. cbn [stdout].
    apply in_or_app. right. right. left. reflexivity.
  - rewrite F4, <- Hs3. cbn [files]. rewrite F2, F1. reflexivity.
  - intros rg ow j s2'.
    destruct (article_fields_alike requests_get open_wb translate_client rg ow i j el s s2')
      as [Hfst _].
    rewrite <- Hfst, E. reflexivity.
Qed.

Lemma C5_failed_download_witness :
  let el := plain_article "Editorial" in
  let timeout := Exception "ReadTimeout" in
  read_attributes (attempt_3 el (attempt_2 el (attempt_1 el))) =
    Returns (Some "http://a.jpg") /\
  startswith "http" "http://a.jpg" = true /\
  clean_url "http://a.jpg" = Returns "http://a.jpg" /\
  failed_download open_ok 0 "http://a.jpg" (get_timeout "http://a.jpg")
    (ImageHandlingError (0 + 1) timeout) [] /\
  handle_image get_timeout open_ok 0 el empty_store =
    (Returns (Some "http://a.jpg"),
     {| stdout := stdout empty_store ++
                  [AttemptingDownload "http://a.jpg"; ImageHandlingError (0 + 1) timeout];
        files := files empty_store ++ [];
        all_translated_headers := all_translated_headers empty_store;
        driver_calls := driver_calls empty_store |}) /\
  exists record s',
    article_fields get_timeout open_ok None 0 el empty_store = (Returns record, s') /\
    image_url record = Some "http://a.jpg" /\
    In (ImageHandlingError (0 + 1) timeout) (stdout s') /\
    files s' = files empty_store ++ [] /\
    forall rg ow j s2,
      fst (article_fields rg ow None j el s2) = Returns record.
Proof.
  cbv zeta.
  split; [reflexivity |]. split; [reflexivity |]. split; [reflexivity |].
  split; [exact (get_raised open_ok 0 "http://a.jpg" (Exception "ReadTimeout")) |].
  apply (C5_failed_download_is_soft get_timeout open_ok None 0
           (plain_article "Editorial") empty_store "http://a.jpg" "http://a.jpg"
           (ImageHandlingError (0 + 1) (Exception "ReadTimeout")) []).
  - reflexivity.
  - reflexivity.
  - reflexivity.
  - exact (get_raised open_ok 0 "http://a.jpg" (Exception "ReadTimeout")).
Defined.

(* ===================================================================== *)
(** * Step 4: the translation *)
(* ===================================================================== *)

Lemma translate_title_skipped translate_client t s :
  translate_client = None \/ t = "Title not found" ->
  translate_title translate_client t s = (Returns "", snd (print TranslationSkipped s)).
Proof.
  intros [H | H]; subst; unfold translate_title.
  - reflexivity.
  - destruct translate_client; reflexivity.
Qed.

Lemma translate_title_fails translate t e s :
  t <> "Title not found" ->
  translate t = Raises e ->
  translate_title (Some translate) t s =
    (Returns "Translation failed", snd (print (ErrorTranslating t e) s)).
Proof.
  intros Ht He. unfold translate_title.
  destruct (String.eqb_spec t TITLE_NOT_FOUND) as [Heq | _]; [contradiction |].
  cbn [negb]. unfold try_except, bind, call. rewrite He. reflexivity.
Qed.

(** C10: an article processed while no translation client is configured, or
    whose title is the sentinel "Title not found", gets the empty string as
    its English title, which is not the sentinel "Translation failed", and
    adds nothing to the headers that the analysis reads. *)
Theorem C10_untranslated_title_is_empty requests_get open_wb translate_client i el s :
  translate_client = None \/ fst (scrape_title i el s) = Returns "Title not found" ->
  exists record s',
    article_fields requests_get open_wb translate_client i el s = (Returns record, s') /\
    title_english record = "" /\
    title_english record <> "Translation failed" /\
    all_translated_headers s' = all_translated_headers s.
Proof.
  intros H.
  destruct (article_fields_steps requests_get open_wb translate_client i el s)
    as (t & s1 & c & s2 & u & s3 & tt & s4 & E1 & E2 & E3 & E4 & E).
  assert (Hskip : translate_client = None \/ t = "Title not found").
  { destruct H as [H | H]; [left; exact H | right].
    rewrite E1 in H. simpl in H. congruence. }
  rewrite (translate_title_skipped translate_client t s3 Hskip) in E4.
  injection E4 as Htt Hs4. subst tt s4.
  eexists. eexists. split; [exact E |].
  cbn [title_english]. split; [reflexivity |]. split; [discriminate |].
  pose proof (scrape_title_headers i el s) as F1. rewrite E1 in F1.
  pose proof (scrape_content_headers el s1) as F2. rewrite E2 in F2.
  pose proof (handle_image_headers requests_get open_wb i el s2) as F3. rewrite E3 in F3.
  unfold same_headers in *. simpl in *. congruence.
Qed.

Lemma C10_untranslated_title_witness :
  (Some (failing_on "B") = None \/
   fst (scrape_title 0 article_without_h2 empty_store) = Returns "Title not found") /\
  exists record s',
    article_fields get_ok open_ok (Some (failing_on "B")) 0 article_without_h2 empty_store
      = (Returns record, s') /\
    title_english record = "" /\
    title_english record <> "Translation failed" /\
    all_translated_headers s' = all_translated_headers empty_store.
Proof.
  split; [right; reflexivity |].
  apply (C10_untranslated_title_is_empty get_ok open_ok (Some (failing_on "B")) 0
           article_without_h2 empty_store).
  right. reflexivity.
Defined.

Lemma scrape_title_found i el h raw s :
  find_element el TAG_NAME "h2" = Returns h ->
  text h = Returns raw ->
  scrape_title i el s = (Returns (strip raw), snd (print (TitleSpanish (strip raw)) s)).
Proof.
  intros Hh Hraw. unfold scrape_title, try_except, bind, call.
  rewrite Hh, Hraw. reflexivity.
Qed.

(** An article whose title cannot be translated, processed on its own. *)
Lemma alone_translation_fails requests_get open_wb translate el h raw e :
  find_element el TAG_NAME "h2" = Returns h ->
  text h = Returns raw ->
  strip raw <> "Title not found" ->
  translate (strip raw) = Raises e ->
  exists record s1,
    alone requests_get open_wb (Some translate) el = (Returns record, s1) /\
    title_spanish record = strip raw /\
    title_english record = "Translation failed" /\
    all_translated_headers s1 = [].
Proof.
  intros Hh Hraw Ht He. unfold alone.
  destruct (article_fields_steps requests_get open_wb (Some translate) 0 el empty_store)
    as (t & s1 & c & s2 & u & s3 & tt & s4 & E1 & E2 & E3 & E4 & E).
  rewrite (scrape_title_found 0 el h raw empty_store Hh Hraw) in E1.
  injection E1 as Et Hs1. subst t.
  rewrite (translate_title_fails translate (strip raw) e s3 Ht He) in E4.
  injection E4 as Htt Hs4. subst tt.
  eexists. exists s4. split; [exact E |].
  cbn [title_spanish title_english]. repeat split.
  pose proof (scrape_content_headers el s1) as F2. rewrite E2 in F2.
  pose proof (handle_image_headers requests_get open_wb 0 el s2) as F3. rewrite E3 in F3.
  unfold same_headers in *. subst s1 s4. simpl in *. congruence.
Qed.

(** The title step returns the title that the page gives the article. *)
Lemma scrape_title_title_of i el s t s1 :
  scrape_title i el s = (Returns t, s1) -> title_of el t.
Proof.
  unfold scrape_title, try_except, bind, call, print, ret.
  destruct (find_element el TAG_NAME "h2") as [h | e] eqn:Hh;
    [destruct (text h) as [raw | e] eqn:Hraw |];
    intros H; injection H as <- _.
  - exact (title_read el h raw Hh Hraw).
  - exact (title_unreadable el h e Hh Hraw).
  - exact (title_missing el e Hh).
Qed.

Lemma title_of_functional el t1 t2 : title_of el t1 -> title_of el t2 -> t1 = t2.
Proof.
  intros H1 H2. destruct H1, H2; congruence.
Qed.

(** The translation step returns the translation that the collaborators
    give the title, and adds the headers that go with it. *)
Lemma translate_title_of translate_client t v added s :
  translation_of translate_client t v added ->
  exists s',
    translate_title translate_client t s = (Returns v, s') /\
    all_translated_headers s' = all_translated_headers s ++ added.
Proof.
  intros H.
  destruct H as [translate translation v Hc Ht Htr Hv
                | translate e Hc Ht Htr
                | translate translation e Hc Ht Htr Hv
                | Hskip].
  - subst translate_client. unfold translate_title.
    destruct (String.eqb_spec t TITLE_NOT_FOUND) as [Heq | _]; [contradiction |].
    cbn [negb]. unfold try_except, bind, call, print, append_header, ret.
    rewrite Htr, Hv. eexists. split; reflexivity.
  - subst translate_client.
    rewrite (translate_title_fails translate t e s Ht Htr).
    eexists. split; [reflexivity |]. cbn. rewrite app_nil_r. reflexivity.
  - subst translate_client. unfold translate_title.
    destruct (String.eqb_spec t TITLE_NOT_FOUND) as [Heq | _]; [contradiction |].
    cbn [negb]. unfold try_except, bind, call, print, append_header, ret.
    rewrite Htr, Hv. eexists. split; [reflexivity |].
    cbn. rewrite app_nil_r. reflexivity.
  - rewrite (translate_title_skipped translate_client t s Hskip).
    eexists. split; [reflexivity |]. cbn. rewrite app_nil_r. reflexivity.
Qed.

(** An article processed on its own has the titles that the page and the
    translation client give it, and adds the headers that go with them. *)
Lemma alone_describes requests_get open_wb translate_client el o :
  describes translate_client el o ->
  exists record s',
    alone requests_get open_wb translate_client el = (Returns record, s') /\
    title_spanish record = spanish o /\
    title_english record = english o /\
    all_translated_headers s' = counted o.
Proof.
  intros [Htitle Htrans]. unfold alone.
  destruct (article_fields_steps requests_get open_wb translate_client 0 el empty_store)
    as (t & s1 & c & s2 & u & s3 & tt & s4 & E1 & E2 & E3 & E4 & E).
  pose proof (title_of_functional el t (spanish o)
                (scrape_title_title_of 0 el empty_store t s1 E1) Htitle) as Ht.
  subst t.
  destruct (translate_title_of translate_client (spanish o) (english o) (counted o) s3
              Htrans) as (s4' & E4' & Hh).
  rewrite E4 in E4'. injection E4' as Htt Hs4. subst tt s4'.
  eexists. exists s4. split; [exact E |].
  cbn [title_spanish title_english]. repeat split.
  pose proof (scrape_title_headers 0 el empty_store) as F1. rewrite E1 in F1.
  pose proof (scrape_content_headers el s1) as F2. rewrite E2 in F2.
  pose proof (handle_image_headers requests_get open_wb 0 el s2) as F3. rewrite E3 in F3.
  unfold same_headers in *. cbn [snd] in *.
  rewrite Hh, F3, F2, F1. reflexivity.
Qed.

(** The same for the articles of a list. *)
Lemma batch_describes requests_get open_wb translate_client l os :
  Forall2 (describes translate_client) l os ->
  map title_spanish (records_alone requests_get open_wb translate_client l) =
    map spanish os /\
  map title_english (records_alone requests_get open_wb translate_client l) =
    map english os /\
  headers_alone requests_get open_wb translate_client l = flat_map counted os.
Proof.
  induction 1 as [| el o l os Hd _ (IHs & IHe & IHh)].
  - repeat split.
  - destruct (alone_describes requests_get open_wb translate_client el o Hd)
      as (record & s' & E & Hs & He & Hh).
    unfold records_alone, headers_alone in *. cbn [flat_map].
    rewrite E. cbn [fst snd app map].
    rewrite IHs, IHe, IHh, Hs, He, Hh. repeat split.
Qed.

(** A counted header is the text that the client answered for the title of
    one of the articles. *)
Lemma counted_translated translate_client l os :
  Forall2 (describes translate_client) l os ->
  forall v,
    In v (flat_map counted os) ->
    exists el t translate translation,
      In el l /\ title_of el t /\
      translate_client = Some translate /\
      translate t = Returns translation /\
      getitem translation "translatedText" = Returns v.
Proof.
  induction 1 as [| el o l os [Htitle Htrans] _ IH]; intros v Hv.
  - destruct Hv.
  - cbn [flat_map] in Hv. apply in_app_or in Hv. destruct Hv as [Hv | Hv].
    + destruct Htrans as [translate translation v' Hc Ht Htr Hv' | | |];
        try contradiction.
      destruct Hv as [<- | []].
      exists el, (spanish o), translate, translation.
      repeat split; try assumption. left. reflexivity.
    + destruct (IH v Hv) as (el' & t & translate & translation & Hin & H).
      exists el', t, translate, translation. split; [right; exact Hin | exact H].
Qed.

(** Every article has titles: the two relations leave no case out. *)
Lemma describes_total translate_client el : exists o, describes translate_client el o.
Proof.
  assert (Ht : exists t, title_of el t).
  { destruct (find_element el TAG_NAME "h2") as [h | e] eqn:Hh.
    - destruct (text h) as [raw | e] eqn:Hraw.
      + exists (strip raw). exact (title_read el h raw Hh Hraw).
      + exists "Title not found". exact (title_unreadable el h e Hh Hraw).
    - exists "Title not found". exact (title_missing el e Hh). }
  destruct Ht as [t Ht].
  assert (Hv : exists v added, translation_of translate_client t v added).
  { destruct translate_client as [translate |].
    - destruct (string_dec t "Title not found") as [Heq | Hne].
      + exists "", []. apply translation_skipped. right. exact Heq.
      + destruct (translate t) as [translation | e] eqn:Htr.
        * destruct (getitem translation "translatedText") as [v | e] eqn:Hg.
          -- exists v, [v].
             exact (translated (Some translate) t translate translation v
                      eq_refl Hne Htr Hg).
          -- exists "Translation failed", [].
             exact (translation_without_text (Some translate) t translate translation e
                      eq_refl Hne Htr Hg).
        * exists "Translation failed", [].
          exact (translation_raised (Some translate) t translate e eq_refl Hne Htr).
    - exists "", []. apply translation_skipped. left. reflexivity. }
  destruct Hv as (v & added & Hv).
  exists {| spanish := t; english := v; counted := added |}.
  split; assumption.
Qed.

(** C6: on a page that loads, when the translation client raises on the
    title of one of the first five articles, the record of that article has
    the English title "Translation failed"; the articles before and after
    it are still processed, each to the record it gives on its own, with
    the Spanish title of the page and the English title that the client
    answers for it (a sibling that is translated keeps its translation);
    and the headers that the analysis counts are exactly the titles that
    the client translated for the other articles, each the answer of the
    client for the title of an article of the batch: the failed title adds
    none. *)
Theorem C6_translation_failure_is_local
    requests_get open_wb translate driver url nodes pre el post h raw e before after s :
  driver_get driver OPINION_SECTION_URL = Returns tt ->
  current_url driver = Returns url ->
  wait_until_present driver 15 TAG_NAME "article" = Returns tt ->
  driver_find_elements driver TAG_NAME "article" = Returns nodes ->
  firstn 5 nodes = pre ++ el :: post ->
  find_element el TAG_NAME "h2" = Returns h ->
  text h = Returns raw ->
  strip raw <> "Title not found" ->
  translate (strip raw) = Raises e ->
  Forall2 (describes (Some translate)) pre before ->
  Forall2 (describes (Some translate)) post after ->
  let records_of := records_alone requests_get open_wb (Some translate) in
  exists record data headers s',
    scrape_and_process_articles requests_get open_wb (Some translate) driver s =
      (Returns (Finished data headers (repeated_words headers)), s') /\
    data = records_of pre ++ record :: records_of post /\
    title_spanish record = strip raw /\
    title_english record = "Translation failed" /\
    map title_spanish data = map spanish before ++ strip raw :: map spanish after /\
    map title_english data =
      map english before ++ "Translation failed" :: map english after /\
    headers = flat_map counted before ++ flat_map counted after /\
    forall v,
      In v headers ->
      exists sibling t translation,
        In sibling (pre ++ post) /\ title_of sibling t /\
        translate t = Returns translation /\
        getitem translation "translatedText" = Returns v.
Proof.
  intros Hget Hurl Hwait Hfind Hsplit Hh Hraw Ht He Hpre Hpost records_of.
  destruct (scrape_finished requests_get open_wb (Some translate) driver url nodes s
              Hget Hurl Hwait Hfind) as [s' E].
  destruct (alone_translation_fails requests_get open_wb translate el h raw e
              Hh Hraw Ht He) as (record & s1 & Ea & Hts & Hte & Hhd).
  destruct (batch_describes requests_get open_wb (Some translate) pre before Hpre)
    as (Bs & Be & Bh).
  destruct (batch_describes requests_get open_wb (Some translate) post after Hpost)
    as (As & Ae & Ah).
  exists record, (records_of pre ++ record :: records_of post),
         (flat_map counted before ++ flat_map counted after), s'.
  split; [| split; [reflexivity |]].
  - rewrite E, Hsplit. rewrite <- Bh, <- Ah.
    unfold records_of, records_alone, headers_alone.
    rewrite !flat_map_app. cbn [flat_map]. rewrite Ea. cbn [fst snd].
    rewrite Hhd. reflexivity.
  - split; [exact Hts |]. split; [exact Hte |].
    unfold records_of. rewrite !map_app. cbn [map].
    rewrite Bs, Be, As, Ae, Hts, Hte.
    split; [reflexivity |]. split; [reflexivity |]. split; [reflexivity |].
    intros v Hv. apply in_app_or in Hv.
    destruct Hv as [Hv | Hv];
      [destruct (counted_translated (Some translate) pre before Hpre v Hv)
         as (sib & t & tr & translation & Hin & Htitle & Hc & Htr & Hg)
      |destruct (counted_translated (Some translate) post after Hpost v Hv)
         as (sib & t & tr & translation & Hin & Htitle & Hc & Htr & Hg)];
      injection Hc as <-;
      exists sib, t, translation;
      (split; [apply in_or_app; auto | repeat split; assumption]).
Qed.

Lemma C6_translation_failure_witness :
  let nodes := [plain_article "A"; plain_article "B"; plain_article "C"] in
  let e := Exception "ServiceUnavailable" in
  let before := [{| spanish := "A"; english := "A"; counted := ["A"] |}] in
  let after := [{| spanish := "C"; english := "C"; counted := ["C"] |}] in
  driver_get (page nodes) OPINION_SECTION_URL = Returns tt /\
  current_url (page nodes) = Returns OPINION_SECTION_URL /\
  wait_until_present (page nodes) 15 TAG_NAME "article" = Returns tt /\
  driver_find_elements (page nodes) TAG_NAME "article" = Returns nodes /\
  firstn 5 nodes = [plain_article "A"] ++ plain_article "B" :: [plain_article "C"] /\
  find_element (plain_article "B") TAG_NAME "h2" = Returns (leaf "B" []) /\
  text (leaf "B" []) = Returns "B" /\
  strip "B" <> "Title not found" /\
  failing_on "B" (strip "B") = Raises e /\
  Forall2 (describes (Some (failing_on "B"))) [plain_article "A"] before /\
  Forall2 (describes (Some (failing_on "B"))) [plain_article "C"] after /\
  let records_of := records_alone get_ok open_ok (Some (failing_on "B")) in
  exists record data headers s',
    scrape_and_process_articles get_ok open_ok (Some (failing_on "B")) (page nodes)
      empty_store =
      (Returns (Finished data headers (repeated_words headers)), s') /\
    data = records_of [plain_article "A"] ++ record :: records_of [plain_article "C"] /\
    title_spanish record = strip "B" /\
    title_english record = "Translation failed" /\
    map title_spanish data = map spanish before ++ strip "B" :: map spanish after /\
    map title_english data =
      map english before ++ "Translation failed" :: map english after /\
    headers = flat_map counted before ++ flat_map counted after /\
    forall v,
      In v headers ->
      exists sibling t translation,
        In sibling ([plain_article "A"] ++ [plain_article "C"]) /\ title_of sibling t /\
        failing_on "B" t = Returns translation /\
        getitem translation "translatedText" = Returns v.
Proof.
  assert (HA : Forall2 (describes (Some (failing_on "B"))) [plain_article "A"]
                 [{| spanish := "A"; english := "A"; counted := ["A"] |}]).
  { constructor; [| constructor]. split.
    - exact (title_read (plain_article "A") (leaf "A" []) "A" eq_refl eq_refl).
    - apply (translated (Some (failing_on "B")) "A" (failing_on "B")
               [("translatedText", "A")] "A");
        first [reflexivity | discriminate]. }
  assert (HC : Forall2 (describes (Some (failing_on "B"))) [plain_article "C"]
                 [{| spanish := "C"; english := "C"; counted := ["C"] |}]).
  { constructor; [| constructor]. split.
    - exact (title_read (plain_article "C") (leaf "C" []) "C" eq_refl eq_refl).
    - apply (translated (Some (failing_on "B")) "C" (failing_on "B")
               [("translatedText", "C")] "C");
        first [reflexivity | discriminate]. }
  cbv zeta.
  repeat (split; [first [reflexivity | vm_compute; discriminate | assumption] |]).
  apply (C6_translation_failure_is_local get_ok open_ok (failing_on "B")
           (page [plain_article "A"; plain_article "B"; plain_article "C"])
           OPINION_SECTION_URL
           [plain_article "A"; plain_article "B"; plain_article "C"]
           [plain_article "A"] (plain_article "B") [plain_article "C"]
           (leaf "B" []) "B" (Exception "ServiceUnavailable")
           [{| spanish := "A"; english := "A"; counted := ["A"] |}]
           [{| spanish := "C"; english := "C"; counted := ["C"] |}]
           empty_store);
    first [reflexivity | vm_compute; discriminate | assumption].
Defined.

(* ===================================================================== *)
(** * The loop over the articles, for any body *)
(* ===================================================================== *)

Section Loop.
Variable fields : nat -> WebElement -> M Article.

(** The loop never raises, keeps the records it was given and adds at
    most one record per element. *)
Lemma for_articles_returns l :
  forall i data s,
    exists later s',
      for_articles fields i l data s = (Returns (data ++ later), s') /\
      List.length later <= List.length l.
Proof.
  induction l as [| el l IH]; intros i data s.
  - exists [], s. cbn. rewrite app_nil_r. split; [reflexivity | lia].
  - cbn [for_articles]. unfold bind at 1. unfold print at 1.
    unfold bind at 1. unfold try_except at 1. unfold bind at 1.
    match goal with
    | |- context [fields i el ?st] => destruct (fields i el st) as [[record | e] s1]
    end.
    + unfold ret at 1.
      destruct (IH (S i) (data ++ [record]) s1) as (later & s' & E & Hlen).
      exists (record :: later), s'. rewrite E, <- app_assoc.
      split; [reflexivity | cbn; lia].
    + unfold bind at 1. unfold print at 1. unfold ret at 1.
      match goal with
      | |- context [for_articles fields (S i) l data ?st] =>
          destruct (IH (S i) data st) as (later & s' & E & Hlen)
      end.
      exists later, s'. rewrite E. split; [reflexivity | cbn; lia].
Qed.

(** One turn of the loop. *)
Lemma for_articles_cons el rest i data s :
  for_articles fields i (el :: rest) data s =
    match
      try_except
        (record <- fields i el ;; ret (data ++ [record]))
        (fun e => print (UnexpectedError (i + 1) e) ;; ret data)
        (snd (print (ProcessingArticle (i + 1)) s))
    with
    | (Returns d, s') => for_articles fields (S i) rest d s'
    | (Raises e, s') => (Raises e, s')
    end.
Proof. reflexivity. Qed.

(** The loop over a list cut in two. *)
Lemma for_articles_app l1 :
  forall l2 i data s,
    for_articles fields i (l1 ++ l2) data s =
      match for_articles fields i l1 data s with
      | (Returns d, s') => for_articles fields (i + List.length l1) l2 d s'
      | (Raises e, s') => (Raises e, s')
      end.
Proof.
  induction l1 as [| el l1 IH]; intros l2 i data s.
  - cbn. rewrite Nat.add_0_r. reflexivity.
  - cbn [app List.length]. rewrite !for_articles_cons.
    match goal with
    | |- context [try_except ?m ?h ?st] => destruct (try_except m h st) as [[d | e] s1]
    end.
    + rewrite IH. rewrite Nat.add_succ_r. reflexivity.
    + reflexivity.
Qed.

(** One turn of the loop on an element on which the body raises. *)
Lemma for_articles_fault el rest i data s e s2 :
  fields i el (snd (print (ProcessingArticle (i + 1)) s)) = (Raises e, s2) ->
  for_articles fields i (el :: rest) data s =
    for_articles fields (S i) rest data (snd (print (UnexpectedError (i + 1) e) s2)).
Proof.
  intros H. rewrite for_articles_cons.
  unfold try_except at 1. unfold bind at 1. rewrite H. reflexivity.
Qed.

End Loop.

(** The real body never raises, so on a page that loads every one of the
    first five articles gives exactly one record. *)
Lemma records_alone_length requests_get open_wb translate_client l :
  List.length (records_alone requests_get open_wb translate_client l) = List.length l.
Proof.
  induction l as [| el l IH]; [reflexivity |].
  unfold records_alone in *. cbn [flat_map]. rewrite length_app, IH.
  destruct (article_fields_never_raises requests_get open_wb translate_client 0 el
              empty_store) as [record Hr].
  unfold alone. rewrite Hr. reflexivity.
Qed.

(** The handler of lines 299-301, for any body of the loop: the loop runs
    over the first five article elements only, and when the body raises on
    one of them, the records gathered before are kept, no record is added
    for that element, and the loop goes on with the elements after it. *)
Lemma loop_goes_on_after_a_fault fields nodes pre el post s data1 s1 e s2 :
  firstn 5 nodes = pre ++ el :: post ->
  for_articles fields 0 pre [] s = (Returns data1, s1) ->
  fields (List.length pre) el
    (snd (print (ProcessingArticle (List.length pre + 1)) s1)) = (Raises e, s2) ->
  List.length (firstn 5 nodes) = Nat.min 5 (List.length nodes) /\
  (forall other,
      firstn 5 other = firstn 5 nodes ->
      process_articles fields other s = process_articles fields nodes s) /\
  process_articles fields nodes s =
    for_articles fields (S (List.length pre)) post data1
      (snd (print (UnexpectedError (List.length pre + 1) e) s2)) /\
  exists later s',
    process_articles fields nodes s = (Returns (data1 ++ later), s') /\
    List.length later <= List.length post.
Proof.
  intros Hsplit Hpre Hraise.
  assert (Hrun : process_articles fields nodes s =
                 for_articles fields (S (List.length pre)) post data1
                   (snd (print (UnexpectedError (List.length pre + 1) e) s2))).
  { unfold process_articles. rewrite Hsplit, for_articles_app.
    rewrite Hpre. cbn [Nat.add].
    apply for_articles_fault. exact Hraise. }
  split; [apply length_firstn |].
  split; [intros other Hsame; unfold process_articles; rewrite Hsame; reflexivity |].
  split; [exact Hrun |].
  rewrite Hrun. apply for_articles_returns.
Qed.






(* ===================================================================== *)
(** * [run_browserstack_test] *)
(* ===================================================================== *)

Section Runner.
Variable requests_get : string -> result Response.
Variable open_wb : string -> result unit.
Variable translate_client : option (string -> result dict).
Variable BROWSERSTACK_USERNAME : string.
Variable BROWSERSTACK_ACCESS_KEY : string.
Variable webdriver_Remote : dict -> result WebDriver.

Let fields := article_fields requests_get open_wb translate_client.
Let scrape := scrape_and_process_articles requests_get open_wb translate_client.
Let acquire :=
  get_webdriver_browserstack BROWSERSTACK_USERNAME BROWSERSTACK_ACCESS_KEY webdriver_Remote.

(** Nothing in the pipeline quits the session. *)
Lemma article_fields_quits i el : frames same_quits (fields i el).
Proof.
  unfold fields, article_fields, scrape_title, scrape_content, handle_image, download,
    translate_title.
  cbv zeta. repeat frames_step.
Qed.

Lemma for_articles_quits l : forall i data, frames same_quits (for_articles fields i l data).
Proof.
  induction l as [| el l IH]; intros i data; cbn [for_articles].
  - frames_step.
  - repeat first [ apply IH | apply article_fields_quits | frames_step ].
Qed.

Lemma scrape_quits driver : frames same_quits (scrape driver).
Proof.
  unfold scrape, scrape_and_process_articles, process_articles, analyze_headers.
  cbv zeta. fold fields.
  repeat first [ apply for_articles_quits | frames_step ].
Qed.

Lemma acquire_quits config : frames same_quits (acquire config).
Proof.
  unfold acquire, get_webdriver_browserstack.
  repeat frames_step.
Qed.

(** The [finally] clause of a run that has a session: one call of [quit]. *)
Lemma teardown_quits driver config s :
  quits (snd ((on_driver CallQuit (quit driver) ;;
               name <- call (session_name config) ;;
               print (DriverClosed name)) s)) = quits s + 1.
Proof.
  unfold bind at 1.
  pose proof (quits_on_driver unit CallQuit (quit driver) s) as H.
  destruct (on_driver CallQuit (quit driver) s) as [[[] | e] s1]; cbn [snd is_quit] in *.
  - unfold bind, call, print.
    destruct (session_name config); cbn [snd]; exact H.
  - exact H.
Qed.

(** A timeout of the wait ends the pipeline at line 167. *)
Lemma scrape_not_ready driver url e s :
  driver_get driver OPINION_SECTION_URL = Returns tt ->
  current_url driver = Returns url ->
  wait_until_present driver 15 TAG_NAME "article" = Raises e ->
  scrape driver s =
    (Returns NotReady,
     {| stdout := stdout s ++ [Navigating url; TimeoutWaiting e];
        files := files s;
        all_translated_headers := all_translated_headers s;
        driver_calls := driver_calls s ++ [CallGet OPINION_SECTION_URL; CallWait] |}).
Proof.
  intros Hget Hurl Hwait.
  unfold scrape, scrape_and_process_articles.
  unfold bind at 1. unfold on_driver at 1. rewrite Hget.
  unfold bind at 1. unfold call at 1. rewrite Hurl.
  unfold bind at 1. unfold print at 1.
  unfold bind at 1. unfold try_except at 1. unfold bind at 1.
  unfold on_driver at 1. rewrite Hwait.
  unfold bind at 1. unfold print at 1. unfold ret.
  cbn [negb stdout files all_translated_headers driver_calls].
  rewrite <- !app_assoc. reflexivity.
Qed.

End Runner.

(** C9: a run of [run_browserstack_test] calls [driver.quit()] exactly once
    when the session was acquired, whatever the pipeline, the status calls
    and [quit] itself do, and not at all when the acquisition raised. *)
Theorem C9_quit_exactly_once_per_session
    requests_get open_wb translate_client user key remote config s :
  quits (snd (run_browserstack_test requests_get open_wb translate_client
                user key remote config s)) =
  quits s +
  match fst (get_webdriver_browserstack user key remote config s) with
  | Returns _ => 1
  | Raises _ => 0
  end.
Proof.
  unfold run_browserstack_test.
  pose proof (acquire_quits user key remote config s) as Hacq.
  destruct (get_webdriver_browserstack user key remote config s) as [[driver | e] s0];
    cbn [fst snd] in *; unfold same_quits in Hacq.
  - unfold try_finally.
    match goal with
    | |- context [try_except ?m ?h s0] =>
        assert (Hbody : frames same_quits (try_except m h))
    end.
    { repeat first [ apply scrape_quits | frames_step ]. }
    specialize (Hbody s0). unfold same_quits in Hbody.
    match goal with
    | |- context [try_except ?m ?h s0] => destruct (try_except m h s0) as [r s1]
    end.
    cbn [snd] in Hbody.
    pose proof (teardown_quits driver config s1) as Hq.
    match goal with
    | |- context [bind ?m ?k s1] => destruct (bind m k s1) as [[[] | e] s2]
    end; cbn [snd] in *; lia.
  - assert (Hrest : frames same_quits
                      (name <- call (session_name config) ;; print (TestFailed name e))).
    { repeat frames_step. }
    specialize (Hrest s0). unfold same_quits in Hrest. lia.
Qed.

(** C2, as stated, fails: on a session whose wait for an article times out,
    [run_browserstack_test] sends the status passed to BrowserStack, and
    never the status failed. *)
Lemma C2_timeout_is_not_reported_failed :
  let run :=
    run_browserstack_test get_ok open_ok None "user" "key"
      (fun _ => Returns stalled_page) chrome_config empty_store in
  wait_until_present stalled_page 15 TAG_NAME "article" =
    Raises (Exception "TimeoutException") /\
  fst run = Returns tt /\
  reported_statuses (snd run) = ["passed"] /\
  ~ In "failed" (reported_statuses (snd run)).
Proof.
  cbv zeta. split; [reflexivity |]. split; [reflexivity |].
  split; [reflexivity |].
  vm_compute. intros [H | []]. discriminate H.
Qed.

(** C2, amended: when the wait for an article times out (and the page was
    reached), the pipeline stops there without raising: it has only
    navigated and waited, and no article is processed.  The run of
    [run_browserstack_test] then goes on as after any normal return: it
    sends the status passed, quits the session and returns, so that the
    other runs are not disturbed. *)
Theorem C2_timeout_ends_pipeline_quietly
    requests_get open_wb translate_client user key remote config s driver s0 url e :
  get_webdriver_browserstack user key remote config s = (Returns driver, s0) ->
  driver_get driver OPINION_SECTION_URL = Returns tt ->
  current_url driver = Returns url ->
  wait_until_present driver 15 TAG_NAME "article" = Raises e ->
  execute_script driver passed_script = Returns tt ->
  quit driver = Returns tt ->
  scrape_and_process_articles requests_get open_wb translate_client driver s0 =
    (Returns NotReady,
     {| stdout := stdout s0 ++ [Navigating url; TimeoutWaiting e];
        files := files s0;
        all_translated_headers := all_translated_headers s0;
        driver_calls := driver_calls s0 ++ [CallGet OPINION_SECTION_URL; CallWait] |}) /\
  exists name,
    run_browserstack_test requests_get open_wb translate_client user key remote config s =
      (Returns tt,
       {| stdout := stdout s0 ++ [Navigating url; TimeoutWaiting e;
                                  TestPassed name; DriverClosed name];
          files := files s0;
          all_translated_headers := all_translated_headers s0;
          driver_calls := driver_calls s0 ++
                          [CallGet OPINION_SECTION_URL; CallWait;
                           CallExecuteScript passed_script; CallQuit] |}).
Proof.
  intros Hacq Hget Hurl Hwait Hscript Hquit.
  pose proof (scrape_not_ready requests_get open_wb translate_client driver url e s0
                Hget Hurl Hwait) as Hscrape.
  split; [exact Hscrape |].
  assert (Hname : exists browser, getitem config "browserName" = Returns browser).
  { unfold get_webdriver_browserstack in Hacq. unfold bind at 1 in Hacq.
    unfold call at 1 in Hacq.
    destruct (getitem config "browserName") as [browser | e0]; [| discriminate Hacq].
    exists browser. reflexivity. }
  destruct Hname as [browser Hbrowser].
  eexists.
  unfold run_browserstack_test. rewrite Hacq.
  unfold try_finally, try_except, bind.
  rewrite Hscrape. cbv beta iota.
  unfold on_driver, call, print, session_name.
  rewrite Hscript, Hbrowser, Hquit.
  cbn [stdout files all_translated_headers driver_calls].
  rewrite <- !app_assoc. reflexivity.
Qed.

Lemma C2_timeout_witness :
  let s0 :=
    snd (get_webdriver_browserstack "user" "key" (fun _ => Returns stalled_page)
           chrome_config empty_store) in
  let e := Exception "TimeoutException" in
  get_webdriver_browserstack "user" "key" (fun _ => Returns stalled_page)
    chrome_config empty_store = (Returns stalled_page, s0) /\
  driver_get stalled_page OPINION_SECTION_URL = Returns tt /\
  current_url stalled_page = Returns OPINION_SECTION_URL /\
  wait_until_present stalled_page 15 TAG_NAME "article" = Raises e /\
  execute_script stalled_page passed_script = Returns tt /\
  quit stalled_page = Returns tt /\
  scrape_and_process_articles get_ok open_ok None stalled_page s0 =
    (Returns NotReady,
     {| stdout := stdout s0 ++ [Navigating OPINION_SECTION_URL; TimeoutWaiting e];
        files := files s0;
        all_translated_headers := all_translated_headers s0;
        driver_calls := driver_calls s0 ++ [CallGet OPINION_SECTION_URL; CallWait] |}) /\
  exists name,
    run_browserstack_test get_ok open_ok None "user" "key"
      (fun _ => Returns stalled_page) chrome_config empty_store =
      (Returns tt,
       {| stdout := stdout s0 ++ [Navigating OPINION_SECTION_URL; TimeoutWaiting e;
                                  TestPassed name; DriverClosed name];
          files := files s0;
          all_translated_headers := all_translated_headers s0;
          driver_calls := driver_calls s0 ++
                          [CallGet OPINION_SECTION_URL; CallWait;
                           CallExecuteScript passed_script; CallQuit] |}).
Proof.
  cbv zeta.
  repeat (split; [reflexivity |]).
  apply (C2_timeout_ends_pipeline_quietly get_ok open_ok None "user" "key"
           (fun _ => Returns stalled_page) chrome_config empty_store stalled_page
           (snd (get_webdriver_browserstack "user" "key" (fun _ => Returns stalled_page)
                   chrome_config empty_store))
           OPINION_SECTION_URL (Exception "TimeoutException"));
    reflexivity.
Defined.

(* ===================================================================== *)
(** * Further properties: text *)
(* ===================================================================== *)

Section TextFacts.

Lemma contains_one_char c s : contains (String c EmptyString) s = has_char c s.
Proof.
  induction s as [| c' r IH]; [reflexivity |].
  cbn [contains has_char String.prefix]. rewrite IH.
  destruct (ascii_dec c c') as [-> | Hne].
  - rewrite Ascii.eqb_refl. destruct r; reflexivity.
  - destruct (Ascii.eqb_spec c' c) as [-> | _]; [contradiction | reflexivity].
Qed.

(** The first piece of a split: it is there, it does not hold the
    separator, and its characters are characters of the string. *)
Lemma split_first sep s :
  exists piece pieces,
    split sep s = piece :: pieces /\
    has_char sep piece = false /\
    forall c, has_char c piece = true -> has_char c s = true.
Proof.
  induction s as [| c r (piece & pieces & E & Hsep & Hsub)].
  - exists EmptyString, []. repeat split. intros c H. discriminate H.
  - cbn [split]. destruct (Ascii.eqb_spec c sep) as [-> | Hne].
    + exists EmptyString, (split sep r). repeat split. intros c H. discriminate H.
    + rewrite E. exists (String c piece), pieces. repeat split.
      * cbn [has_char]. rewrite Hsep.
        destruct (Ascii.eqb_spec c sep); [contradiction | reflexivity].
      * intros c0. cbn [has_char]. intros H.
        apply orb_true_iff in H. apply orb_true_iff.
        destruct H as [H | H]; [left; exact H | right; apply Hsub, H].
Qed.

Lemma lstrip_chars c s : has_char c (lstrip s) = true -> has_char c s = true.
Proof.
  induction s as [| c' r IH]; [easy |].
  cbn [lstrip]. destruct (is_space c'); [| easy].
  intros H. cbn [has_char]. rewrite (IH H). apply orb_true_r.
Qed.

Lemma rstrip_chars c s : has_char c (rstrip s) = true -> has_char c s = true.
Proof.
  induction s as [| c' r IH]; [easy |].
  cbn [rstrip]. destruct (rstrip r) as [| c2 r2] eqn:E.
  - destruct (is_space c'); [easy |].
    cbn [has_char]. rewrite orb_false_r. intros ->. reflexivity.
  - cbn [has_char] in *. intros H.
    apply orb_true_iff in H. apply orb_true_iff.
    destruct H as [H | H]; [left; exact H | right; apply IH, H].
Qed.

Lemma strip_chars c s : has_char c (strip s) = true -> has_char c s = true.
Proof. intros H. apply lstrip_chars, rstrip_chars, H. Qed.

Lemma rstrip_cons c r : is_space c = false -> rstrip (String c r) = String c (rstrip r).
Proof. intros H. cbn [rstrip]. rewrite H. destruct (rstrip r); reflexivity. Qed.

Lemma lstrip_idem s : lstrip (lstrip s) = lstrip s.
Proof.
  induction s as [| c r IH]; [reflexivity |].
  cbn [lstrip]. destruct (is_space c) eqn:E; [exact IH |].
  cbn [lstrip]. rewrite E. reflexivity.
Qed.

Lemma rstrip_idem s : rstrip (rstrip s) = rstrip s.
Proof.
  induction s as [| c r IH]; [reflexivity |].
  cbn [rstrip]. destruct (rstrip r) as [| c2 r2] eqn:E.
  - destruct (is_space c) eqn:Ec; [reflexivity |].
    cbn [rstrip]. rewrite Ec. reflexivity.
  - cbn [rstrip]. cbn [rstrip] in IH. rewrite IH. reflexivity.
Qed.

(** Stripping on the right leaves a string that starts with something
    else than whitespace as it starts. *)
Lemma lstrip_rstrip s : lstrip s = s -> lstrip (rstrip s) = rstrip s.
Proof.
  destruct s as [| c r]; [reflexivity |].
  cbn [lstrip]. destruct (is_space c) eqn:E.
  - intros H. exfalso.
    assert (Hlen : String.length (lstrip r) <= String.length r).
    { clear. induction r as [| c r IH]; [apply le_n |].
      cbn [lstrip]. destruct (is_space c); cbn [String.length]; lia. }
    rewrite H in Hlen. cbn [String.length] in Hlen. lia.
  - intros _. rewrite (rstrip_cons c r E). cbn [lstrip]. rewrite E. reflexivity.
Qed.

Lemma strip_idem s : strip (strip s) = strip s.
Proof.
  unfold strip.
  rewrite (lstrip_rstrip (lstrip s) (lstrip_idem s)).
  apply rstrip_idem.
Qed.

End TextFacts.


(** X1: the expression [s.split(',')[0].strip().split(' ')[0]] of lines 227
    and 253 never raises (the index 0 always exists), and what it returns
    holds neither a comma nor a space. *)
Theorem first_candidate_is_one_token s :
  exists u,
    first_candidate s = Returns u /\
    contains "," u = false /\
    contains " " u = false.
Proof.
  unfold first_candidate.
  destruct (split_first "," s) as (entry & rest & E & Hcomma & _).
  rewrite E. cbn [item0].
  destruct (split_first " " (strip entry)) as (u & rest' & E' & Hspace & Hsub).
  rewrite E'. cbn [item0]. exists u.
  split; [reflexivity |].
  rewrite !contains_one_char. split; [| exact Hspace].
  destruct (has_char "," u) eqn:H; [| reflexivity].
  apply Hsub, strip_chars in H. congruence.
Qed.

(** The frame tactic for further relations: [law] proves that the relation
    is reflexive or transitive, [prim] that a primitive of the monad keeps
    it. *)
Ltac frames_with law prim :=
  match goal with
  | |- frames _ (bind _ _) => apply frames_bind; [law | | intro]
  | |- frames _ (try_except _ _) => apply frames_try_except; [law | | intro]
  | |- frames _ (try_finally _ _) => apply frames_try_finally; [law | | ]
  | |- frames _ (ret _) => apply frames_ret; law
  | |- frames _ (raise _) => apply frames_raise; law
  | |- frames _ (call _) => apply frames_call; law
  | |- frames _ get_headers => apply frames_get_headers; law
  | |- frames _ (print _) => prim
  | |- frames _ (append_header _) => prim
  | |- frames _ (set_headers _) => prim
  | |- frames _ (store_file _ _) => prim
  | |- frames _ (on_driver _ _) => prim
  | |- frames _ (match ?x with _ => _ end) => destruct x
  end.

(* ===================================================================== *)
(** * Further properties: the image step *)
(* ===================================================================== *)









Section Downloads.
Variable requests_get : string -> result Response.
Variable open_wb : string -> result unit.
Variable translate_client : option (string -> result dict).






End Downloads.



(** X3: an article in which none of the three stages finds an image (no
    image in a media container, no [picture], no [img] at all) gets no image
    URL, and nothing is downloaded or written for it: the step only prints
    that no valid URL was found. *)
Theorem no_image_no_download requests_get open_wb i el s e1 e2 e3 :
  find_element el CSS_SELECTOR MEDIA_SELECTOR = Raises e1 ->
  find_element el TAG_NAME "picture" = Raises e2 ->
  find_element el TAG_NAME "img" = Raises e3 ->
  handle_image requests_get open_wb i el s = (Returns None, snd (print NoValidImageUrl s)).
Proof.
  intros H1 H2 H3.
  unfold handle_image, attempt_3, attempt_2, attempt_1, read_attributes, MEDIA_SELECTOR in *.
  cbv zeta. rewrite H1. cbn [img_element article_image_url]. rewrite H2.
  cbn [img_element article_image_url truthy]. rewrite H3.
  cbn [img_element article_image_url]. reflexivity.
Qed.

Lemma no_image_no_download_witness :
  find_element (bare_article "Editorial") CSS_SELECTOR MEDIA_SELECTOR
    = Raises no_such_element /\
  find_element (bare_article "Editorial") TAG_NAME "picture" = Raises no_such_element /\
  find_element (bare_article "Editorial") TAG_NAME "img" = Raises no_such_element /\
  handle_image get_ok open_ok 0 (bare_article "Editorial") empty_store
    = (Returns None, snd (print NoValidImageUrl empty_store)).
Proof.
  repeat (split; [reflexivity |]).
  apply (no_image_no_download get_ok open_ok 0 (bare_article "Editorial") empty_store
           no_such_element no_such_element no_such_element);
    reflexivity.
Defined.

(** X4: when the image element comes from a media container and reading
    its first attribute, [data-srcset], raises, the whole image step is
    given up: the error is printed, the article gets no image URL and the
    attributes [data-src] and [src] are never looked at. *)
Theorem unreadable_lazy_attribute_loses_image requests_get open_wb i el img e s :
  find_element el CSS_SELECTOR MEDIA_SELECTOR = Returns img ->
  get_attribute img "data-srcset" = Raises e ->
  handle_image requests_get open_wb i el s =
    (Returns None, snd (print (ImageHandlingError (i + 1) e) s)).
Proof.
  intros H1 H2.
  unfold handle_image, attempt_3, attempt_2, attempt_1, read_attributes, MEDIA_SELECTOR in *.
  cbv zeta. rewrite H1. cbn [img_element article_image_url].
  cbn [possible_src_attrs first_http_attr]. rewrite H2. reflexivity.
Qed.

Lemma unreadable_lazy_attribute_witness :
  find_element flaky_article CSS_SELECTOR MEDIA_SELECTOR = Returns flaky_img /\
  get_attribute flaky_img "data-srcset" = Raises (Exception "stale element reference") /\
  get_attribute flaky_img "src" = Returns (Some "http://a.jpg") /\
  handle_image get_ok open_ok 0 flaky_article empty_store =
    (Returns None,
     snd (print (ImageHandlingError (0 + 1) (Exception "stale element reference"))
            empty_store)).
Proof.
  repeat (split; [reflexivity |]).
  apply (unreadable_lazy_attribute_loses_image get_ok open_ok 0 flaky_article flaky_img
           (Exception "stale element reference") empty_store);
    reflexivity.
Defined.

(* ===================================================================== *)
(** * Further properties: the summary *)
(* ===================================================================== *)

(** X5: when the paragraph [p.c_d] cannot be used, because it is missing or
    because reading its text raises, the summary is the stripped text of
    [div.c_d_p] if that can be read, and the fixed sentence otherwise; the
    step returns in both cases. *)
Theorem summary_falls_back el e s :
  (find_element el CSS_SELECTOR "p.c_d" = Raises e \/
   exists p, find_element el CSS_SELECTOR "p.c_d" = Returns p /\ text p = Raises e) ->
  (forall d raw,
      find_element el CSS_SELECTOR "div.c_d_p" = Returns d ->
      text d = Returns raw ->
      scrape_content el s =
        (Returns (strip raw), snd (print (ContentSpanish (strip raw)) s))) /\
  (forall e',
      (find_element el CSS_SELECTOR "div.c_d_p" = Raises e' \/
       exists d, find_element el CSS_SELECTOR "div.c_d_p" = Returns d /\
                 text d = Raises e') ->
      scrape_content el s =
        (Returns "Content summary not easily scraped from this section.",
         snd (print (ContentSpanish CONTENT_NOT_SCRAPED) s))).
Proof.
  intros Hfirst.
  unfold scrape_content, try_except, bind, call.
  destruct Hfirst as [H | (p & H & Ht)]; rewrite H; try rewrite Ht;
    (split;
     [ intros d raw Hd Hraw; rewrite Hd, Hraw; reflexivity
     | intros e' [H2 | (d & H2 & Ht2)]; rewrite H2; try rewrite Ht2; reflexivity ]).
Qed.

Lemma summary_falls_back_witness :
  (find_element fallback_article CSS_SELECTOR "p.c_d"
     = Raises (Exception "stale element reference") \/
   exists p, find_element fallback_article CSS_SELECTOR "p.c_d" = Returns p /\
             text p = Raises (Exception "stale element reference")) /\
  (forall d raw,
      find_element fallback_article CSS_SELECTOR "div.c_d_p" = Returns d ->
      text d = Returns raw ->
      scrape_content fallback_article empty_store =
        (Returns (strip raw), snd (print (ContentSpanish (strip raw)) empty_store))) /\
  (forall e',
      (find_element fallback_article CSS_SELECTOR "div.c_d_p" = Raises e' \/
       exists d, find_element fallback_article CSS_SELECTOR "div.c_d_p" = Returns d /\
                 text d = Raises e') ->
      scrape_content fallback_article empty_store =
        (Returns "Content summary not easily scraped from this section.",
         snd (print (ContentSpanish CONTENT_NOT_SCRAPED) empty_store))).
Proof.
  assert (H : find_element fallback_article CSS_SELECTOR "p.c_d"
                = Raises (Exception "stale element reference") \/
              exists p, find_element fallback_article CSS_SELECTOR "p.c_d" = Returns p /\
                        text p = Raises (Exception "stale element reference")).
  { right. exists stale_paragraph. split; reflexivity. }
  split; [exact H |].
  exact (summary_falls_back fallback_article (Exception "stale element reference")
           empty_store H).
Defined.

(* ===================================================================== *)
(** * Further properties: the files of the covers *)
(* ===================================================================== *)

Lemma string_length_append a b :
  String.length (String.append a b) = String.length a + String.length b.
Proof. induction a as [| c a IH]; cbn; [reflexivity | rewrite IH; reflexivity]. Qed.

Lemma append_cancel_l p a b : String.append p a = String.append p b -> a = b.
Proof.
  induction p as [| c p IH]; cbn; intros H; [exact H |].
  injection H as H. apply IH, H.
Qed.

Lemma append_cancel_r a : forall b c, String.append a c = String.append b c -> a = b.
Proof.
  induction a as [| x a IH]; intros [| y b] c H; cbn in H.
  - reflexivity.
  - exfalso. apply (f_equal String.length) in H.
    cbn in H. rewrite string_length_append in H. lia.
  - exfalso. apply (f_equal String.length) in H.
    cbn in H. rewrite string_length_append in H. lia.
  - injection H as -> H. f_equal. apply (IH b c H).
Qed.

Lemma str_of_nat_injective n m : str_of_nat n = str_of_nat m -> n = m.
Proof.
  unfold str_of_nat. intros H.
  apply (f_equal NilEmpty.uint_of_string) in H.
  rewrite !NilEmpty.usu in H. injection H as H.
  apply (f_equal Nat.of_uint) in H.
  rewrite !Unsigned.of_to in H. exact H.
Qed.

Lemma image_path_is_injective i j : image_path i = image_path j -> i = j.
Proof.
  unfold image_path. intros H.
  repeat apply append_cancel_l in H.
  apply append_cancel_r, str_of_nat_injective in H. lia.
Qed.

(** X6: the path of a cover depends on the position of the article in the
    batch and on nothing else, and two positions never share a path: within
    one run no cover overwrites another (while the same position in another
    run writes to the same path). *)
Theorem image_path_injective i j : image_path i = image_path j -> i = j.
Proof. apply image_path_is_injective. Qed.

Lemma image_path_injective_witness :
  image_path 3 = image_path (1 + 2) /\ 3 = 1 + 2.
Proof.
  split; [reflexivity |].
  apply (image_path_injective 3 (1 + 2)). reflexivity.
Defined.

Section Covers.
Variable requests_get : string -> result Response.
Variable open_wb : string -> result unit.
Variable translate_client : option (string -> result dict).

Lemma download_cover i u n :
  frames (at_most_cover i)
    (try_except (download requests_get open_wb i u)
       (fun img_e => print (ImageHandlingError n img_e))).
Proof.
  intros s.
  unfold at_most_cover, try_except, download, bind, call, print, store_file, raise.
  cbv zeta. fold (image_path i).
  destruct (requests_get u) as [response | e]; cbn [snd files];
    [| left; reflexivity].
  destruct (status_code response =? 200); cbn [snd files]; [| left; reflexivity].
  destruct (open_wb (image_path i)) as [[] | e]; cbn [snd files];
    [| left; reflexivity].
  destruct (content response) as [body | e]; cbn [snd files];
    right; eexists; reflexivity.
Qed.

Lemma handle_image_cover i el :
  frames (at_most_cover i) (handle_image requests_get open_wb i el).
Proof.
  intros s. unfold handle_image. cbv zeta.
  destruct (read_attributes _) as [[u |] | e]; try (left; reflexivity).
  destruct (nonempty u && startswith "http" u); [| left; reflexivity].
  destruct (clean_url u) as [u' | e]; [| left; reflexivity].
  unfold bind at 1.
  pose proof (download_cover i u' (i + 1) s) as H.
  destruct (try_except _ _ s) as [[[] | e] s1]; exact H.
Qed.

Lemma article_fields_cover i el :
  frames (at_most_cover i) (article_fields requests_get open_wb translate_client i el).
Proof.
  intros s.
  destruct (article_fields_steps requests_get open_wb translate_client i el s)
    as (t & s1 & c & s2 & u & s3 & tt & s4 & E1 & E2 & E3 & E4 & E).
  rewrite E. cbn [snd].
  pose proof (scrape_title_files i el s) as F1. rewrite E1 in F1.
  pose proof (scrape_content_files el s1) as F2. rewrite E2 in F2.
  pose proof (handle_image_cover i el s2) as F3. rewrite E3 in F3.
  pose proof (translate_title_files translate_client t s3) as F4. rewrite E4 in F4.
  unfold same_files, at_most_cover in *. cbn [snd] in *.
  rewrite F4. destruct F3 as [F3 | [bytes F3]]; rewrite F3, F2, F1.
  - left. reflexivity.
  - right. exists bytes. reflexivity.
Qed.

Lemma for_articles_covers l :
  forall i data s,
    exists added,
      files (snd (for_articles (article_fields requests_get open_wb translate_client)
                    i l data s)) = files s ++ added /\
      covers_between i (i + List.length l) added.
Proof.
  induction l as [| el l IH]; intros i data s.
  - exists []. cbn. rewrite app_nil_r. split; [reflexivity |].
    exists []. repeat split; constructor.
  - rewrite for_articles_cons.
    set (s0 := snd (print (ProcessingArticle (i + 1)) s)).
    assert (Hs0 : files s0 = files s) by reflexivity.
    destruct (article_fields_steps requests_get open_wb translate_client i el s0)
      as (t & s1 & c & s2 & u & s3 & tt & s4 & _ & _ & _ & _ & E).
    pose proof (article_fields_cover i el s0) as Hc. rewrite E in Hc. cbn [snd] in Hc.
    unfold try_except at 1. unfold bind at 1. rewrite E. unfold ret at 1.
    destruct (IH (S i) (data ++ [{| title_spanish := t; content_spanish := c;
                                    image_url := u; title_english := tt |}]) s4)
      as (added & Hfiles & positions & Hmap & Hsorted & Hrange).
    rewrite Hfiles.
    assert (Hrange' : Forall (fun j => i <= j /\ j < i + List.length (el :: l)) positions).
    { eapply Forall_impl; [| exact Hrange]. cbn. intros j [? ?]. lia. }
    destruct Hc as [Hc | [bytes Hc]]; rewrite Hc, Hs0.
    + exists added. split; [reflexivity |].
      exists positions. repeat split; assumption.
    + exists ((image_path i, bytes) :: added). split; [rewrite <- app_assoc; reflexivity |].
      exists (i :: positions). repeat split.
      * cbn. rewrite Hmap. reflexivity.
      * constructor; [exact Hsorted |].
        eapply Forall_impl; [| exact Hrange]. cbn. intros j [? ?]. lia.
      * constructor; [cbn; lia | exact Hrange'].
Qed.

Lemma analyze_headers_files headers : frames same_files (analyze_headers headers).
Proof. unfold analyze_headers. cbv zeta. repeat frames_step. Qed.

Lemma scrape_covers driver s :
  exists added,
    files (snd (scrape_and_process_articles requests_get open_wb translate_client
                  driver s)) = files s ++ added /\
    covers_between 0 5 added.
Proof.
  assert (Hnone : forall s' : Store, files s' = files s ->
            exists added, files s' = files s ++ added /\ covers_between 0 5 added).
  { intros s' H. exists []. rewrite app_nil_r. split; [exact H |].
    exists []. repeat split; constructor. }
  unfold scrape_and_process_articles.
  unfold bind at 1. unfold on_driver at 1.
  destruct (driver_get driver OPINION_SECTION_URL) as [[] | e]; [| apply Hnone; reflexivity].
  unfold bind at 1. unfold call at 1.
  destruct (current_url driver) as [url | e]; [| apply Hnone; reflexivity].
  unfold bind at 1. unfold print at 1.
  unfold bind at 1. unfold try_except at 1. unfold bind at 1. unfold on_driver at 1.
  destruct (wait_until_present driver 15 TAG_NAME "article") as [[] | e].
  2: { unfold bind, print, ret. cbn [negb]. apply Hnone. reflexivity. }
  unfold bind at 1. unfold print at 1. unfold ret at 1. cbn [negb].
  unfold bind at 1. unfold on_driver at 1.
  destruct (driver_find_elements driver TAG_NAME "article") as [nodes | e];
    [| apply Hnone; reflexivity].
  unfold bind at 1. unfold print at 1.
  unfold bind at 1. unfold set_headers at 1.
  cbn [stdout files all_translated_headers driver_calls].
  unfold process_articles.
  match goal with
  | |- context [@bind _ _ (for_articles _ _ _ _) _ ?st] => set (s0 := st)
  end.
  assert (Hs0 : files s0 = files s) by reflexivity.
  destruct (for_articles_covers (firstn 5 nodes) 0 [] s0)
    as (added & Hfiles & positions & Hmap & Hsorted & Hrange).
  assert (Hres : exists s2,
             files s2 = files (snd (for_articles
               (article_fields requests_get open_wb translate_client) 0
               (firstn 5 nodes) [] s0)) /\
             snd ((scraped_articles_data <-
                     for_articles (article_fields requests_get open_wb translate_client)
                       0 (firstn 5 nodes) [] ;;
                   headers <- get_headers ;;
                   repeated <- analyze_headers headers ;;
                   ret (Finished scraped_articles_data headers repeated)) s0) = s2).
  { unfold bind at 1.
    destruct (for_articles _ 0 (firstn 5 nodes) [] s0) as [[data | e] s1];
      [| exists s1; split; reflexivity].
    unfold bind at 1. unfold get_headers at 1.
    pose proof (analyze_headers_files (all_translated_headers s1) s1) as Hf.
    unfold bind at 1.
    destruct (analyze_headers (all_translated_headers s1) s1) as [[rep | e] s2];
      exists s2; split; try reflexivity; exact Hf. }
  destruct Hres as (s2 & Hs2 & ->).
  exists added. rewrite Hs2, Hfiles, Hs0. split; [reflexivity |].
  exists positions. repeat split; try assumption.
  eapply Forall_impl; [| exact Hrange]. cbv beta.
  intros j [? Hj]. split; [lia |].
  pose proof (length_firstn 5 nodes). lia.
Qed.

End Covers.

(** X7: whatever the page and the collaborators do, a run of the pipeline
    adds files to those already there and touches nothing else; the files it
    adds are covers of distinct positions among the first five, in the order
    of the positions, so at most five files are written and none twice. *)
Theorem pipeline_writes_only_covers requests_get open_wb translate_client driver s :
  exists added,
    files (snd (scrape_and_process_articles requests_get open_wb translate_client
                  driver s)) = files s ++ added /\
    covers_between 0 5 added /\
    List.length added <= 5 /\
    NoDup (map fst added).
Proof.
  destruct (scrape_covers requests_get open_wb translate_client driver s)
    as (added & Hfiles & Hcov).
  exists added. split; [exact Hfiles |]. split; [exact Hcov |].
  destruct Hcov as (positions & Hmap & Hsorted & Hrange).
  assert (Hnodup : NoDup positions).
  { clear Hmap Hrange. induction Hsorted as [| j js _ IH Hlt]; constructor; [| exact IH].
    intros Hin. rewrite Forall_forall in Hlt. specialize (Hlt j Hin). lia. }
  split.
  - rewrite <- (length_map fst added), Hmap, length_map.
    assert (Hincl : incl positions (seq 0 5)).
    { intros j Hin. rewrite Forall_forall in Hrange.
      apply in_seq. specialize (Hrange j Hin). lia. }
    pose proof (NoDup_incl_length Hnodup Hincl) as Hlen.
    rewrite length_seq in Hlen. exact Hlen.
  - rewrite Hmap.
    clear Hmap Hsorted Hrange.
    induction Hnodup as [| j js Hnotin _ IH]; cbn; constructor; [| exact IH].
    intros Hin. apply in_map_iff in Hin. destruct Hin as (k & Hk & Hin).
    apply image_path_is_injective in Hk. subst k. contradiction.
Qed.

(* ===================================================================== *)
(** * Further properties: the records of a page *)
(* ===================================================================== *)

Section Records.
Variable requests_get : string -> result Response.
Variable open_wb : string -> result unit.
Variable translate_client : option (string -> result dict).

Lemma scrape_title_trimmed i el s t s1 :
  scrape_title i el s = (Returns t, s1) -> strip t = t.
Proof.
  unfold scrape_title, try_except, bind, call, print, ret.
  destruct (find_element el TAG_NAME "h2") as [h | e];
    [destruct (text h) as [raw | e] |];
    intros H; injection H as <- _; first [apply strip_idem | reflexivity].
Qed.

Lemma scrape_content_trimmed el s c s1 :
  scrape_content el s = (Returns c, s1) -> strip c = c.
Proof.
  unfold scrape_content, try_except, bind, call, print, ret.
  destruct (find_element el CSS_SELECTOR "p.c_d") as [p | e];
    [destruct (text p) as [raw | e] |];
    try (intros H; injection H as <- _; apply strip_idem);
    (destruct (find_element el CSS_SELECTOR "div.c_d_p") as [d | e'];
     [destruct (text d) as [raw | e'] |];
     intros H; injection H as <- _; first [apply strip_idem | reflexivity]).
Qed.

Lemma translate_title_adds t s tt s' :
  translate_title translate_client t s = (Returns tt, s') ->
  all_translated_headers s' = all_translated_headers s \/
  all_translated_headers s' = all_translated_headers s ++ [tt].
Proof.
  unfold translate_title, try_except, bind, call, print, ret, append_header.
  destruct translate_client as [translate |];
    [destruct (negb (String.eqb t TITLE_NOT_FOUND));
     [destruct (translate t) as [translation | e];
      [destruct (getitem translation "translatedText") as [v | e] |] |] |];
    intros H; injection H as <- <-; cbn [all_translated_headers]; auto.
Qed.

(** What one article gives on its own. *)
Lemma alone_shape el :
  exists record s4,
    alone requests_get open_wb translate_client el = (Returns record, s4) /\
    (all_translated_headers s4 = [] \/
     all_translated_headers s4 = [title_english record]) /\
    strip (title_spanish record) = title_spanish record /\
    strip (content_spanish record) = content_spanish record /\
    (translate_client = None ->
     title_english record = "" /\ all_translated_headers s4 = []).
Proof.
  unfold alone.
  destruct (article_fields_steps requests_get open_wb translate_client 0 el empty_store)
    as (t & s1 & c & s2 & u & s3 & tt & s4 & E1 & E2 & E3 & E4 & E).
  eexists. exists s4. split; [exact E |]. cbn [title_spanish content_spanish title_english].
  pose proof (scrape_title_headers 0 el empty_store) as F1. rewrite E1 in F1.
  pose proof (scrape_content_headers el s1) as F2. rewrite E2 in F2.
  pose proof (handle_image_headers requests_get open_wb 0 el s2) as F3. rewrite E3 in F3.
  unfold same_headers in *. cbn [snd] in *.
  assert (H3 : all_translated_headers s3 = []) by (rewrite F3, F2, F1; reflexivity).
  split; [| split; [| split]].
  - destruct (translate_title_adds t s3 tt s4 E4) as [H | H]; rewrite H, H3; auto.
  - exact (scrape_title_trimmed 0 el empty_store t s1 E1).
  - exact (scrape_content_trimmed el s1 c s2 E2).
  - intros Hnone.
    rewrite (translate_title_skipped translate_client t s3 (or_introl Hnone)) in E4.
    injection E4 as <- <-. split; [reflexivity | exact H3].
Qed.

Lemma records_alone_in l record :
  In record (records_alone requests_get open_wb translate_client l) ->
  exists el, In el l /\
             fst (alone requests_get open_wb translate_client el) = Returns record.
Proof.
  unfold records_alone. intros H. apply in_flat_map in H.
  destruct H as (el & Hel & H). exists el. split; [exact Hel |].
  destruct (fst (alone requests_get open_wb translate_client el)) as [r | e];
    [| contradiction].
  destruct H as [-> | []]. reflexivity.
Qed.

Lemma records_alone_trimmed l record :
  In record (records_alone requests_get open_wb translate_client l) ->
  strip (title_spanish record) = title_spanish record /\
  strip (content_spanish record) = content_spanish record.
Proof.
  intros H. destruct (records_alone_in l record H) as (el & _ & Hfst).
  destruct (alone_shape el) as (r & s4 & E & _ & Ht & Hc & _).
  rewrite E in Hfst. injection Hfst as <-. split; assumption.
Qed.

Lemma headers_alone_stored l h :
  In h (headers_alone requests_get open_wb translate_client l) ->
  exists record,
    In record (records_alone requests_get open_wb translate_client l) /\
    title_english record = h.
Proof.
  unfold headers_alone, records_alone. intros H. apply in_flat_map in H.
  destruct H as (el & Hel & H).
  destruct (alone_shape el) as (r & s4 & E & Hh & _).
  rewrite E in H. cbn [snd] in H.
  destruct Hh as [Hh | Hh]; rewrite Hh in H; [contradiction |].
  destruct H as [<- | []].
  exists r. split; [| reflexivity].
  apply in_flat_map. exists el. split; [exact Hel |]. rewrite E. left. reflexivity.
Qed.

Lemma headers_alone_length l :
  List.length (headers_alone requests_get open_wb translate_client l) <= List.length l.
Proof.
  induction l as [| el l IH]; [apply le_n |].
  unfold headers_alone in *. cbn [flat_map]. rewrite length_app.
  destruct (alone_shape el) as (r & s4 & E & Hh & _).
  rewrite E. cbn [snd List.length].
  destruct Hh as [-> | ->]; cbn [List.length]; lia.
Qed.

Lemma records_alone_untranslated l :
  translate_client = None ->
  headers_alone requests_get open_wb translate_client l = [] /\
  Forall (fun record => title_english record = "")
    (records_alone requests_get open_wb translate_client l).
Proof.
  intros Hnone. induction l as [| el l [IHh IHr]]; [split; [reflexivity | constructor] |].
  unfold headers_alone, records_alone in *. cbn [flat_map].
  destruct (alone_shape el) as (r & s4 & E & _ & _ & _ & Hn).
  destruct (Hn Hnone) as [Hte Hh].
  rewrite E. cbn [fst snd]. rewrite Hh, IHh. split; [reflexivity |].
  constructor; assumption.
Qed.

End Records.

(** X8: on a page that loads, the pipeline ends with exactly one record for
    each of the first five article elements (for all of them when there are
    fewer), never more than one translated header per record, and every
    header that the analysis counts is the English title stored in one of
    the records. *)
Theorem pipeline_gives_one_record_per_article
    requests_get open_wb translate_client driver url nodes s :
  driver_get driver OPINION_SECTION_URL = Returns tt ->
  current_url driver = Returns url ->
  wait_until_present driver 15 TAG_NAME "article" = Returns tt ->
  driver_find_elements driver TAG_NAME "article" = Returns nodes ->
  exists data headers s',
    scrape_and_process_articles requests_get open_wb translate_client driver s =
      (Returns (Finished data headers (repeated_words headers)), s') /\
    List.length data = Nat.min 5 (List.length nodes) /\
    List.length headers <= List.length data /\
    forall h, In h headers -> exists record, In record data /\ title_english record = h.
Proof.
  intros Hget Hurl Hwait Hfind.
  destruct (scrape_finished requests_get open_wb translate_client driver url nodes s
              Hget Hurl Hwait Hfind) as [s' E].
  cbv zeta in E.
  eexists. eexists. exists s'. split; [exact E |].
  rewrite records_alone_length, length_firstn.
  split; [reflexivity |]. split.
  - rewrite <- (length_firstn 5 nodes). apply headers_alone_length.
  - apply headers_alone_stored.
Qed.

Lemma pipeline_gives_one_record_witness :
  let nodes := [plain_article "A"; article_without_h2; srcset_article;
                relative_article; plain_article "B"; plain_article "C"] in
  driver_get (page nodes) OPINION_SECTION_URL = Returns tt /\
  current_url (page nodes) = Returns OPINION_SECTION_URL /\
  wait_until_present (page nodes) 15 TAG_NAME "article" = Returns tt /\
  driver_find_elements (page nodes) TAG_NAME "article" = Returns nodes /\
  exists data headers s',
    scrape_and_process_articles get_ok open_ok (Some (failing_on "B")) (page nodes)
      empty_store =
      (Returns (Finished data headers (repeated_words headers)), s') /\
    List.length data = Nat.min 5 (List.length nodes) /\
    List.length headers <= List.length data /\
    forall h, In h headers -> exists record, In record data /\ title_english record = h.
Proof.
  cbv zeta. repeat (split; [reflexivity |]).
  apply (pipeline_gives_one_record_per_article get_ok open_ok (Some (failing_on "B"))
           (page [plain_article "A"; article_without_h2; srcset_article;
                  relative_article; plain_article "B"; plain_article "C"])
           OPINION_SECTION_URL
           [plain_article "A"; article_without_h2; srcset_article;
            relative_article; plain_article "B"; plain_article "C"]
           empty_store);
    reflexivity.
Defined.

(** X9: the title and the summary stored in a record carry no whitespace
    at either end: they are stripped texts of the page or one of the two
    fixed sentences. *)
Theorem record_texts_are_stripped requests_get open_wb translate_client i el s :
  exists record s',
    article_fields requests_get open_wb translate_client i el s = (Returns record, s') /\
    strip (title_spanish record) = title_spanish record /\
    strip (content_spanish record) = content_spanish record.
Proof.
  destruct (article_fields_steps requests_get open_wb translate_client i el s)
    as (t & s1 & c & s2 & u & s3 & tt & s4 & E1 & E2 & _ & _ & E).
  eexists. exists s4. split; [exact E |].
  cbn [title_spanish content_spanish]. split.
  - exact (scrape_title_trimmed i el s t s1 E1).
  - exact (scrape_content_trimmed el s1 c s2 E2).
Qed.

(** X10: while no translation client is configured, a page that loads
    gives records whose English titles are all empty, no translated header
    at all and no repeated word: the analysis has nothing to read. *)
Theorem pipeline_without_client requests_get open_wb driver url nodes s :
  driver_get driver OPINION_SECTION_URL = Returns tt ->
  current_url driver = Returns url ->
  wait_until_present driver 15 TAG_NAME "article" = Returns tt ->
  driver_find_elements driver TAG_NAME "article" = Returns nodes ->
  exists data s',
    scrape_and_process_articles requests_get open_wb None driver s =
      (Returns (Finished data [] []), s') /\
    List.length data = Nat.min 5 (List.length nodes) /\
    Forall (fun record => title_english record = "") data.
Proof.
  intros Hget Hurl Hwait Hfind.
  destruct (scrape_finished requests_get open_wb None driver url nodes s
              Hget Hurl Hwait Hfind) as [s' E].
  cbv zeta in E.
  destruct (records_alone_untranslated requests_get open_wb None (firstn 5 nodes)
              eq_refl) as [Hh Hr].
  rewrite Hh in E.
  eexists. exists s'. split; [exact E |].
  rewrite records_alone_length, length_firstn. split; [reflexivity | exact Hr].
Qed.

Lemma pipeline_without_client_witness :
  let nodes := [plain_article "A"; plain_article "B"] in
  driver_get (page nodes) OPINION_SECTION_URL = Returns tt /\
  current_url (page nodes) = Returns OPINION_SECTION_URL /\
  wait_until_present (page nodes) 15 TAG_NAME "article" = Returns tt /\
  driver_find_elements (page nodes) TAG_NAME "article" = Returns nodes /\
  exists data s',
    scrape_and_process_articles get_ok open_ok None (page nodes) empty_store =
      (Returns (Finished data [] []), s') /\
    List.length data = Nat.min 5 (List.length nodes) /\
    Forall (fun record => title_english record = "") data.
Proof.
  cbv zeta. repeat (split; [reflexivity |]).
  apply (pipeline_without_client get_ok open_ok
           (page [plain_article "A"; plain_article "B"]) OPINION_SECTION_URL
           [plain_article "A"; plain_article "B"] empty_store);
    reflexivity.
Defined.

(* ===================================================================== *)
(** * Further properties: the analysis of the headers *)
(* ===================================================================== *)

Section Words.

Lemma lower_char_not_upper c : is_upper (lower_char c) = false.
Proof. destruct c as [[] [] [] [] [] [] [] []]; reflexivity. Qed.

Lemma lower_no_upper c s : has_char c (lower s) = true -> is_upper c = false.
Proof.
  induction s as [| c0 r IH]; [discriminate |].
  cbn [lower has_char]. intros H. apply orb_true_iff in H.
  destruct H as [H | H]; [| exact (IH H)].
  apply Ascii.eqb_eq in H. subst c. apply lower_char_not_upper.
Qed.

Lemma every_char_rev f s : forall acc,
  every_char f (rev_string acc s) = every_char f acc && every_char f s.
Proof.
  induction s as [| c r IH]; intros acc; cbn [rev_string every_char].
  - rewrite andb_true_r. reflexivity.
  - rewrite IH. cbn [every_char].
    destruct (f c), (every_char f acc), (every_char f r); reflexivity.
Qed.

Lemma rev_string_nonempty s : forall acc, acc <> "" -> rev_string acc s <> "".
Proof.
  induction s as [| c r IH]; intros acc H; cbn [rev_string]; [exact H |].
  apply IH. discriminate.
Qed.

(** The matches of the scanner: never empty, and made of letters of the
    text. *)
Lemma findall_from_words (f : ascii -> bool) s :
  (forall c, has_char c s = true -> is_alpha c = true -> f c = true) ->
  forall st,
    match st with
    | Letters acc => acc <> "" /\ every_char f acc = true
    | _ => True
    end ->
    Forall (fun w => w <> "" /\ every_char f w = true) (findall_from st s).
Proof.
  induction s as [| c r IH]; intros Hf st Hst.
  - destruct st as [| acc |]; cbn [findall_from]; constructor; [| constructor].
    destruct Hst as [Hne Hall]. split.
    + destruct acc as [| a acc]; [contradiction |].
      cbn [rev_string]. apply rev_string_nonempty. discriminate.
    + rewrite every_char_rev, Hall. reflexivity.
  - assert (Hr : forall c0, has_char c0 r = true -> is_alpha c0 = true -> f c0 = true).
    { intros c0 H. apply Hf. cbn [has_char]. rewrite H. apply orb_true_r. }
    assert (Hc : is_alpha c = true -> f c = true).
    { apply Hf. cbn [has_char]. rewrite Ascii.eqb_refl. reflexivity. }
    destruct st as [| acc |]; cbn [findall_from].
    + destruct (is_alpha c) eqn:Ea.
      * apply (IH Hr). split; [discriminate |]. cbn [every_char].
        rewrite (Hc eq_refl). reflexivity.
      * destruct (is_word c); apply (IH Hr); exact I.
    + destruct Hst as [Hne Hall]. destruct (is_alpha c) eqn:Ea.
      * apply (IH Hr). split; [discriminate |]. cbn [every_char].
        rewrite (Hc eq_refl), Hall. reflexivity.
      * destruct (is_word c).
        -- apply (IH Hr). exact I.
        -- constructor; [| apply (IH Hr); exact I]. split.
           ++ destruct acc as [| a acc]; [contradiction |].
              cbn [rev_string]. apply rev_string_nonempty. discriminate.
           ++ rewrite every_char_rev, Hall. reflexivity.
    + destruct (is_word c); apply (IH Hr); exact I.
Qed.

Lemma words_of_header_lowercase header :
  Forall lowercase_word (findall_words (lower header)).
Proof.
  unfold findall_words, lowercase_word.
  apply findall_from_words; [| exact I].
  intros c Hin Halpha. apply lower_no_upper in Hin.
  unfold is_alpha in Halpha. rewrite Hin, orb_false_r in Halpha. exact Halpha.
Qed.

Lemma collect_words_lowercase headers : Forall lowercase_word (collect_words headers).
Proof.
  induction headers as [| h rest IH]; cbn [collect_words]; [constructor |].
  apply Forall_app. split; [apply words_of_header_lowercase | exact IH].
Qed.

(** ** The counter *)

Lemma lookup_count_one w w' t :
  lookup w (count_one w' t) =
    if String.eqb w' w then Some (S (count_of w t)) else lookup w t.
Proof.
  unfold count_of.
  induction t as [| [k n] rest IH]; cbn [count_one lookup].
  - destruct (String.eqb w' w); reflexivity.
  - destruct (String.eqb_spec k w') as [-> | Hk]; cbn [lookup].
    + destruct (String.eqb w' w); reflexivity.
    + rewrite IH.
      destruct (String.eqb_spec k w) as [-> | Hkw]; [| reflexivity].
      destruct (String.eqb_spec w' w) as [-> | _]; [contradiction | reflexivity].
Qed.

Lemma lookup_fold_count l : forall t w,
  lookup w (fold_left (fun t w => count_one w t) l t) =
    if occurrences w l =? 0 then lookup w t
    else Some (occurrences w l + count_of w t).
Proof.
  unfold occurrences.
  induction l as [| w0 l IH]; intros t w; cbn [fold_left count_occ]; [reflexivity |].
  rewrite IH. unfold count_of at 1. rewrite lookup_count_one.
  destruct (string_dec w0 w) as [-> | Hne].
  - rewrite String.eqb_refl. cbn [Nat.eqb].
    destruct (count_occ string_dec l w =? 0) eqn:E.
    + apply Nat.eqb_eq in E. rewrite E. reflexivity.
    + f_equal. lia.
  - destruct (String.eqb_spec w0 w) as [-> | _]; [contradiction |].
    reflexivity.
Qed.

Lemma lookup_Counter w l :
  lookup w (Counter l) =
    if occurrences w l =? 0 then None else Some (occurrences w l).
Proof.
  unfold Counter. rewrite lookup_fold_count. unfold count_of. cbn [lookup].
  rewrite Nat.add_0_r. reflexivity.
Qed.

Lemma count_one_keys w k t :
  In k (map fst (count_one w t)) -> k = w \/ In k (map fst t).
Proof.
  induction t as [| [k0 n] rest IH]; cbn [count_one map fst In].
  - intros [<- | []]. left. reflexivity.
  - destruct (String.eqb k0 w); cbn [map fst In]; [tauto |].
    intros [H | H]; [tauto |]. destruct (IH H); tauto.
Qed.

Lemma count_one_NoDup w t : NoDup (map fst t) -> NoDup (map fst (count_one w t)).
Proof.
  induction t as [| [k n] rest IH]; cbn [count_one map fst]; intros H.
  - constructor; [easy | constructor].
  - inversion H as [| ? ? Hnotin Hrest]; subst.
    destruct (String.eqb_spec k w) as [-> | Hne]; cbn [map fst].
    + constructor; assumption.
    + constructor; [| apply IH, Hrest].
      intros Hin. destruct (count_one_keys w k rest Hin) as [-> | Hin']; contradiction.
Qed.

Lemma Counter_NoDup l : NoDup (map fst (Counter l)).
Proof.
  unfold Counter.
  assert (H : forall t, NoDup (map fst t) ->
                        NoDup (map fst (fold_left (fun t w => count_one w t) l t))).
  { induction l as [| w l IH]; intros t Ht; cbn [fold_left]; [exact Ht |].
    apply IH, count_one_NoDup, Ht. }
  apply H. constructor.
Qed.

Lemma lookup_absent w t : ~ In w (map fst t) -> lookup w t = None.
Proof.
  induction t as [| [k n] rest IH]; cbn [lookup map fst In]; [reflexivity |].
  intros H. destruct (String.eqb_spec k w) as [-> | _]; [tauto |].
  apply IH. tauto.
Qed.

Lemma lookup_filter (p : string * nat -> bool) w t :
  NoDup (map fst t) ->
  lookup w (filter p t) =
    match lookup w t with
    | Some n => if p (w, n) then Some n else None
    | None => None
    end.
Proof.
  induction t as [| [k n] rest IH]; cbn [filter lookup map fst]; [reflexivity |].
  intros H. inversion H as [| ? ? Hnotin Hrest]; subst.
  destruct (p (k, n)) eqn:Ep; cbn [lookup].
  - destruct (String.eqb_spec k w) as [-> | _]; [rewrite Ep; reflexivity | apply IH, Hrest].
  - rewrite (IH Hrest).
    destruct (String.eqb_spec k w) as [-> | _]; [| reflexivity].
    rewrite Ep, (lookup_absent w rest Hnotin). reflexivity.
Qed.

Lemma lookup_repeated_words w headers :
  lookup w (repeated_words headers) =
    if 2 <? occurrences w (collect_words headers)
    then Some (occurrences w (collect_words headers))
    else None.
Proof.
  unfold repeated_words. rewrite lookup_filter by apply Counter_NoDup.
  rewrite lookup_Counter.
  destruct (occurrences w (collect_words headers)) as [| n]; reflexivity.
Qed.

Lemma collect_words_permutation w hs hs' :
  Permutation hs hs' ->
  occurrences w (collect_words hs) = occurrences w (collect_words hs').
Proof.
  unfold occurrences.
  induction 1 as [| h l l' _ IH | h1 h2 l | l1 l2 l3 _ IH1 _ IH2];
    cbn [collect_words]; rewrite ?count_occ_app; lia.
Qed.

Lemma table_entry_lookup w n t :
  NoDup (map fst t) -> In (w, n) t -> lookup w t = Some n.
Proof.
  induction t as [| [k m] rest IH]; cbn [lookup map fst In]; [easy |].
  intros H [Heq | Hin]; inversion H as [| ? ? Hnotin Hrest]; subst.
  - injection Heq as -> ->. rewrite String.eqb_refl. reflexivity.
  - destruct (String.eqb_spec k w) as [-> | _]; [| apply IH; assumption].
    exfalso. apply Hnotin. apply in_map_iff. exists (w, n). split; [reflexivity | exact Hin].
Qed.

End Words.

(** X11: [Counter] counts: a word that does not occur has no entry, and a
    word that occurs has its number of occurrences as its entry. *)
Theorem Counter_counts_occurrences w all_words :
  lookup w (Counter all_words) =
    if occurrences w all_words =? 0 then None else Some (occurrences w all_words).
Proof. apply lookup_Counter. Qed.

(** X12: the table of repeated words holds exactly the words that occur
    more than twice over all the headers together, each with its number of
    occurrences: words that occur once or twice are left out. *)
Theorem repeated_words_are_those_above_two w headers :
  lookup w (repeated_words headers) =
    if 2 <? occurrences w (collect_words headers)
    then Some (occurrences w (collect_words headers))
    else None.
Proof. apply lookup_repeated_words. Qed.

(** X13: the words of the table are words of lower-case letters, at least
    one letter long, each listed once, with a count above two: digits,
    punctuation and upper case never get into the table. *)
Theorem repeated_words_are_lowercase_words headers :
  NoDup (map fst (repeated_words headers)) /\
  Forall (fun entry => lowercase_word (fst entry) /\ 2 < snd entry)
         (repeated_words headers).
Proof.
  unfold repeated_words. split.
  - assert (H : forall (p : string * nat -> bool) t,
               NoDup (map fst t) -> NoDup (map fst (filter p t))).
    { intros p t. induction t as [| x t IH]; cbn [filter map]; intros Ht; [constructor |].
      inversion Ht as [| ? ? Hnotin Hrest]; subst.
      destruct (p x); cbn [map]; [| apply IH, Hrest].
      constructor; [| apply IH, Hrest].
      intros Hin. apply Hnotin. apply in_map_iff in Hin.
      destruct Hin as (y & Hy & Hin). apply filter_In in Hin.
      apply in_map_iff. exists y. tauto. }
    apply H, Counter_NoDup.
  - apply Forall_forall. intros [w n] Hin. apply filter_In in Hin.
    destruct Hin as [Hin Hn]. cbn [fst snd]. split.
    + pose proof (table_entry_lookup w n _ (Counter_NoDup _) Hin) as Hl.
      rewrite lookup_Counter in Hl.
      destruct (occurrences w (collect_words headers)) as [| m] eqn:E;
        [discriminate |].
      pose proof (collect_words_lowercase headers) as Hall.
      rewrite Forall_forall in Hall. apply Hall.
      unfold occurrences in E.
      apply (count_occ_In string_dec). lia.
    + apply Nat.ltb_lt. exact Hn.
Qed.

(** X14: the order of the headers does not matter to the table: two lists
    of headers that are permutations of each other give the same mapping. *)
Theorem repeated_words_ignore_order hs hs' :
  Permutation hs hs' ->
  same_mapping (repeated_words hs) (repeated_words hs').
Proof.
  intros H w. rewrite !lookup_repeated_words.
  rewrite (collect_words_permutation w hs hs' H). reflexivity.
Qed.

Lemma repeated_words_ignore_order_witness :
  Permutation ["Storm hits city"; "City storm warning issued"; "Storm storm"]
              ["City storm warning issued"; "Storm hits city"; "Storm storm"] /\
  same_mapping
    (repeated_words ["Storm hits city"; "City storm warning issued"; "Storm storm"])
    (repeated_words ["City storm warning issued"; "Storm hits city"; "Storm storm"]).
Proof.
  assert (H : Permutation
                ["Storm hits city"; "City storm warning issued"; "Storm storm"]
                ["City storm warning issued"; "Storm hits city"; "Storm storm"])
    by apply perm_swap.
  split; [exact H |].
  exact (repeated_words_ignore_order
           ["Storm hits city"; "City storm warning issued"; "Storm storm"]
           ["City storm warning issued"; "Storm hits city"; "Storm storm"] H).
Defined.

(* ===================================================================== *)
(** * Further properties: the run on BrowserStack *)
(* ===================================================================== *)

Lemma same_statuses_refl s : same_statuses s s.
Proof. reflexivity. Qed.

Lemma same_statuses_trans s1 s2 s3 :
  same_statuses s1 s2 -> same_statuses s2 s3 -> same_statuses s1 s3.
Proof. unfold same_statuses. congruence. Qed.

Ltac statuses_law := first [ exact same_statuses_refl | exact same_statuses_trans ].

Ltac statuses_prim :=
  let s := fresh "s" in
  intros s; unfold same_statuses, reported_statuses;
  cbn [print on_driver append_header set_headers store_file snd driver_calls];
  rewrite ?flat_map_app; cbn [flat_map]; rewrite ?app_nil_r; reflexivity.

Section Statuses.
Variable requests_get : string -> result Response.
Variable open_wb : string -> result unit.
Variable translate_client : option (string -> result dict).
Variable BROWSERSTACK_USERNAME : string.
Variable BROWSERSTACK_ACCESS_KEY : string.
Variable webdriver_Remote : dict -> result WebDriver.

Lemma article_fields_statuses i el :
  frames same_statuses (article_fields requests_get open_wb translate_client i el).
Proof.
  unfold article_fields, scrape_title, scrape_content, handle_image, download,
    translate_title.
  cbv zeta. repeat frames_with statuses_law statuses_prim.
Qed.

Lemma for_articles_statuses l :
  forall i data,
    frames same_statuses
      (for_articles (article_fields requests_get open_wb translate_client) i l data).
Proof.
  induction l as [| el l IH]; intros i data; cbn [for_articles].
  - frames_with statuses_law statuses_prim.
  - repeat first [ apply IH | apply article_fields_statuses
                 | frames_with statuses_law statuses_prim ].
Qed.

Lemma scrape_statuses driver :
  frames same_statuses
    (scrape_and_process_articles requests_get open_wb translate_client driver).
Proof.
  unfold scrape_and_process_articles, process_articles, analyze_headers. cbv zeta.
  repeat first [ apply for_articles_statuses
               | frames_with statuses_law statuses_prim ].
Qed.

Lemma acquire_statuses config :
  frames same_statuses
    (get_webdriver_browserstack BROWSERSTACK_USERNAME BROWSERSTACK_ACCESS_KEY
       webdriver_Remote config).
Proof.
  unfold get_webdriver_browserstack.
  repeat frames_with statuses_law statuses_prim.
Qed.

(** What an acquisition that returns tells. *)
Lemma acquire_returns config s driver s0 :
  get_webdriver_browserstack BROWSERSTACK_USERNAME BROWSERSTACK_ACCESS_KEY
    webdriver_Remote config s = (Returns driver, s0) ->
  webdriver_Remote config = Returns driver /\
  exists browser, getitem config "browserName" = Returns browser.
Proof.
  unfold get_webdriver_browserstack, bind, call, print, raise, ret.
  destruct (getitem config "browserName") as [browser | e]; [| discriminate].
  destruct (negb (nonempty BROWSERSTACK_USERNAME) || negb (nonempty BROWSERSTACK_ACCESS_KEY));
    [discriminate |].
  destruct (webdriver_Remote config) as [d | e]; [| discriminate].
  intros H. injection H as -> _. split; [reflexivity | exists browser; reflexivity].
Qed.

Lemma session_name_returns config browser :
  getitem config "browserName" = Returns browser ->
  exists name, session_name config = Returns name.
Proof. intros H. unfold session_name. rewrite H. eexists. reflexivity. Qed.

End Statuses.

(** X15: when an exception escapes the pipeline (a failed navigation, for
    one), [run_browserstack_test] sends the status failed with the message
    of the exception, its quotes escaped, as the reason, quits the session
    and returns normally. *)
Theorem escaped_exception_is_reported_failed
    requests_get open_wb translate_client user key remote config s driver s0 e s1 :
  get_webdriver_browserstack user key remote config s = (Returns driver, s0) ->
  scrape_and_process_articles requests_get open_wb translate_client driver s0 =
    (Raises e, s1) ->
  execute_script driver (failed_script e) = Returns tt ->
  quit driver = Returns tt ->
  exists name,
    run_browserstack_test requests_get open_wb translate_client user key remote config s =
      (Returns tt,
       {| stdout := stdout s1 ++ [TestFailed name e; DriverClosed name];
          files := files s1;
          all_translated_headers := all_translated_headers s1;
          driver_calls := driver_calls s1 ++
                          [CallExecuteScript (failed_script e); CallQuit] |}) /\
    failed_script e =
      setSessionStatus "failed"
        (String.append "Test failed: "
           (replace "034"%char (String "092"%char (String "034"%char EmptyString))
              (str e))).
Proof.
  intros Hacq Hscrape Hscript Hquit.
  destruct (acquire_returns user key remote config s driver s0 Hacq)
    as [_ [browser Hbrowser]].
  eexists. split; [| reflexivity].
  unfold run_browserstack_test. rewrite Hacq.
  unfold try_finally, try_except, bind.
  rewrite Hscrape. cbv beta iota.
  unfold on_driver, call, print, session_name.
  rewrite Hscript, Hbrowser, Hquit.
  cbn [stdout files all_translated_headers driver_calls].
  rewrite <- !app_assoc. reflexivity.
Qed.

Lemma escaped_exception_witness :
  let remote := fun _ : dict => Returns unreachable_page in
  let s0 := snd (get_webdriver_browserstack "user" "key" remote chrome_config
                   empty_store) in
  let e := Exception "net::ERR_NAME_NOT_RESOLVED" in
  let s1 := snd (scrape_and_process_articles get_ok open_ok None unreachable_page s0) in
  get_webdriver_browserstack "user" "key" remote chrome_config empty_store
    = (Returns unreachable_page, s0) /\
  scrape_and_process_articles get_ok open_ok None unreachable_page s0 = (Raises e, s1) /\
  execute_script unreachable_page (failed_script e) = Returns tt /\
  quit unreachable_page = Returns tt /\
  exists name,
    run_browserstack_test get_ok open_ok None "user" "key" remote chrome_config
      empty_store =
      (Returns tt,
       {| stdout := stdout s1 ++ [TestFailed name e; DriverClosed name];
          files := files s1;
          all_translated_headers := all_translated_headers s1;
          driver_calls := driver_calls s1 ++
                          [CallExecuteScript (failed_script e); CallQuit] |}) /\
    failed_script e =
      setSessionStatus "failed"
        (String.append "Test failed: "
           (replace "034"%char (String "092"%char (String "034"%char EmptyString))
              (str e))).
Proof.
  cbv zeta. repeat (split; [reflexivity |]).
  apply (escaped_exception_is_reported_failed get_ok open_ok None "user" "key"
           (fun _ : dict => Returns unreachable_page) chrome_config empty_store
           unreachable_page
           (snd (get_webdriver_browserstack "user" "key"
                   (fun _ : dict => Returns unreachable_page) chrome_config empty_store))
           (Exception "net::ERR_NAME_NOT_RESOLVED")
           (snd (scrape_and_process_articles get_ok open_ok None unreachable_page
                   (snd (get_webdriver_browserstack "user" "key"
                           (fun _ : dict => Returns unreachable_page) chrome_config
                           empty_store)))));
    reflexivity.
Defined.

(** X16: when the pipeline returns but the call that sends the status
    passed raises, the handler sends the status failed for that exception
    on top of it: both statuses go out, passed first, and the session is
    still quit. *)
Theorem failed_follows_unsent_passed
    requests_get open_wb translate_client user key remote config s driver s0 outcome s1 e :
  get_webdriver_browserstack user key remote config s = (Returns driver, s0) ->
  scrape_and_process_articles requests_get open_wb translate_client driver s0 =
    (Returns outcome, s1) ->
  execute_script driver passed_script = Raises e ->
  let final := snd (run_browserstack_test requests_get open_wb translate_client
                      user key remote config s) in
  driver_calls final =
    driver_calls s1 ++
    [CallExecuteScript passed_script; CallExecuteScript (failed_script e); CallQuit] /\
  reported_statuses final = reported_statuses s1 ++ ["passed"; "failed"].
Proof.
  intros Hacq Hscrape Hscript final.
  assert (Hcalls : driver_calls final =
                   driver_calls s1 ++
                   [CallExecuteScript passed_script; CallExecuteScript (failed_script e);
                    CallQuit]).
  { subst final. unfold run_browserstack_test. rewrite Hacq.
    unfold try_finally, try_except, bind.
    rewrite Hscrape. cbv beta iota.
    unfold on_driver, call, print. rewrite Hscript.
    destruct (execute_script driver (failed_script e)) as [[] | e1];
      destruct (session_name config) as [name | e2];
      destruct (quit driver) as [[] | e3];
      cbn [snd stdout files all_translated_headers driver_calls];
      rewrite <- !app_assoc; reflexivity. }
  split; [exact Hcalls |].
  unfold reported_statuses. rewrite Hcalls, flat_map_app. reflexivity.
Qed.

Lemma failed_follows_unsent_passed_witness :
  let remote := fun _ : dict => Returns deaf_page in
  let s0 := snd (get_webdriver_browserstack "user" "key" remote chrome_config
                   empty_store) in
  let s1 := snd (scrape_and_process_articles get_ok open_ok None deaf_page s0) in
  let e := Exception "session not found" in
  get_webdriver_browserstack "user" "key" remote chrome_config empty_store
    = (Returns deaf_page, s0) /\
  scrape_and_process_articles get_ok open_ok None deaf_page s0
    = (Returns (Finished [] [] []), s1) /\
  execute_script deaf_page passed_script = Raises e /\
  let final := snd (run_browserstack_test get_ok open_ok None "user" "key" remote
                      chrome_config empty_store) in
  driver_calls final =
    driver_calls s1 ++
    [CallExecuteScript passed_script; CallExecuteScript (failed_script e); CallQuit] /\
  reported_statuses final = reported_statuses s1 ++ ["passed"; "failed"].
Proof.
  cbv zeta. repeat (split; [reflexivity |]).
  apply (failed_follows_unsent_passed get_ok open_ok None "user" "key"
           (fun _ : dict => Returns deaf_page) chrome_config empty_store deaf_page
           (snd (get_webdriver_browserstack "user" "key"
                   (fun _ : dict => Returns deaf_page) chrome_config empty_store))
           (Finished [] [] [])
           (snd (scrape_and_process_articles get_ok open_ok None deaf_page
                   (snd (get_webdriver_browserstack "user" "key"
                           (fun _ : dict => Returns deaf_page) chrome_config
                           empty_store))))
           (Exception "session not found"));
    reflexivity.
Defined.

(** X17: a run sends no status when the session could not be acquired,
    and otherwise exactly one of three sequences: passed, failed, or passed
    followed by failed; failed is never followed by passed and no status is
    sent twice. *)
Theorem statuses_of_a_run
    requests_get open_wb translate_client user key remote config s :
  exists sent,
    reported_statuses
      (snd (run_browserstack_test requests_get open_wb translate_client
              user key remote config s)) = reported_statuses s ++ sent /\
    match fst (get_webdriver_browserstack user key remote config s) with
    | Raises _ => sent = []
    | Returns _ => sent = ["passed"] \/ sent = ["failed"] \/ sent = ["passed"; "failed"]
    end.
Proof.
  unfold run_browserstack_test.
  pose proof (acquire_statuses user key remote config s) as Hacq.
  destruct (get_webdriver_browserstack user key remote config s) as [[driver | e] s0];
    cbn [fst snd] in *; unfold same_statuses in Hacq; rewrite <- Hacq.
  - pose proof (scrape_statuses requests_get open_wb translate_client driver s0) as Hs.
    unfold try_finally, try_except, bind.
    destruct (scrape_and_process_articles requests_get open_wb translate_client driver s0)
      as [[outcome | e] s1];
      cbn [snd] in Hs; unfold same_statuses in Hs; rewrite <- Hs;
      unfold on_driver, call, print.
    + destruct (execute_script driver passed_script) as [[] | e1].
      * destruct (session_name config) as [name | e2].
        -- exists ["passed"]. split; [| auto].
           destruct (quit driver) as [[] | e3];
             unfold reported_statuses;
             cbn [snd stdout files all_translated_headers driver_calls];
             rewrite !flat_map_app; cbn [flat_map app]; rewrite ?app_nil_r; reflexivity.
        -- exists ["passed"; "failed"]. split; [| auto].
           destruct (execute_script driver (failed_script e2)) as [[] | e4];
             destruct (quit driver) as [[] | e3];
             unfold reported_statuses;
             cbn [snd stdout files all_translated_headers driver_calls];
             rewrite !flat_map_app; cbn [flat_map app]; rewrite ?app_nil_r;
             rewrite <- ?app_assoc; reflexivity.
      * exists ["passed"; "failed"]. split; [| auto].
        destruct (execute_script driver (failed_script e1)) as [[] | e4];
          destruct (session_name config) as [name | e2];
          destruct (quit driver) as [[] | e3];
          unfold reported_statuses;
          cbn [snd stdout files all_translated_headers driver_calls];
          rewrite !flat_map_app; cbn [flat_map app]; rewrite ?app_nil_r;
          rewrite <- ?app_assoc; reflexivity.
    + exists ["failed"]. split; [| auto].
      destruct (execute_script driver (failed_script e)) as [[] | e4];
        destruct (session_name config) as [name | e2];
        destruct (quit driver) as [[] | e3];
        unfold reported_statuses;
        cbn [snd stdout files all_translated_headers driver_calls];
        rewrite !flat_map_app; cbn [flat_map app]; rewrite ?app_nil_r;
        rewrite <- ?app_assoc; reflexivity.
  - exists []. split; [| reflexivity]. rewrite app_nil_r.
    assert (Hrest : frames same_statuses
                      (name <- call (session_name config) ;; print (TestFailed name e))).
    { repeat frames_with statuses_law statuses_prim. }
    apply (Hrest s0).
Qed.

(** X18: with an empty user name or access key the run stops before any
    session is asked for: whatever [webdriver.Remote] would do, no call is
    made on a session, nothing is written, the failure is printed and the
    run returns normally. *)
Theorem missing_credentials_fail_the_run_early
    requests_get open_wb translate_client user key remote config browser s :
  user = "" \/ key = "" ->
  getitem config "browserName" = Returns browser ->
  exists name,
    session_name config = Returns name /\
    run_browserstack_test requests_get open_wb translate_client user key remote config s =
      (Returns tt,
       {| stdout := stdout s ++
                    [InitializingBrowserStack browser
                       (get_default config "os" "N/A")
                       (get_default config "os_version" "N/A");
                     CredentialsNotSet;
                     TestFailed name (Exception "BrowserStack credentials missing.")];
          files := files s;
          all_translated_headers := all_translated_headers s;
          driver_calls := driver_calls s |}).
Proof.
  intros Hcred Hbrowser.
  destruct (session_name_returns config browser Hbrowser) as [name Hname].
  exists name. split; [exact Hname |].
  unfold run_browserstack_test, get_webdriver_browserstack.
  unfold bind, call, print, raise. rewrite Hbrowser.
  assert (Hempty : negb (nonempty user) || negb (nonempty key) = true).
  { destruct Hcred as [-> | ->]; [reflexivity | apply orb_true_r]. }
  rewrite Hempty, Hname.
  cbn [stdout files all_translated_headers driver_calls].
  rewrite <- !app_assoc. reflexivity.
Qed.

Lemma missing_credentials_witness :
  ("" = "" \/ "key" = "") /\
  getitem chrome_config "browserName" = Returns "chrome" /\
  exists name,
    session_name chrome_config = Returns name /\
    run_browserstack_test get_ok open_ok None "" "key"
      (fun _ => Returns (page [plain_article "A"])) chrome_config empty_store =
      (Returns tt,
       {| stdout := stdout empty_store ++
                    [InitializingBrowserStack "chrome"
                       (get_default chrome_config "os" "N/A")
                       (get_default chrome_config "os_version" "N/A");
                     CredentialsNotSet;
                     TestFailed name (Exception "BrowserStack credentials missing.")];
          files := files empty_store;
          all_translated_headers := all_translated_headers empty_store;
          driver_calls := driver_calls empty_store |}).
Proof.
  split; [left; reflexivity |]. split; [reflexivity |].
  apply (missing_credentials_fail_the_run_early get_ok open_ok None "" "key"
           (fun _ => Returns (page [plain_article "A"])) chrome_config "chrome"
           empty_store);
    [left; reflexivity | reflexivity].
Defined.

(** X19: a run never raises as long as the configuration names its browser
    and the session, if one is acquired, takes the status calls and can be
    quit: whatever the page, the downloads and the translation do, the run
    returns. *)
Theorem run_contains_failures
    requests_get open_wb translate_client user key remote config browser s :
  getitem config "browserName" = Returns browser ->
  (forall driver,
      remote config = Returns driver ->
      (forall sc, execute_script driver sc = Returns tt) /\ quit driver = Returns tt) ->
  fst (run_browserstack_test requests_get open_wb translate_client
         user key remote config s) = Returns tt.
Proof.
  intros Hbrowser Hdriver.
  destruct (session_name_returns config browser Hbrowser) as [name Hname].
  unfold run_browserstack_test.
  destruct (get_webdriver_browserstack user key remote config s) as [[driver | e] s0] eqn:Hacq.
  - destruct (acquire_returns user key remote config s driver s0 Hacq) as [Hremote _].
    destruct (Hdriver driver Hremote) as [Hscript Hquit].
    unfold try_finally, try_except, bind.
    destruct (scrape_and_process_articles requests_get open_wb translate_client driver s0)
      as [[outcome | e] s1];
      unfold on_driver, call, print; rewrite ?Hscript, Hname, Hquit; reflexivity.
  - unfold bind, call, print. rewrite Hname. reflexivity.
Qed.

Lemma run_contains_failures_witness :
  getitem chrome_config "browserName" = Returns "chrome" /\
  (forall driver,
      (fun _ : dict => Returns unreachable_page) chrome_config = Returns driver ->
      (forall sc, execute_script driver sc = Returns tt) /\ quit driver = Returns tt) /\
  fst (run_browserstack_test get_timeout open_ok None "user" "key"
         (fun _ : dict => Returns unreachable_page) chrome_config empty_store)
    = Returns tt.
Proof.
  assert (H : forall driver,
             (fun _ : dict => Returns unreachable_page) chrome_config = Returns driver ->
             (forall sc, execute_script driver sc = Returns tt) /\
             quit driver = Returns tt).
  { intros driver Heq. injection Heq as <-. split; [intros sc |]; reflexivity. }
  split; [reflexivity |]. split; [exact H |].
  exact (run_contains_failures get_timeout open_ok None "user" "key"
           (fun _ : dict => Returns unreachable_page) chrome_config "chrome" empty_store
           eq_refl H).
Defined.

(** X20: an exception of [driver.quit()] is not contained: when the
    session was acquired and [quit] raises, the run raises that exception,
    whatever happened before. *)
Theorem quit_exception_escapes_the_run
    requests_get open_wb translate_client user key remote config s driver s0 e :
  get_webdriver_browserstack user key remote config s = (Returns driver, s0) ->
  quit driver = Raises e ->
  fst (run_browserstack_test requests_get open_wb translate_client
         user key remote config s) = Raises e.
Proof.
  intros Hacq Hquit.
  unfold run_browserstack_test. rewrite Hacq.
  unfold try_finally.
  destruct (try_except _ _ s0) as [r s1].
  unfold bind at 1. unfold on_driver at 1. rewrite Hquit. reflexivity.
Qed.

Lemma quit_exception_witness :
  let remote := fun _ : dict => Returns sticky_page in
  get_webdriver_browserstack "user" "key" remote chrome_config empty_store =
    (Returns sticky_page,
     snd (get_webdriver_browserstack "user" "key" remote chrome_config empty_store)) /\
  quit sticky_page = Raises (Exception "connection refused") /\
  fst (run_browserstack_test get_ok open_ok None "user" "key" remote chrome_config
         empty_store) = Raises (Exception "connection refused").
Proof.
  cbv zeta. split; [reflexivity |]. split; [reflexivity |].
  apply (quit_exception_escapes_the_run get_ok open_ok None "user" "key"
           (fun _ : dict => Returns sticky_page) chrome_config empty_store sticky_page
           (snd (get_webdriver_browserstack "user" "key"
                   (fun _ : dict => Returns sticky_page) chrome_config empty_store))
           (Exception "connection refused"));
    reflexivity.
Defined.

(** X21: a configuration without the key [browserName] makes the run raise
    the [KeyError] twice over: the acquisition raises it at line 76, and the
    handler raises it again while it builds its message at line 339; the
    run ends with that exception, and has printed nothing and called no
    session. *)
Theorem missing_browser_name_escapes
    requests_get open_wb translate_client user key remote config e s :
  getitem config "browserName" = Raises e ->
  run_browserstack_test requests_get open_wb translate_client user key remote config s =
    (Raises e, s).
Proof.
  intros H.
  unfold run_browserstack_test, get_webdriver_browserstack, session_name.
  unfold bind, call. rewrite H. reflexivity.
Qed.

Lemma missing_browser_name_witness :
  getitem nameless_config "browserName" = Raises (Exception "browserName") /\
  run_browserstack_test get_ok open_ok None "user" "key"
    (fun _ => Returns (page [])) nameless_config empty_store =
    (Raises (Exception "browserName"), empty_store).
Proof.
  split; [reflexivity |].
  apply (missing_browser_name_escapes get_ok open_ok None "user" "key"
           (fun _ => Returns (page [])) nameless_config (Exception "browserName")
           empty_store).
  reflexivity.
Defined.

(** X22: when the credentials are there but [webdriver.Remote] raises (the
    grid cannot be reached, say), the run makes no call on any session,
    prints the failure with that exception and returns normally. *)
Theorem unreachable_grid_fails_the_run
    requests_get open_wb translate_client user key remote config browser e s :
  user <> "" -> key <> "" ->
  getitem config "browserName" = Returns browser ->
  remote config = Raises e ->
  exists name,
    session_name config = Returns name /\
    run_browserstack_test requests_get open_wb translate_client user key remote config s =
      (Returns tt,
       {| stdout := stdout s ++
                    [InitializingBrowserStack browser
                       (get_default config "os" "N/A")
                       (get_default config "os_version" "N/A");
                     TestFailed name e];
          files := files s;
          all_translated_headers := all_translated_headers s;
          driver_calls := driver_calls s |}).
Proof.
  intros Huser Hkey Hbrowser Hremote.
  destruct (session_name_returns config browser Hbrowser) as [name Hname].
  exists name. split; [exact Hname |].
  unfold run_browserstack_test, get_webdriver_browserstack.
  unfold bind, call, print, raise. rewrite Hbrowser.
  assert (Hfull : negb (nonempty user) || negb (nonempty key) = false).
  { unfold nonempty.
    destruct (String.eqb_spec user "") as [-> | _]; [contradiction |].
    destruct (String.eqb_spec key "") as [-> | _]; [contradiction |].
    reflexivity. }
  rewrite Hfull, Hremote, Hname.
  cbn [stdout files all_translated_headers driver_calls].
  rewrite <- !app_assoc. reflexivity.
Qed.

Lemma unreachable_grid_witness :
  "user" <> "" /\ "key" <> "" /\
  getitem chrome_config "browserName" = Returns "chrome" /\
  (fun _ : dict => @Raises WebDriver (Exception "MaxRetryError")) chrome_config
    = Raises (Exception "MaxRetryError") /\
  exists name,
    session_name chrome_config = Returns name /\
    run_browserstack_test get_ok open_ok None "user" "key"
      (fun _ : dict => Raises (Exception "MaxRetryError")) chrome_config empty_store =
      (Returns tt,
       {| stdout := stdout empty_store ++
                    [InitializingBrowserStack "chrome"
                       (get_default chrome_config "os" "N/A")
                       (get_default chrome_config "os_version" "N/A");
                     TestFailed name (Exception "MaxRetryError")];
          files := files empty_store;
          all_translated_headers := all_translated_headers empty_store;
          driver_calls := driver_calls empty_store |}).
Proof.
  split; [discriminate |]. split; [discriminate |].
  split; [reflexivity |]. split; [reflexivity |].
  apply (unreachable_grid_fails_the_run get_ok open_ok None "user" "key"
           (fun _ : dict => Raises (Exception "MaxRetryError")) chrome_config "chrome"
           (Exception "MaxRetryError") empty_store);
    first [discriminate | reflexivity].
Defined.

(* ===================================================================== *)
(** * Further properties: the options for BrowserStack *)
(* ===================================================================== *)

Lemma dict_set_keys d key value k :
  In k (map fst (dict_set d key value)) -> k = key \/ In k (map fst d).
Proof.
  induction d as [| [k0 v0] rest IH]; cbn [dict_set map fst In].
  - intros [<- | []]. left. reflexivity.
  - destruct (String.eqb k0 key); cbn [map fst In]; [tauto |].
    intros [H | H]; [tauto |]. destruct (IH H); tauto.
Qed.

Lemma copy_key_keys config src dst d k :
  In k (map fst (copy_key config src dst d)) -> k = dst \/ In k (map fst d).
Proof.
  unfold copy_key. destruct (dict_get config src); [apply dict_set_keys | tauto].
Qed.

(** X23: whatever keys a configuration holds, the dictionary sent as
    [bstack:options] holds only keys of the fixed list: [os_version] and
    [device] go out under the names [osVersion] and [deviceName], and no
    other key of the configuration is passed on. *)
Theorem bstack_options_pass_known_keys_only username access_key config d k :
  bstack_options username access_key config = Returns d ->
  In k (map fst d) ->
  In k BSTACK_KEYS.
Proof.
  unfold bstack_options.
  destruct (getitem config "browserName") as [browser | e]; [| discriminate].
  cbv zeta. intros H. injection H as <-. intros Hin.
  repeat match goal with
         | H : In _ (map fst (copy_key _ _ _ _)) |- _ =>
             apply copy_key_keys in H; destruct H as [-> | H]; [cbn; tauto |]
         end.
  cbn in Hin. cbn. tauto.
Qed.

Lemma bstack_options_known_keys_witness :
  let d := match bstack_options "user" "key" galaxy_config with
           | Returns d => d
           | Raises _ => []
           end in
  bstack_options "user" "key" galaxy_config = Returns d /\
  In "deviceName" (map fst d) /\
  In "deviceName" BSTACK_KEYS.
Proof.
  cbv zeta. split; [reflexivity |]. split; [vm_compute; tauto |].
  apply (bstack_options_pass_known_keys_only "user" "key" galaxy_config
           (match bstack_options "user" "key" galaxy_config with
            | Returns d => d
            | Raises _ => []
            end) "deviceName");
    [reflexivity | vm_compute; tauto].
Defined.

(** X24: the dictionary sent as [bstack:options] carries the credentials
    as given, and the system, the system version, the device and the
    real-device flag exactly when the configuration has them, with the
    values of the configuration. *)
Theorem bstack_options_copy_the_configuration username access_key config d :
  bstack_options username access_key config = Returns d ->
  dict_get d "userName" = Some username /\
  dict_get d "accessKey" = Some access_key /\
  dict_get d "os" = dict_get config "os" /\
  dict_get d "osVersion" = dict_get config "os_version" /\
  dict_get d "deviceName" = dict_get config "device" /\
  dict_get d "realMobile" = dict_get config "realMobile".
Proof.
  unfold bstack_options.
  destruct (getitem config "browserName") as [browser | e]; [| discriminate].
  cbv zeta. intros H. injection H as <-.
  unfold copy_key, get_default.
  destruct (dict_get config "realMobile"), (dict_get config "device"),
    (dict_get config "os_version"), (dict_get config "os");
    repeat split; reflexivity.
Qed.

Lemma bstack_options_copy_witness :
  let d := match bstack_options "user" "key" galaxy_config with
           | Returns d => d
           | Raises _ => []
           end in
  bstack_options "user" "key" galaxy_config = Returns d /\
  dict_get d "userName" = Some "user" /\
  dict_get d "accessKey" = Some "key" /\
  dict_get d "os" = dict_get galaxy_config "os" /\
  dict_get d "osVersion" = dict_get galaxy_config "os_version" /\
  dict_get d "deviceName" = dict_get galaxy_config "device" /\
  dict_get d "realMobile" = dict_get galaxy_config "realMobile".
Proof.
  cbv zeta. split; [reflexivity |].
  apply (bstack_options_copy_the_configuration "user" "key" galaxy_config).
  reflexivity.
Defined.

(* ===================================================================== *)
(** * Further properties: the translation client *)
(* ===================================================================== *)

(** X25: [initialize_translation_client] leaves a client in the global
    exactly when the library can be imported, the key file exists, the
    credentials can be read from it and the client can be built from them;
    in every other case, exceptions included, the global is [None]. *)
Theorem translation_client_needs_every_step
    import_translate is_ImportError path_exists (Credentials : Type)
    (from_service_account_file : string -> result Credentials)
    (Client : Credentials -> result (string -> result dict)) path client :
  snd (initialize_translation_client import_translate is_ImportError path_exists
         Credentials from_service_account_file Client path) = Some client
  <->
  (exists u, import_translate = Returns u) /\
  path_exists path = true /\
  exists credentials,
    from_service_account_file path = Returns credentials /\
    Client credentials = Returns client.
Proof.
  unfold initialize_translation_client. cbv zeta. split.
  - destruct import_translate as [u | e].
    + destruct (path_exists path); [| discriminate].
      destruct (from_service_account_file path) as [credentials | e].
      * destruct (Client credentials) as [c | e] eqn:Ec.
        -- cbn [snd]. intros H. injection H as <-.
           split; [exists u; reflexivity |]. split; [reflexivity |].
           exists credentials. split; [reflexivity | exact Ec].
        -- destruct (is_ImportError e); discriminate.
      * destruct (is_ImportError e); discriminate.
    + destruct (is_ImportError e); discriminate.
  - intros [[u ->] [-> (credentials & -> & ->)]]. reflexivity.
Qed.

(** X26: when the key file does not exist, initialisation leaves no client
    and says so, and a pipeline run with what it leaves translates nothing:
    on a page that loads, all English titles are empty and there is no
    header to analyse. *)
Theorem missing_key_file_disables_translation
    is_ImportError path_exists (Credentials : Type)
    (from_service_account_file : string -> result Credentials)
    (Client : Credentials -> result (string -> result dict)) path
    requests_get open_wb driver url nodes s :
  path_exists path = false ->
  driver_get driver OPINION_SECTION_URL = Returns tt ->
  current_url driver = Returns url ->
  wait_until_present driver 15 TAG_NAME "article" = Returns tt ->
  driver_find_elements driver TAG_NAME "article" = Returns nodes ->
  let init :=
    initialize_translation_client (Returns tt) is_ImportError path_exists
      Credentials from_service_account_file Client path in
  fst init = [KeyFileNotFound path; TranslationWillBeSkipped] /\
  exists data s',
    scrape_and_process_articles requests_get open_wb (snd init) driver s =
      (Returns (Finished data [] []), s') /\
    Forall (fun record => title_english record = "") data.
Proof.
  intros Hpath Hget Hurl Hwait Hfind init.
  assert (Hinit : init = ([KeyFileNotFound path; TranslationWillBeSkipped], None)).
  { subst init. unfold initialize_translation_client. rewrite Hpath. reflexivity. }
  rewrite Hinit. cbn [fst snd]. split; [reflexivity |].
  destruct (scrape_finished requests_get open_wb None driver url nodes s
              Hget Hurl Hwait Hfind) as [s' E].
  cbv zeta in E.
  destruct (records_alone_untranslated requests_get open_wb None (firstn 5 nodes)
              eq_refl) as [Hh Hr].
  rewrite Hh in E.
  eexists. exists s'. split; [exact E | exact Hr].
Qed.

Lemma missing_key_file_witness :
  let nodes := [plain_article "A"; plain_article "B"] in
  no_file "key.json" = false /\
  driver_get (page nodes) OPINION_SECTION_URL = Returns tt /\
  current_url (page nodes) = Returns OPINION_SECTION_URL /\
  wait_until_present (page nodes) 15 TAG_NAME "article" = Returns tt /\
  driver_find_elements (page nodes) TAG_NAME "article" = Returns nodes /\
  let init :=
    initialize_translation_client (Returns tt) never_ImportError no_file
      string read_key echo_client "key.json" in
  fst init = [KeyFileNotFound "key.json"; TranslationWillBeSkipped] /\
  exists data s',
    scrape_and_process_articles get_ok open_ok (snd init) (page nodes) empty_store =
      (Returns (Finished data [] []), s') /\
    Forall (fun record => title_english record = "") data.
Proof.
  cbv zeta. repeat (split; [reflexivity |]).
  apply (missing_key_file_disables_translation never_ImportError no_file string
           read_key echo_client "key.json" get_ok open_ok
           (page [plain_article "A"; plain_article "B"]) OPINION_SECTION_URL
           [plain_article "A"; plain_article "B"] empty_store);
    reflexivity.
Defined.

(* ===================================================================== *)
(** * Further properties: edges of the translation and of the download *)
(* ===================================================================== *)

(** X27: an answer of the translation client that lacks the key
    [translatedText] counts as a failed translation: the English title is
    "Translation failed" and no header is added for the analysis. *)
Theorem answer_without_text_is_a_failure translate t translation e s :
  t <> "Title not found" ->
  translate t = Returns translation ->
  getitem translation "translatedText" = Raises e ->
  translate_title (Some translate) t s =
    (Returns "Translation failed", snd (print (ErrorTranslating t e) s)).
Proof.
  intros Ht Htr Hkey. unfold translate_title.
  destruct (String.eqb_spec t TITLE_NOT_FOUND) as [Heq | _]; [contradiction |].
  cbn [negb]. unfold try_except, bind, call. rewrite Htr, Hkey. reflexivity.
Qed.

Lemma answer_without_text_witness :
  "Editorial" <> "Title not found" /\
  keyless_client "Editorial" =
    Returns [("detectedSourceLanguage", "es"); ("input", "Editorial")] /\
  getitem [("detectedSourceLanguage", "es"); ("input", "Editorial")] "translatedText"
    = Raises (Exception "translatedText") /\
  translate_title (Some keyless_client) "Editorial" empty_store =
    (Returns "Translation failed",
     snd (print (ErrorTranslating "Editorial" (Exception "translatedText")) empty_store)).
Proof.
  split; [discriminate |]. split; [reflexivity |]. split; [reflexivity |].
  apply (answer_without_text_is_a_failure keyless_client "Editorial"
           [("detectedSourceLanguage", "es"); ("input", "Editorial")]
           (Exception "translatedText") empty_store);
    first [discriminate | reflexivity].
Defined.

(** X28: a download whose GET answers 200 opens the cover of the article's
    position before it reads the body.  If the file cannot be opened,
    nothing is written; if the body is read, it is written unchanged to that
    cover and to no other file; if reading the body raises, the cover is
    left empty.  In both failing cases the exception leaves the download for
    the handler of the image step. *)
Theorem download_opens_the_cover_then_reads_the_body
    requests_get open_wb i url response s :
  requests_get url = Returns response ->
  status_code response = 200 ->
  (forall e,
      open_wb (image_path i) = Raises e ->
      download requests_get open_wb i url s =
        (Raises e, snd (print (AttemptingDownload url) s))) /\
  (forall body,
      open_wb (image_path i) = Returns tt ->
      content response = Returns body ->
      download requests_get open_wb i url s =
        (Returns tt,
         {| stdout := stdout s ++ [AttemptingDownload url; ImageSaved (image_path i)];
            files := files s ++ [(image_path i, body)];
            all_translated_headers := all_translated_headers s;
            driver_calls := driver_calls s |})) /\
  (forall e,
      open_wb (image_path i) = Returns tt ->
      content response = Raises e ->
      download requests_get open_wb i url s =
        (Raises e,
         {| stdout := stdout s ++ [AttemptingDownload url];
            files := files s ++ [(image_path i, "")];
            all_translated_headers := all_translated_headers s;
            driver_calls := driver_calls s |})).
Proof.
  intros Hget Hstatus.
  unfold download. cbv zeta. fold (image_path i).
  unfold bind, call, print, store_file, raise. rewrite Hget, Hstatus. cbn [Nat.eqb].
  split; [| split].
  - intros e Hopen. rewrite Hopen. reflexivity.
  - intros body Hopen Hbody. rewrite Hopen, Hbody.
    cbn [stdout files all_translated_headers driver_calls].
    rewrite <- !app_assoc. reflexivity.
  - intros e Hopen Hbody. rewrite Hopen, Hbody. reflexivity.
Qed.

Lemma download_opens_the_cover_witness :
  get_cut_off "http://a.jpg" = Returns cut_off_response /\
  status_code cut_off_response = 200 /\
  (forall e,
      open_ok (image_path 0) = Raises e ->
      download get_cut_off open_ok 0 "http://a.jpg" empty_store =
        (Raises e, snd (print (AttemptingDownload "http://a.jpg") empty_store))) /\
  (forall body,
      open_ok (image_path 0) = Returns tt ->
      content cut_off_response = Returns body ->
      download get_cut_off open_ok 0 "http://a.jpg" empty_store =
        (Returns tt,
         {| stdout := stdout empty_store ++
                      [AttemptingDownload "http://a.jpg"; ImageSaved (image_path 0)];
            files := files empty_store ++ [(image_path 0, body)];
            all_translated_headers := all_translated_headers empty_store;
            driver_calls := driver_calls empty_store |})) /\
  (forall e,
      open_ok (image_path 0) = Returns tt ->
      content cut_off_response = Raises e ->
      download get_cut_off open_ok 0 "http://a.jpg" empty_store =
        (Raises e,
         {| stdout := stdout empty_store ++ [AttemptingDownload "http://a.jpg"];
            files := files empty_store ++ [(image_path 0, "")];
            all_translated_headers := all_translated_headers empty_store;
            driver_calls := driver_calls empty_store |})).
Proof.
  split; [reflexivity |]. split; [reflexivity |].
  apply (download_opens_the_cover_then_reads_the_body get_cut_off open_ok 0
           "http://a.jpg" cut_off_response empty_store);
    reflexivity.
Defined.

(** X29: a heading that is found but whose text cannot be read is treated
    like a missing heading: the record gets the title "Title not found",
    and, client or no client, an empty English title and no header; the
    translation client is not consulted for it. *)
Theorem unreadable_heading_is_not_translated
    requests_get open_wb translate_client i el h e s :
  find_element el TAG_NAME "h2" = Returns h ->
  text h = Raises e ->
  exists record s',
    article_fields requests_get open_wb translate_client i el s = (Returns record, s') /\
    title_spanish record = "Title not found" /\
    title_english record = "" /\
    all_translated_headers s' = all_translated_headers s /\
    forall other_client,
      fst (article_fields requests_get open_wb other_client i el s) = Returns record.
Proof.
  intros Hh Ht.
  assert (Htitle : forall s0,
             scrape_title i el s0 =
               (Returns TITLE_NOT_FOUND, snd (print (CouldNotFindTitle (i + 1) e) s0))).
  { intros s0. unfold scrape_title, try_except, bind, call. rewrite Hh, Ht. reflexivity. }
  assert (Hrun : forall client,
             exists c u s4,
               article_fields requests_get open_wb client i el s =
                 (Returns {| title_spanish := TITLE_NOT_FOUND; content_spanish := c;
                             image_url := u; title_english := "" |}, s4) /\
               all_translated_headers s4 = all_translated_headers s /\
               fst (scrape_content el (snd (print (CouldNotFindTitle (i + 1) e) s)))
                 = Returns c /\
               forall s2, fst (handle_image requests_get open_wb i el s2) = Returns u).
  { intros client.
    destruct (article_fields_steps requests_get open_wb client i el s)
      as (t & s1 & c & s2 & u & s3 & tt & s4 & E1 & E2 & E3 & E4 & E).
    rewrite Htitle in E1. injection E1 as <- <-.
    rewrite (translate_title_skipped client TITLE_NOT_FOUND s3 (or_intror eq_refl)) in E4.
    injection E4 as <- <-.
    exists c, u. eexists. split; [exact E |]. split; [| split].
    - match type of E2 with
      | scrape_content el ?st = _ => pose proof (scrape_content_headers el st) as F2
      end.
      rewrite E2 in F2.
      pose proof (handle_image_headers requests_get open_wb i el s2) as F3.
      rewrite E3 in F3.
      unfold same_headers in *. cbn [snd print all_translated_headers] in *. congruence.
    - cbn [print snd]. rewrite E2. reflexivity.
    - intros s2'.
      destruct (handle_image_alike requests_get open_wb requests_get open_wb i i el
                  s2 s2') as [Hfst _].
      rewrite <- Hfst, E3. reflexivity. }
  destruct (Hrun translate_client) as (c & u & s4 & E & Hh4 & Hc & Hu).
  eexists. exists s4. split; [exact E |].
  cbn [title_spanish title_english]. repeat split; try assumption.
  intros other. destruct (Hrun other) as (c' & u' & s4' & E' & _ & Hc' & Hu').
  rewrite E'. cbn [fst].
  rewrite Hc in Hc'. injection Hc' as <-.
  specialize (Hu s). specialize (Hu' s). rewrite Hu in Hu'. injection Hu' as <-.
  reflexivity.
Qed.

Lemma unreadable_heading_witness :
  find_element stale_heading_article TAG_NAME "h2" = Returns stale_paragraph /\
  text stale_paragraph = Raises (Exception "stale element reference") /\
  exists record s',
    article_fields get_ok open_ok (Some (failing_on "B")) 0 stale_heading_article
      empty_store = (Returns record, s') /\
    title_spanish record = "Title not found" /\
    title_english record = "" /\
    all_translated_headers s' = all_translated_headers empty_store /\
    forall other_client,
      fst (article_fields get_ok open_ok other_client 0 stale_heading_article empty_store)
        = Returns record.
Proof.
  split; [reflexivity |]. split; [reflexivity |].
  apply (unreadable_heading_is_not_translated get_ok open_ok (Some (failing_on "B")) 0
           stale_heading_article stale_paragraph (Exception "stale element reference")
           empty_store);
    reflexivity.
Defined.
